(** * action-pack: the prediction pipeline of [python/model.py] and the
      server of [python/server.py]

    A shallow embedding of [ActionPredictor] (mode selection, mock
    generator, prompt construction, response parsing, fallback policy and
    the life cycle of the transient screenshot file) and of the handlers
    of the server (startup, health check, prediction endpoint), together
    with the parts of the Python runtime they lean on: [re.search] for the
    pattern used by [_parse_response], [json.loads], [base64.b64decode],
    the [float]/[int]/[str] coercions and binary64 arithmetic.

    Conventions.
    - A Python [str] is a [string] holding its UTF-8 bytes; [bytes] are a
      [string] too.
    - A Python [float] is a binary64 number, [spec_float] at precision 53.
    - A Python [int] is a [Z].
    - Exceptions are the classes below [Exception]; [print] and
      [traceback.print_exc] only write to the console and are left out,
      but for the line [lifespan] prints, which is kept as a value.
    - The interpreter runs with its default limit of 4300 digits on the
      conversion between [int] and [str]; the room left under its
      recursion limit when [json.loads] is called is a parameter of the
      runtime.
    - The file system is the set of existing paths; [os.unlink] of a path
      in it succeeds.
    - The imports inside the functions of a predictor that holds a model
      and [os.close] on the descriptor [mkstemp] returned are no steps of
      their own.
    - A request reaches a handler validated: its fields have the types
      of [schema.PredictionRequest]; and building a
      [schema.PredictionResponse] from values of the types of its fields
      raises nothing. *)

From Stdlib Require Import ZArith NArith Ascii List Bool Lia.
From Stdlib Require Import Floats.SpecFloat.
From stdpp Require Import gmap strings pretty.

Local Open Scope Z_scope.

(** ** Exceptions and results *)

(** The exception classes that occur, with [JSONDecodeError] a subclass of
    [ValueError] as in the [json] module.  [OtherError] stands for any other
    subclass of [Exception], named by its class. *)
Inductive exn : Type :=
| JSONDecodeError
| ValueError (msg : string)
| TypeError
| OverflowError
| OtherError (cls : string).

(** [isinstance(e, ValueError)] *)
Definition is_ValueError (e : exn) : bool :=
  match e with
  | JSONDecodeError | ValueError _ => true
  | _ => false
  end.

Inductive result (A : Type) : Type :=
| Return (a : A)
| Raise (e : exn).
Arguments Return {A} a.
Arguments Raise {A} e.

Definition rbind {A B : Type} (r : result A) (k : A -> result B) : result B :=
  match r with
  | Return a => k a
  | Raise e => Raise e
  end.

(** ** Characters *)

Definition code (c : ascii) : N := N_of_ascii c.
Definition chr (n : N) : ascii := ascii_of_N n.

Definition is_digit (c : ascii) : bool := ((48 <=? code c) && (code c <=? 57))%N.
Definition digit_val (c : ascii) : N := (code c - 48)%N.

(** The double quote and the backslash, by code. *)
Definition dquote : ascii := chr 34.
Definition backslash : ascii := chr 92.

(** JSON text in the examples is written with apostrophes; [jq] turns each
    apostrophe into a double quote. *)
Fixpoint jq (s : string) : string :=
  match s with
  | EmptyString => EmptyString
  | String c s' => String (if Ascii.eqb c "'" then dquote else c) (jq s')
  end.

(** ** Binary64 *)

Module PyFloat.

Definition prec : Z := 53.
Definition emax : Z := 1024.

Definition float : Type := spec_float.

Definition nan : float := S754_nan.
Definition inf (neg : bool) : float := S754_infinity neg.

(** The nearest binary64 number to the integer [z] (ties to even);
    an infinity when [z] is out of range. *)
Definition of_Z (z : Z) : float := binary_normalize prec emax z 0 false.

(** The nearest binary64 number to [(-1)^neg * m * 10^e]: what [float]
    makes of a decimal numeral. *)
Definition of_decimal (neg : bool) (m : N) (e : Z) : float :=
  match m with
  | N0 => S754_zero neg
  | Npos p =>
      if 0 <=? e
      then binary_normalize prec emax (cond_Zopp neg (Zpos p * 10 ^ e)) 0 false
      else SFdiv prec emax (S754_finite neg p 0)
                           (S754_finite false (Z.to_pos (10 ^ (- e))) 0)
  end.

(** The float a decimal literal [m]e[e] of the source denotes. *)
Definition dec (m : Z) (e : Z) : float := of_decimal (m <? 0) (Z.abs_N m) e.

Definition leb (a b : float) : bool := SFleb a b.

Definition is_nan (f : float) : bool :=
  match f with S754_nan => true | _ => false end.

(** Truncation toward zero of a finite number; [None] for NaN and the
    infinities. *)
Definition trunc (f : float) : option Z :=
  match f with
  | S754_zero _ => Some 0
  | S754_finite s m e =>
      Some (cond_Zopp s (if 0 <=? e then Zpos m * 2 ^ e else Zpos m / 2 ^ (- e)))
  | _ => None
  end.

End PyFloat.

Abbreviation float := PyFloat.float.

(** ** Python values *)

(** The values [json.loads] produces, which are also the values the
    coercions of [_parse_response] receive. *)
#[warnings="-register-all"] Inductive pyobj : Type :=
| PyNone
| PyBool (b : bool)
| PyInt (z : Z)
| PyFloat (f : float)
| PyStr (s : string)
| PyList (l : list pyobj)
| PyDict (items : list (string * pyobj)).

(** [v == s] for a [str] literal [s] *)
Definition py_eq_str (v : pyobj) (s : string) : bool :=
  match v with
  | PyStr t => String.eqb t s
  | _ => false
  end.

(** A [dict] keeps its items in insertion order, one item per key. *)
Abbreviation pydict := (list (string * pyobj)).

(** [d[key] = v]: a key already present keeps its place and takes the new
    value, a new key goes last. *)
Fixpoint dict_set (d : pydict) (key : string) (v : pyobj) : pydict :=
  match d with
  | nil => (key, v) :: nil
  | (k, w) :: d' =>
      if String.eqb k key then (k, v) :: d' else (k, w) :: dict_set d' key v
  end.

Fixpoint dict_lookup (d : pydict) (key : string) : option pyobj :=
  match d with
  | nil => None
  | (k, w) :: d' => if String.eqb k key then Some w else dict_lookup d' key
  end.

(** [d.get(key, default)] *)
Definition dict_get (d : pydict) (key : string) (default : pyobj) : pyobj :=
  match dict_lookup d key with
  | Some v => v
  | None => default
  end.

(** ** The pattern of [_parse_response] *)

(** [match_body s] matches [[^{}]*\}] at the start of [s] and gives the
    matched text.  The character class has no way to step over a brace, so
    the greedy run ends at the first brace and matches exactly when that
    brace closes. *)
Fixpoint match_body (s : string) : option string :=
  match s with
  | EmptyString => None
  | String c s' =>
      if Ascii.eqb c "}" then Some (String c EmptyString)
      else if Ascii.eqb c "{" then None
      else option_map (String c) (match_body s')
  end.

(** [re.search(r'\{[^{}]*\}', s)]: the match at the leftmost position where
    one exists, as [json_match.group()]; [None] when there is none. *)
Fixpoint re_search_braces (s : string) : option string :=
  match s with
  | EmptyString => None
  | String c s' =>
      if Ascii.eqb c "{" then
        match match_body s' with
        | Some m => Some (String c m)
        | None => re_search_braces s'
        end
      else re_search_braces s'
  end.

(** ** The interpreter around the code *)

(** What the file takes from the interpreter as given: reading a numeral
    out of a [str] (where CPython also accepts the decimal digits and
    spaces of every script), printing floats and containers, and the room
    left on the call stack.  The development is stated for any such
    runtime; [Cpython.runtime] below is the one used to evaluate concrete
    calls. *)
Class PyRuntime : Type := {
  (** [float(s)] for a [str]; [None] stands for [ValueError] *)
  str_to_float : string -> option float;
  (** [int(s)] for a [str]; [None] stands for [ValueError] *)
  str_to_int : string -> option Z;
  (** [repr(f)] for a [float] *)
  float_repr : float -> string;
  (** [repr(v)] for a [list] or a [dict] *)
  container_repr : pyobj -> string;
  (** how many containers [json.loads] may open inside the outermost one
      before the recursion limit stops it: the limit less the depth of
      the call stack at that point *)
  recursion_spare : nat
}.

(** ** [json.loads] *)

Module Json.

(** Outcome of a scanner: a value and the text after it, a syntax error,
    an exception of another kind, or the definition's recursion cut
    off. *)
Inductive scan (A : Type) : Type :=
| Scanned (a : A) (rest : string)
| Reject
| Failed (e : exn)
| OutOfFuel.
Arguments Scanned {A} a rest.
Arguments Reject {A}.
Arguments Failed {A} e.
Arguments OutOfFuel {A}.

Definition is_ws (c : ascii) : bool :=
  let n := code c in ((n =? 32) || (n =? 9) || (n =? 10) || (n =? 13))%N.

Fixpoint skip_ws (s : string) : string :=
  match s with
  | String c s' => if is_ws c then skip_ws s' else s
  | EmptyString => s
  end.

Definition hex_val (c : ascii) : option N :=
  let n := code c in
  if ((48 <=? n) && (n <=? 57))%N then Some (n - 48)%N
  else if ((97 <=? n) && (n <=? 102))%N then Some (n - 87)%N
  else if ((65 <=? n) && (n <=? 70))%N then Some (n - 55)%N
  else None.

Definition hex4 (a b c d : ascii) : option N :=
  match hex_val a, hex_val b, hex_val c, hex_val d with
  | Some x, Some y, Some z, Some w => Some (((x * 16 + y) * 16 + z) * 16 + w)%N
  | _, _, _, _ => None
  end.

(** UTF-8 bytes of a code point (surrogates included, in three bytes). *)
Definition utf8 (n : N) : string :=
  (if n <? 128 then String (chr n) EmptyString
   else if n <? 2048 then
     String (chr (192 + n / 64)) (String (chr (128 + n mod 64)) EmptyString)
   else if n <? 65536 then
     String (chr (224 + n / 4096))
       (String (chr (128 + (n / 64) mod 64)) (String (chr (128 + n mod 64)) EmptyString))
   else
     String (chr (240 + n / 262144))
       (String (chr (128 + (n / 4096) mod 64))
          (String (chr (128 + (n / 64) mod 64)) (String (chr (128 + n mod 64)) EmptyString))))%N.

Definition is_high_surrogate (n : N) : bool := ((55296 <=? n) && (n <=? 56319))%N.
Definition is_low_surrogate (n : N) : bool := ((56320 <=? n) && (n <=? 57343))%N.
Definition join_surrogates (hi lo : N) : N :=
  (65536 + ((hi - 55296) * 1024 + (lo - 56320)))%N.

(** The character an escape letter stands for. *)
Definition unescape (c : ascii) : option ascii :=
  let n := code c in
  (if n =? 34 then Some c          (* quote *)
   else if n =? 92 then Some c     (* backslash *)
   else if n =? 47 then Some c     (* slash *)
   else if n =? 98 then Some (chr 8)
   else if n =? 102 then Some (chr 12)
   else if n =? 110 then Some (chr 10)
   else if n =? 114 then Some (chr 13)
   else if n =? 116 then Some (chr 9)
   else None)%N.

Definition prepend (p : string) (r : option (string * string)) : option (string * string) :=
  match r with
  | Some (t, rest) => Some (p +:+ t, rest)
  | None => None
  end.

(** [scanstring] in strict mode, from just after the opening quote: the
    decoded string and the text after the closing quote. *)
Fixpoint scanstring (s : string) : option (string * string) :=
  match s with
  | EmptyString => None
  | String c s1 =>
      if Ascii.eqb c dquote then Some (EmptyString, s1)
      else if Ascii.eqb c backslash then
        match s1 with
        | EmptyString => None
        | String e s2 =>
            if Ascii.eqb e "u" then
              match s2 with
              | String h1 (String h2 (String h3 (String h4 s3))) =>
                  match hex4 h1 h2 h3 h4 with
                  | None => None
                  | Some uni =>
                      match s3 with
                      | String b (String u (String g1 (String g2 (String g3 (String g4 s4))))) =>
                          if is_high_surrogate uni && Ascii.eqb b backslash && Ascii.eqb u "u" then
                            match hex4 g1 g2 g3 g4 with
                            | None => None
                            | Some uni2 =>
                                if is_low_surrogate uni2
                                then prepend (utf8 (join_surrogates uni uni2)) (scanstring s4)
                                else prepend (utf8 uni) (scanstring s3)
                            end
                          else prepend (utf8 uni) (scanstring s3)
                      | _ => prepend (utf8 uni) (scanstring s3)
                      end
                  end
              | _ => None
              end
            else
              match unescape e with
              | Some ch => prepend (String ch EmptyString) (scanstring s2)
              | None => None
              end
        end
      else if (code c <? 32)%N then None
      else prepend (String c EmptyString) (scanstring s1)
  end.

(** The leading run of decimal digits of [s], as digit values. *)
Fixpoint digits (s : string) : list N * string :=
  match s with
  | String c s' =>
      if is_digit c then let '(ds, r) := digits s' in (digit_val c :: ds, r)
      else (nil, s)
  | EmptyString => (nil, s)
  end.

Definition num (ds : list N) : N := fold_left (fun a d => (a * 10 + d)%N) ds 0%N.

(** The fraction [\.[0-9]+], when present. *)
Definition frac_part (s : string) : list N * string :=
  match s with
  | String c t =>
      if Ascii.eqb c "."
      then let '(ds, r) := digits t in
           match ds with nil => (nil, s) | _ => (ds, r) end
      else (nil, s)
  | EmptyString => (nil, s)
  end.

(** The exponent [[eE][-+]?[0-9]+], when present. *)
Definition exp_part (s : string) : option Z * string :=
  match s with
  | String c t =>
      if Ascii.eqb c "e" || Ascii.eqb c "E" then
        let '(neg, t1) :=
          match t with
          | String sg t' =>
              if Ascii.eqb sg "-" then (true, t')
              else if Ascii.eqb sg "+" then (false, t')
              else (false, t)
          | EmptyString => (false, t)
          end in
        let '(ds, r) := digits t1 in
        match ds with
        | nil => (None, s)
        | _ => (Some (cond_Zopp neg (Z.of_N (num ds))), r)
        end
      else (None, s)
  | EmptyString => (None, s)
  end.

(** [sys.int_info.default_max_str_digits]: the longest decimal numeral
    that is converted to an [int]. *)
Definition max_str_digits : N := 4300.

(** The [ValueError] of a longer numeral (its message goes on with the
    number of digits found). *)
Definition digit_limit_error : exn :=
  ValueError "Exceeds the limit (4300 digits) for integer string conversion".

Definition RecursionError : exn := OtherError "RecursionError".

(** What follows the integer part: an [int] when there is neither fraction
    nor exponent, otherwise the [float] of the whole numeral.  The [int]
    is refused when the numeral has more than [max_str_digits] digits. *)
Definition number_tail (neg : bool) (int_digits : list N) (s : string)
  : result pyobj * string :=
  let '(fr, s1) := frac_part s in
  let '(ex, s2) := exp_part s1 in
  match fr, ex with
  | nil, None =>
      (if (max_str_digits <? N.of_nat (length int_digits))%N
       then Raise digit_limit_error
       else Return (PyInt (cond_Zopp neg (Z.of_N (num int_digits)))), s2)
  | _, _ =>
      (Return (PyFloat (PyFloat.of_decimal neg (num (int_digits ++ fr))
                          (default 0 ex - Z.of_nat (length fr)))), s2)
  end.

(** [NUMBER_RE]: an optional minus sign and an integer part without leading
    zeros, then an optional fraction and an optional exponent. *)
Definition match_number (s : string) : option (result pyobj * string) :=
  let '(neg, s1) :=
    match s with
    | String c t => if Ascii.eqb c "-" then (true, t) else (false, s)
    | EmptyString => (false, s)
    end in
  match s1 with
  | String c s2 =>
      if Ascii.eqb c "0" then Some (number_tail neg (0%N :: nil) s2)
      else if is_digit c then
        let '(ds, s3) := digits s2 in Some (number_tail neg (digit_val c :: ds) s3)
      else None
  | EmptyString => None
  end.

(** [s] without the prefix [p], when it starts with it. *)
Fixpoint strip_prefix (p s : string) : option string :=
  match p, s with
  | EmptyString, _ => Some s
  | String a p', String b s' => if Ascii.eqb a b then strip_prefix p' s' else None
  | String _ _, EmptyString => None
  end.

(** The literals other than numbers, in the scanner's order around the
    number test. *)
Definition match_literal (s : string) : option (result pyobj * string) :=
  match strip_prefix "null" s with
  | Some r => Some (Return PyNone, r)
  | None =>
  match strip_prefix "true" s with
  | Some r => Some (Return (PyBool true), r)
  | None =>
  match strip_prefix "false" s with
  | Some r => Some (Return (PyBool false), r)
  | None =>
  match match_number s with
  | Some vr => Some vr
  | None =>
  match strip_prefix "NaN" s with
  | Some r => Some (Return (PyFloat PyFloat.nan), r)
  | None =>
  match strip_prefix "Infinity" s with
  | Some r => Some (Return (PyFloat (PyFloat.inf false)), r)
  | None =>
  match strip_prefix "-Infinity" s with
  | Some r => Some (Return (PyFloat (PyFloat.inf true)), r)
  | None => None
  end end end end end end end.

(** [scan_once], [JSONObject] and [JSONArray].  [parse_members] starts just
    after the opening quote of a key, [parse_elements] at an element.
    [depth] is the number of containers that may still be opened: the
    scanner enters a recursive call for every object and array, the empty
    ones too, and raises [RecursionError] when none is left.  [fuel]
    only bounds the recursion of the definition. *)
Fixpoint scan_once (fuel depth : nat) (s : string) {struct fuel} : scan pyobj :=
  match fuel with
  | O => OutOfFuel
  | S fuel' =>
      match s with
      | EmptyString => Reject
      | String c s1 =>
          if Ascii.eqb c dquote then
            match scanstring s1 with
            | Some (t, r) => Scanned (PyStr t) r
            | None => Reject
            end
          else if Ascii.eqb c "{" then
            match depth with
            | O => Failed RecursionError
            | S depth' =>
                match skip_ws s1 with
                | String c2 s2 =>
                    if Ascii.eqb c2 "}" then Scanned (PyDict nil) s2
                    else if Ascii.eqb c2 dquote then parse_members fuel' depth' nil s2
                    else Reject
                | EmptyString => Reject
                end
            end
          else if Ascii.eqb c "[" then
            match depth with
            | O => Failed RecursionError
            | S depth' =>
                match skip_ws s1 with
                | String c2 s2 =>
                    if Ascii.eqb c2 "]" then Scanned (PyList nil) s2
                    else parse_elements fuel' depth' nil (String c2 s2)
                | EmptyString => Reject
                end
            end
          else
            match match_literal s with
            | Some (Return v, r) => Scanned v r
            | Some (Raise e, _) => Failed e
            | None => Reject
            end
      end
  end
with parse_members (fuel depth : nat) (acc : pydict) (s : string) {struct fuel}
  : scan pyobj :=
  match fuel with
  | O => OutOfFuel
  | S fuel' =>
      match scanstring s with
      | None => Reject
      | Some (key, s1) =>
          match skip_ws s1 with
          | String c s2 =>
              if Ascii.eqb c ":" then
                match scan_once fuel' depth (skip_ws s2) with
                | Scanned v s3 =>
                    let acc' := dict_set acc key v in
                    match skip_ws s3 with
                    | String c3 s4 =>
                        if Ascii.eqb c3 "}" then Scanned (PyDict acc') s4
                        else if Ascii.eqb c3 "," then
                          match skip_ws s4 with
                          | String c5 s5 =>
                              if Ascii.eqb c5 dquote then parse_members fuel' depth acc' s5
                              else Reject
                          | EmptyString => Reject
                          end
                        else Reject
                    | EmptyString => Reject
                    end
                | Reject => Reject
                | Failed e => Failed e
                | OutOfFuel => OutOfFuel
                end
              else Reject
          | EmptyString => Reject
          end
      end
  end
with parse_elements (fuel depth : nat) (acc : list pyobj) (s : string) {struct fuel}
  : scan pyobj :=
  match fuel with
  | O => OutOfFuel
  | S fuel' =>
      match scan_once fuel' depth s with
      | Scanned v s1 =>
          match skip_ws s1 with
          | String c s2 =>
              if Ascii.eqb c "]" then Scanned (PyList (rev (v :: acc))) s2
              else if Ascii.eqb c "," then
                parse_elements fuel' depth (v :: acc) (skip_ws s2)
              else Reject
          | EmptyString => Reject
          end
      | Reject => Reject
      | Failed e => Failed e
      | OutOfFuel => OutOfFuel
      end
  end.

(** Fuel that no text exhausts (see [loads_fuel_enough]). *)
Definition fuel_for (s : string) : nat := 2 * String.length s + 2.

(** [json.loads(s)]: one value, surrounded by optional whitespace.  The
    outermost container can always be opened, [recursion_spare] more
    inside it. *)
Definition loads {R : PyRuntime} (s : string) : result pyobj :=
  let s0 := skip_ws s in
  match scan_once (fuel_for s0) (S recursion_spare) s0 with
  | Scanned v r =>
      match skip_ws r with
      | EmptyString => Return v
      | String _ _ => Raise JSONDecodeError
      end
  | Reject => Raise JSONDecodeError
  | Failed e => Raise e
  | OutOfFuel => Raise RecursionError
  end.

End Json.



(** ** The coercions [float], [int] and [str] *)

Section Coercions.
Context {R : PyRuntime}.

(** [float(v)] *)
Definition py_float (v : pyobj) : result float :=
  match v with
  | PyFloat f => Return f
  | PyInt z =>
      match PyFloat.of_Z z with
      | S754_infinity _ => Raise OverflowError
      | f => Return f
      end
  | PyBool b => Return (PyFloat.of_Z (if b then 1 else 0))
  | PyStr s =>
      match str_to_float s with
      | Some f => Return f
      | None => Raise (ValueError "could not convert string to float")
      end
  | PyNone | PyList _ | PyDict _ => Raise TypeError
  end.

(** [int(v)] *)
Definition py_int (v : pyobj) : result Z :=
  match v with
  | PyInt z => Return z
  | PyBool b => Return (if b then 1 else 0)
  | PyFloat f =>
      match PyFloat.trunc f with
      | Some z => Return z
      | None =>
          if PyFloat.is_nan f
          then Raise (ValueError "cannot convert float NaN to integer")
          else Raise OverflowError
      end
  | PyStr s =>
      match str_to_int s with
      | Some z => Return z
      | None => Raise (ValueError "invalid literal for int() with base 10")
      end
  | PyNone | PyList _ | PyDict _ => Raise TypeError
  end.

(** [str(v)], for a value that [json.loads] returned or a default of the
    parser: its integers are within the digit limit, so [str] does not
    refuse them. *)
Definition py_str (v : pyobj) : string :=
  match v with
  | PyStr s => s
  | PyNone => "None"
  | PyBool b => if b then "True" else "False"
  | PyInt z => pretty z
  | PyFloat f => float_repr f
  | PyList _ | PyDict _ => container_repr v
  end.

End Coercions.

(** ** CPython on ASCII text *)

Module Cpython.

Definition is_space (c : ascii) : bool :=
  let n := code c in (((9 <=? n) && (n <=? 13)) || (n =? 32))%N.

Fixpoint lstrip (l : list ascii) : list ascii :=
  match l with
  | c :: l' => if is_space c then lstrip l' else l
  | nil => nil
  end.

Definition strip (l : list ascii) : list ascii := rev (lstrip (rev (lstrip l))).

(** Digit grouping: an underscore is dropped when it stands between two
    digits and is an error anywhere else. *)
Fixpoint drop_underscores (prev_digit : bool) (l : list ascii) : option (list ascii) :=
  match l with
  | nil => Some nil
  | c :: l' =>
      if Ascii.eqb c "_" then
        if prev_digit && match l' with d :: _ => is_digit d | nil => false end
        then drop_underscores false l'
        else None
      else option_map (cons c) (drop_underscores (is_digit c) l')
  end.

Fixpoint take_digits (l : list ascii) : list N * list ascii :=
  match l with
  | c :: l' =>
      if is_digit c then let '(ds, r) := take_digits l' in (digit_val c :: ds, r)
      else (nil, l)
  | nil => (nil, l)
  end.

Definition take_sign (l : list ascii) : bool * list ascii :=
  match l with
  | c :: l' =>
      if Ascii.eqb c "-" then (true, l')
      else if Ascii.eqb c "+" then (false, l')
      else (false, l)
  | nil => (false, l)
  end.

Definition lower (c : ascii) : ascii :=
  let n := code c in if ((65 <=? n) && (n <=? 90))%N then chr (n + 32) else c.

Definition lower_string (l : list ascii) : string :=
  String.string_of_list_ascii (map lower l).

(** A decimal numeral with no sign: digits with an optional point and an
    optional exponent, at least one digit before the exponent. *)
Definition unsigned_decimal (neg : bool) (l : list ascii) : option float :=
  let '(ip, l1) := take_digits l in
  let '(fp, l2) :=
    match l1 with
    | c :: t => if Ascii.eqb c "." then take_digits t else (nil, l1)
    | nil => (nil, l1)
    end in
  match ip ++ fp with
  | nil => None
  | ds =>
      match l2 with
      | nil => Some (PyFloat.of_decimal neg (Json.num ds) (- Z.of_nat (length fp)))
      | c :: t =>
          if Ascii.eqb c "e" || Ascii.eqb c "E" then
            let '(eneg, t1) := take_sign t in
            match take_digits t1 with
            | (d :: ds', nil) =>
                Some (PyFloat.of_decimal neg (Json.num ds)
                        (cond_Zopp eneg (Z.of_N (Json.num (d :: ds'))) - Z.of_nat (length fp)))
            | _ => None
            end
          else None
      end
  end.

(** [float(s)] on ASCII text *)
Definition read_float (s : string) : option float :=
  match drop_underscores false (strip (String.list_ascii_of_string s)) with
  | None => None
  | Some l =>
      let '(neg, l1) := take_sign l in
      let w := lower_string l1 in
      if String.eqb w "inf" || String.eqb w "infinity" then Some (PyFloat.inf neg)
      else if String.eqb w "nan" then Some PyFloat.nan
      else unsigned_decimal neg l1
  end.

(** [int(s)] on ASCII text, base ten; a numeral of more than
    [Json.max_str_digits] digits is refused *)
Definition read_int (s : string) : option Z :=
  match drop_underscores false (strip (String.list_ascii_of_string s)) with
  | None => None
  | Some l =>
      let '(neg, l1) := take_sign l in
      match take_digits l1 with
      | (d :: ds, nil) =>
          if (Json.max_str_digits <? N.of_nat (length (d :: ds)))%N then None
          else Some (cond_Zopp neg (Z.of_N (Json.num (d :: ds))))
      | _ => None
      end
  end.

(** *** Shortest decimal that reads back as the same float *)

(** [m * 2^e] as a fraction. *)
Definition ratio (m : positive) (e : Z) : Z * Z :=
  if 0 <=? e then (Zpos m * 2 ^ e, 1) else (Zpos m, 2 ^ (- e)).

(** The fraction divided by [10^q]. *)
Definition scale (nd : Z * Z) (q : Z) : Z * Z :=
  let '(n, d) := nd in
  if 0 <=? q then (n, d * 10 ^ q) else (n * 10 ^ (- q), d).

Definition ge_pow10 (nd : Z * Z) (k : Z) : bool :=
  let '(n, d) := scale nd k in d <=? n.

(** The decimal exponent [k] with [10^k <= v < 10^(k+1)]. *)
Definition log10_floor (nd : Z * Z) : Z :=
  let '(n, d) := nd in
  let est := ((Z.log2 n - Z.log2 d) * 30103) / 100000 in
  if ge_pow10 nd (est + 2) then est + 2
  else if ge_pow10 nd (est + 1) then est + 1
  else if ge_pow10 nd est then est
  else if ge_pow10 nd (est - 1) then est - 1
  else est - 2.

Definition same_float (a b : float) : bool :=
  match a, b with
  | S754_finite s m e, S754_finite s' m' e' =>
      Bool.eqb s s' && Pos.eqb m m' && Z.eqb e e'
  | _, _ => false
  end.

(** The [n]-digit decimals just below and above [m * 2^e]; the one that
    reads back as the same float, the nearer one when both do, the even one
    on a tie. *)
Definition candidate (m : positive) (e : Z) (k n : Z) : option (Z * Z) :=
  let q := k - n + 1 in
  let '(a, b) := scale (ratio m e) q in
  let lo := a / b in
  let r := a mod b in
  let back d := same_float (PyFloat.of_decimal false (Z.to_N d) q) (S754_finite false m e) in
  if r =? 0 then (if back lo then Some (lo, q) else None)
  else
    match back lo, back (lo + 1) with
    | true, false => Some (lo, q)
    | false, true => Some (lo + 1, q)
    | false, false => None
    | true, true =>
        match 2 * r ?= b with
        | Lt => Some (lo, q)
        | Gt => Some (lo + 1, q)
        | Eq => Some (if Z.even lo then lo else lo + 1, q)
        end
    end.

Fixpoint shortest (steps : nat) (m : positive) (e : Z) (k n : Z) : Z * Z :=
  match steps with
  | O => let q := k - n + 1 in let '(a, b) := scale (ratio m e) q in (a / b, q)
  | S steps' =>
      match candidate m e k n with
      | Some dq => dq
      | None => shortest steps' m e k (n + 1)
      end
  end.

Fixpoint strip_zeros (fuel : nat) (d q : Z) : Z * Z :=
  match fuel with
  | O => (d, q)
  | S fuel' => if (d mod 10 =? 0) && negb (d =? 0) then strip_zeros fuel' (d / 10) (q + 1) else (d, q)
  end.

Fixpoint zeros (n : nat) : string :=
  match n with O => EmptyString | S n' => String "0" (zeros n') end.

Fixpoint take_str (n : nat) (s : string) : string :=
  match n, s with
  | S n', String c s' => String c (take_str n' s')
  | _, _ => EmptyString
  end.

Fixpoint drop_str (n : nat) (s : string) : string :=
  match n, s with
  | S n', String _ s' => drop_str n' s'
  | _, _ => s
  end.

(** Layout of [repr]: digits [ds] with the decimal point after [decpt] of
    them; scientific notation when [decpt] is above 16 or below -3. *)
Definition layout (ds : string) (decpt : Z) : string :=
  let len := Z.of_nat (String.length ds) in
  if (16 <? decpt) || (decpt <? -3) then
    let ex := decpt - 1 in
    let mant :=
      match ds with
      | String c EmptyString => ds
      | String c rest => String c (String "." rest)
      | EmptyString => ds
      end in
    let digits := pretty (Z.abs ex) in
    mant +:+ "e" +:+ (if ex <? 0 then "-" else "+")
         +:+ (if Z.abs ex <? 10 then "0" else "") +:+ digits
  else if decpt <=? 0 then
    "0." +:+ zeros (Z.to_nat (- decpt)) +:+ ds
  else if len <=? decpt then
    ds +:+ zeros (Z.to_nat (decpt - len)) +:+ ".0"
  else
    take_str (Z.to_nat decpt) ds +:+ "." +:+ drop_str (Z.to_nat decpt) ds.

(** [repr(f)] *)
Definition repr_float (f : float) : string :=
  match f with
  | S754_nan => "nan"
  | S754_infinity s => if s then "-inf" else "inf"
  | S754_zero s => if s then "-0.0" else "0.0"
  | S754_finite s m e =>
      let k := log10_floor (ratio m e) in
      let '(d0, q0) := shortest 17 m e k 1 in
      let '(d, q) := strip_zeros 20 d0 q0 in
      let ds := pretty d in
      (if s then "-" else "") +:+ layout ds (Z.of_nat (String.length ds) + q)
  end.

(** *** [repr] of strings and containers *)

Definition hex_digit (n : N) : ascii :=
  if (n <? 10)%N then chr (48 + n) else chr (87 + n).

Fixpoint has_char (c : ascii) (s : string) : bool :=
  match s with
  | EmptyString => false
  | String d s' => Ascii.eqb c d || has_char c s'
  end.

Fixpoint escape (quote : ascii) (s : string) : string :=
  match s with
  | EmptyString => EmptyString
  | String c s' =>
      let n := code c in
      (if Ascii.eqb c quote || Ascii.eqb c backslash then String backslash (String c EmptyString)
       else if (n =? 9)%N then String backslash "t"
       else if (n =? 10)%N then String backslash "n"
       else if (n =? 13)%N then String backslash "r"
       else if ((n <? 32) || (n =? 127))%N then
         String backslash (String "x" (String (hex_digit (n / 16)) (String (hex_digit (n mod 16)) EmptyString)))
       else String c EmptyString) +:+ escape quote s'
  end.

(** [repr(s)] for a [str]: apostrophes around it, double quotes when it
    holds an apostrophe and no double quote. *)
Definition str_repr (s : string) : string :=
  let quote := if has_char "'" s && negb (has_char dquote s) then dquote else "'"%char in
  String quote (escape quote s) +:+ String quote EmptyString.

Fixpoint repr (v : pyobj) : string :=
  match v with
  | PyNone => "None"
  | PyBool b => if b then "True" else "False"
  | PyInt z => pretty z
  | PyFloat f => repr_float f
  | PyStr s => str_repr s
  | PyList l =>
      "[" +:+
      (fix go (l : list pyobj) : string :=
         match l with
         | nil => EmptyString
         | a :: nil => repr a
         | a :: l' => repr a +:+ ", " +:+ go l'
         end) l +:+ "]"
  | PyDict items =>
      "{" +:+
      (fix go (l : list (string * pyobj)) : string :=
         match l with
         | nil => EmptyString
         | (k, a) :: nil => str_repr k +:+ ": " +:+ repr a
         | (k, a) :: l' => str_repr k +:+ ": " +:+ repr a +:+ ", " +:+ go l'
         end) items +:+ "}"
  end.

(** CPython restricted to ASCII text: a [str] with digits or spaces of
    another script is not read as a numeral, and other bytes are printed
    as they are.  The room on the stack is that of the default recursion
    limit of 1000 with a hundred frames in use. *)
Definition runtime : PyRuntime := {|
  str_to_float := read_float;
  str_to_int := read_int;
  float_repr := repr_float;
  container_repr := repr;
  recursion_spare := 900
|}.

End Cpython.


(** ** schema.py *)

(** [PredictionResponse].  Every construction in [model.py] passes fields
    of the declared types, so validation never rejects one. *)
Record PredictionResponse : Type := {
  action_type : string;
  x : option Z;
  y : option Z;
  text : option string;
  confidence : float
}.

(** ** model.py: constants *)

Definition DEFAULT_MODEL : string := "mlx-community/Qwen2.5-VL-7B-Instruct-8bit".

Definition MOCK_TEXT_PREDICTIONS : list string :=
  [ "Hello, world!";
    "Thank you for your message.";
    "Sounds good!";
    "npm install";
    "git commit -m 'update'" ].

(** [PROMPT_TEMPLATE.format(cursor_x=.., cursor_y=.., history=..)] *)
Definition PROMPT_TEMPLATE (cursor_x cursor_y history : string) : string :=
  "You are an AI assistant that predicts the user's next action on their desktop.

Looking at this screenshot, the cursor is at position (" +:+ cursor_x +:+ ", " +:+ cursor_y +:+ ").

Recent actions: " +:+ history +:+ "

Predict the SINGLE most likely next action:
- If the cursor is in/near a text field, search bar, terminal, or code editor: predict TEXT to type
- If the cursor is over a button, link, or clickable UI element: predict a CLICK

Respond with ONLY a JSON object:
" +:+ jq "- For text: {'action_type': 'text', 'text': '<text to type>', 'confidence': <0.0-1.0>}
- For click: {'action_type': 'click', 'x': <number>, 'y': <number>, 'confidence': <0.0-1.0>}" +:+ "

JSON response:".

(** The fallback both handlers return: [action_type="none"] at the cursor
    with confidence 0.0. *)
Definition none_response (cursor_x cursor_y : Z) : PredictionResponse :=
  {| action_type := "none";
     x := Some cursor_x;
     y := Some cursor_y;
     text := None;
     confidence := PyFloat.dec 0 0 |}.

(** ** model.py: [_parse_response] *)

Section Parser.
Context {R : PyRuntime}.

(** The body of the [try] block of [_parse_response]. *)
Definition _parse_response_try (response : string) (cursor_x cursor_y : Z)
  : result PredictionResponse :=
  match re_search_braces response with
  | None => Raise (ValueError "No JSON object found in response")
  | Some json_match =>
      rbind (Json.loads json_match) (fun loaded =>
      match loaded with
      | PyDict parsed =>
          let action := dict_get parsed "action_type" (PyStr "none") in
          rbind (py_float (dict_get parsed "confidence" (PyFloat (PyFloat.dec 5 (-1))))) (fun conf =>
          if py_eq_str action "click" then
            rbind (py_int (dict_get parsed "x" (PyInt cursor_x))) (fun px =>
            rbind (py_int (dict_get parsed "y" (PyInt cursor_y))) (fun py =>
            Return {| action_type := "click";
                      x := Some px;
                      y := Some py;
                      text := None;
                      confidence := conf |}))
          else if py_eq_str action "text" then
            Return {| action_type := "text";
                      x := Some cursor_x;
                      y := Some cursor_y;
                      text := Some (py_str (dict_get parsed "text" (PyStr "")));
                      confidence := conf |}
          else
            Return (none_response cursor_x cursor_y))
      | _ => Raise (OtherError "AttributeError")
      end)
  end.

(** [_parse_response]: the [try] block under
    [except (json.JSONDecodeError, ValueError)]. *)
Definition _parse_response (response : string) (cursor_x cursor_y : Z)
  : result PredictionResponse :=
  match _parse_response_try response cursor_x cursor_y with
  | Return r => Return r
  | Raise e =>
      if is_ValueError e then Return (none_response cursor_x cursor_y) else Raise e
  end.

End Parser.

(** ** The world around the predictor *)

Abbreviation bytes := string (only parsing).

(** Opaque objects of the libraries, known by identity. *)
Definition Model : Type := N.
Definition Processor : Type := N.
Definition Image : Type := N.

(** What [generate] returns, as far as [_real_predict] inspects it. *)
Record GenerationResult : Type := {
  (** [result.text] when [hasattr(result, 'text')] *)
  attr_text : option pyobj;
  (** [result.generated_text] when [hasattr(result, 'generated_text')] *)
  attr_generated_text : option pyobj;
  (** the string itself when [isinstance(result, str)] *)
  as_str : option string;
  (** [str(result)] *)
  to_str : string
}.

(** Calls that leave the process. *)
Inductive call : Type :=
| CallLoad (model_path : string)
| CallImageOpen (img_bytes : bytes)
| CallMkstemp (suffix : string)
| CallImageSave (image : Image) (path : string)
| CallGenerate (prompt : string) (image : string)
| CallUnlink (path : string).

Record State : Type := {
  (** the paths that exist *)
  fs : gset string;
  (** the calls made so far, latest first *)
  calls : list call;
  (** the state of the [random] module *)
  seed : N;
  (** the local variable [temp_path] of the running [_real_predict] *)
  temp_path : option string
}.

(** The libraries: each entry answers a call in a given state, with a value
    or an exception. *)
Record Env : Type := {
  (** [mlx_vlm.load(path)] *)
  load : string -> State -> result (Model * Processor);
  (** [mlx_vlm.generate(model, processor, prompt, image=.., max_tokens=..,
      temp=.., verbose=..)] *)
  generate : option Model -> option Processor -> string -> string -> Z -> float -> bool -> State
             -> result GenerationResult;
  (** [Image.open(io.BytesIO(img_bytes))] *)
  Image_open : bytes -> State -> result Image;
  (** [image.save(path, "PNG")] *)
  Image_save : Image -> string -> State -> result unit;
  (** [tempfile.mkstemp(suffix=..)]: the path of the file it created *)
  mkstemp : string -> State -> result string;
  (** the index [random.choice] picks in a sequence of the given length *)
  choice_index : nat -> N -> nat * N;
  (** [random.randint(a, b)] *)
  randint : Z -> Z -> N -> Z * N;
  (** [random.uniform(a, b)] *)
  uniform : float -> float -> N -> float * N
}.

(** The documented ranges of the [random] functions. *)
Record RandomOk (E : Env) : Prop := {
  choice_index_lt : forall n s, (0 < n)%nat -> (fst (choice_index E n s) < n)%nat;
  randint_range : forall a b s, a <= b -> a <= fst (randint E a b s) <= b;
  uniform_range : forall a b s, PyFloat.leb a b = true ->
    PyFloat.leb a (fst (uniform E a b s)) = true /\
    PyFloat.leb (fst (uniform E a b s)) b = true
}.

(** [tempfile.mkstemp] returns the absolute path of a file that did not
    exist before. *)
Record MkstempOk (E : Env) : Prop := {
  mkstemp_nonempty : forall suffix st p, mkstemp E suffix st = Return p -> p <> EmptyString;
  mkstemp_fresh : forall suffix st p, mkstemp E suffix st = Return p -> p ∉ fs st
}.

(** ** Statements with effects *)

Definition M (A : Type) : Type := State -> result A * State.

Definition ret {A : Type} (a : A) : M A := fun st => (Return a, st).
Definition raise {A : Type} (e : exn) : M A := fun st => (Raise e, st).
Definition lift {A : Type} (r : result A) : M A := fun st => (r, st).

Definition bind {A B : Type} (m : M A) (k : A -> M B) : M B :=
  fun st =>
    match m st with
    | (Return a, st') => k a st'
    | (Raise e, st') => (Raise e, st')
    end.

Notation "x <- m ;; k" := (bind m (fun x => k))
  (at level 63, m at next level, k at level 200, only parsing).
Notation "m ;;; k" := (bind m (fun _ => k))
  (at level 63, k at level 200, only parsing).

(** [try: m except Exception as e: h e] *)
Definition try_except {A : Type} (m : M A) (h : exn -> M A) : M A :=
  fun st =>
    match m st with
    | (Return a, st') => (Return a, st')
    | (Raise e, st') => h e st'
    end.

(** [try: m finally: f]: [f] runs on every exit of [m]; an exception of
    [f] replaces the outcome of [m]. *)
Definition try_finally {A : Type} (m : M A) (f : M unit) : M A :=
  fun st =>
    let '(r, st1) := m st in
    match f st1 with
    | (Return _, st2) => (r, st2)
    | (Raise e, st2) => (Raise e, st2)
    end.

Definition log (c : call) (st : State) : State :=
  {| fs := fs st; calls := c :: calls st; seed := seed st; temp_path := temp_path st |}.

Definition set_fs (f : gset string) (st : State) : State :=
  {| fs := f; calls := calls st; seed := seed st; temp_path := temp_path st |}.

Definition set_seed (s : N) (st : State) : State :=
  {| fs := fs st; calls := calls st; seed := s; temp_path := temp_path st |}.

(** Assignment to the local variable [temp_path]. *)
Definition with_temp_path (p : option string) (st : State) : State :=
  {| fs := fs st; calls := calls st; seed := seed st; temp_path := p |}.

Definition set_temp_path (p : option string) : M unit :=
  fun st => (Return tt, with_temp_path p st).

Definition get_temp_path : M (option string) := fun st => (Return (temp_path st), st).

Section Calls.
Variable E : Env.

Definition call_load (path : string) : M (Model * Processor) :=
  fun st => let st' := log (CallLoad path) st in (load E path st', st').

Definition call_Image_open (img_bytes : bytes) : M Image :=
  fun st => let st' := log (CallImageOpen img_bytes) st in (Image_open E img_bytes st', st').

(** [mkstemp] creates the file it names. *)
Definition call_mkstemp (suffix : string) : M string :=
  fun st =>
    let st' := log (CallMkstemp suffix) st in
    match mkstemp E suffix st' with
    | Return p => (Return p, set_fs ({[ p ]} ∪ fs st') st')
    | Raise e => (Raise e, st')
    end.

(** [image.save] writes the file it is given. *)
Definition call_Image_save (image : Image) (path : string) : M unit :=
  fun st =>
    let st' := log (CallImageSave image path) st in
    match Image_save E image path st' with
    | Return u => (Return u, set_fs ({[ path ]} ∪ fs st') st')
    | Raise e => (Raise e, st')
    end.

Definition call_generate (model : option Model) (processor : option Processor)
    (prompt image : string) (max_tokens : Z) (temp : float) (verbose : bool)
  : M GenerationResult :=
  fun st =>
    let st' := log (CallGenerate prompt image) st in
    (generate E model processor prompt image max_tokens temp verbose st', st').

(** [os.path.exists(path)] *)
Definition os_path_exists (path : string) : M bool :=
  fun st => (Return (bool_decide (path ∈ fs st)), st).

(** [os.unlink(path)] *)
Definition os_unlink (path : string) : M unit :=
  fun st =>
    if bool_decide (path ∈ fs st)
    then (Return tt, set_fs (fs st ∖ {[ path ]}) (log (CallUnlink path) st))
    else (Raise (OtherError "FileNotFoundError"), log (CallUnlink path) st).

(** [random.choice(seq)] *)
Definition random_choice {A : Type} (seq : list A) : M A :=
  fun st =>
    let '(i, s') := choice_index E (length seq) (seed st) in
    match nth_error seq i with
    | Some a => (Return a, set_seed s' st)
    | None => (Raise (OtherError "IndexError"), set_seed s' st)
    end.

(** [random.randint(a, b)] *)
Definition random_randint (a b : Z) : M Z :=
  fun st => let '(z, s') := randint E a b (seed st) in (Return z, set_seed s' st).

(** [random.uniform(a, b)] *)
Definition random_uniform (a b : float) : M float :=
  fun st => let '(f, s') := uniform E a b (seed st) in (Return f, set_seed s' st).

End Calls.

(** ** model.py: [ActionPredictor] *)

Record ActionPredictor : Type := {
  model_path : option string;
  model : option Model;
  processor : option Processor
}.

(** Truth value of [model_path]: given and not empty. *)
Definition truthy (p : option string) : bool :=
  match p with
  | Some (String _ _) => true
  | _ => false
  end.

(** [history[-5:]] *)
Definition last5 (history : list string) : list string :=
  skipn (length history - 5) history.

(** [sep.join(parts)] *)
Fixpoint join (sep : string) (parts : list string) : string :=
  match parts with
  | nil => EmptyString
  | a :: nil => a
  | a :: rest => a +:+ sep +:+ join sep rest
  end.

(** [", ".join(history[-5:]) if history else "none"] *)
Definition history_str (history : list string) : string :=
  match history with
  | nil => "none"
  | _ => join ", " (last5 history)
  end.

(** The prompt [_real_predict] sends. *)
Definition build_prompt (cursor_x cursor_y : Z) (history : list string) : string :=
  PROMPT_TEMPLATE (pretty cursor_x) (pretty cursor_y) (history_str history).

(** The text taken out of the generation result. *)
Definition extract_output (result : GenerationResult) : pyobj :=
  match attr_text result with
  | Some t => t
  | None =>
      match attr_generated_text result with
      | Some t => t
      | None =>
          match as_str result with
          | Some s => PyStr s
          | None => PyStr (to_str result)
          end
      end
  end.

Section Predictor.
Context {R : PyRuntime}.
Variable E : Env.

(** [_load_model] *)
Definition _load_model (self : ActionPredictor) : M ActionPredictor :=
  try_except
    (mp <- call_load E (default EmptyString (model_path self)) ;;
     ret {| model_path := model_path self;
            model := Some (fst mp);
            processor := Some (snd mp) |})
    (fun _ =>
       ret {| model_path := model_path self; model := None; processor := None |}).

(** [ActionPredictor(model_path)] *)
Definition __init__ (path : option string) : M ActionPredictor :=
  let self := {| model_path := path; model := None; processor := None |} in
  if truthy path then _load_model self else ret self.

(** [_mock_predict] *)
Definition _mock_predict (cursor_x cursor_y : Z) : M PredictionResponse :=
  action <- random_choice E ["click"; "text"; "click"; "click"] ;;
  if String.eqb action "click" then
    offset_x <- random_randint E (-150) 150 ;;
    offset_y <- random_randint E (-150) 150 ;;
    conf <- random_uniform E (PyFloat.dec 3 (-1)) (PyFloat.dec 95 (-2)) ;;
    ret {| action_type := "click";
           x := Some (Z.max 0 (cursor_x + offset_x));
           y := Some (Z.max 0 (cursor_y + offset_y));
           text := None;
           confidence := conf |}
  else
    phrase <- random_choice E MOCK_TEXT_PREDICTIONS ;;
    conf <- random_uniform E (PyFloat.dec 4 (-1)) (PyFloat.dec 9 (-1)) ;;
    ret {| action_type := "text";
           x := Some cursor_x;
           y := Some cursor_y;
           text := Some phrase;
           confidence := conf |}.

(** The body of the [try] block of [_real_predict]. *)
Definition _real_predict_try (self : ActionPredictor) (img_bytes : bytes)
    (history : list string) (cursor_x cursor_y : Z) : M PredictionResponse :=
  image <- call_Image_open E img_bytes ;;
  path <- call_mkstemp E ".png" ;;
  set_temp_path (Some path) ;;;
  call_Image_save E image path ;;;
  let prompt := build_prompt cursor_x cursor_y history in
  result <- call_generate E (model self) (processor self) prompt path
              150 (PyFloat.dec 1 (-1)) false ;;
  match extract_output result with
  | PyStr output => lift (_parse_response output cursor_x cursor_y)
  | _ => raise TypeError
  end.

(** The [finally] block of [_real_predict]. *)
Definition _real_predict_finally : M unit :=
  tp <- get_temp_path ;;
  match tp with
  | Some path =>
      if truthy (Some path) then
        there <- os_path_exists path ;;
        if there then os_unlink path else ret tt
      else ret tt
  | None => ret tt
  end.

(** [_real_predict] *)
Definition _real_predict (self : ActionPredictor) (img_bytes : bytes)
    (history : list string) (cursor_x cursor_y : Z) : M PredictionResponse :=
  set_temp_path None ;;;
  try_finally
    (try_except
       (_real_predict_try self img_bytes history cursor_x cursor_y)
       (fun _ => ret (none_response cursor_x cursor_y)))
    _real_predict_finally.

(** [predict] *)
Definition predict (self : ActionPredictor) (img_bytes : bytes)
    (history : list string) (cursor_x cursor_y : Z) : M PredictionResponse :=
  match model self with
  | None => _mock_predict cursor_x cursor_y
  | Some _ => _real_predict self img_bytes history cursor_x cursor_y
  end.

End Predictor.


(** ** Backend state *)

(** The three states of the specification's data model, read off the
    fields of the predictor: no path given, a path whose load failed, a
    loaded model. *)
Inductive BackendState : Type :=
| Unconfigured
| LoadFailed
| Ready.

Definition backend_state (self : ActionPredictor) : BackendState :=
  match model self with
  | Some _ => Ready
  | None => if truthy (model_path self) then LoadFailed else Unconfigured
  end.

(** ** Concrete environments for running the model *)

Module Demo.

(** A generator that walks through its range as the seed advances. *)
Definition pick (n : nat) (s : N) : nat * N :=
  ((N.to_nat s mod n)%nat, (s + 1)%N).

Definition step_int (a b : Z) (s : N) : Z * N :=
  (a + Z.of_N s mod (b - a + 1), (s + 1)%N).

Definition step_float (a b : float) (s : N) : float * N :=
  (if N.even s then a else b, (s + 1)%N).

Fixpoint max_len (l : list string) : nat :=
  match l with
  | nil => O
  | s :: l' => Nat.max (String.length s) (max_len l')
  end.

Fixpoint filler (n : nat) : string :=
  match n with
  | O => EmptyString
  | S n' => String "x" (filler n')
  end.

(** A name longer than every existing path. *)
Definition fresh_path (suffix : string) (st : State) : string :=
  "/tmp/tmp" +:+ filler (max_len (elements (fs st))) +:+ suffix.

(** A backend that answers every prompt with [reply] in [result.text]. *)
Definition scripted (reply : string) : Env := {|
  load := fun _ _ => Return (1%N, 2%N);
  generate := fun _ _ _ _ _ _ _ _ =>
    Return {| attr_text := Some (PyStr reply);
              attr_generated_text := None;
              as_str := None;
              to_str := "GenerationResult" |};
  Image_open := fun _ _ => Return 7%N;
  Image_save := fun _ _ _ => Return tt;
  mkstemp := fun suffix st => Return (fresh_path suffix st);
  choice_index := pick;
  randint := step_int;
  uniform := step_float
|}.

(** The eight bytes every PNG file starts with. *)
Definition png_signature : string :=
  String.string_of_list_ascii (map chr [137; 80; 78; 71; 13; 10; 26; 10]%N).

(** A PNG file: one white pixel. *)
Definition png : string :=
  String.string_of_list_ascii (map chr
    [137; 80; 78; 71; 13; 10; 26; 10; 0; 0; 0; 13; 73; 72; 68; 82;
     0; 0; 0; 1; 0; 0; 0; 1; 8; 0; 0; 0; 0; 58; 126; 155;
     85; 0; 0; 0; 10; 73; 68; 65; 84; 120; 218; 99; 248; 15; 0; 1;
     1; 1; 0; 28; 176; 140; 153; 0; 0; 0; 0; 73; 69; 78; 68; 174;
     66; 96; 130]%N).

(** A backend as [scripted], whose [Image.open] takes only data that
    starts as a PNG file. *)
Definition pillow (reply : string) : Env := {|
  load := fun _ _ => Return (1%N, 2%N);
  generate := fun _ _ _ _ _ _ _ _ =>
    Return {| attr_text := Some (PyStr reply);
              attr_generated_text := None;
              as_str := None;
              to_str := "GenerationResult" |};
  Image_open := fun img_bytes _ =>
    match Json.strip_prefix png_signature img_bytes with
    | Some _ => Return 7%N
    | None => Raise (OtherError "UnidentifiedImageError")
    end;
  Image_save := fun _ _ _ => Return tt;
  mkstemp := fun suffix st => Return (fresh_path suffix st);
  choice_index := pick;
  randint := step_int;
  uniform := step_float
|}.

(** A backend whose model cannot be loaded and whose calls all fail. *)
Definition broken : Env := {|
  load := fun _ _ => Raise (OtherError "ModuleNotFoundError");
  generate := fun _ _ _ _ _ _ _ _ => Raise (OtherError "RuntimeError");
  Image_open := fun _ _ => Raise (OtherError "UnidentifiedImageError");
  Image_save := fun _ _ _ => Raise (OtherError "OSError");
  mkstemp := fun _ _ => Raise (OtherError "OSError");
  choice_index := pick;
  randint := step_int;
  uniform := step_float
|}.

Definition st0 : State :=
  {| fs := ∅; calls := nil; seed := 0%N; temp_path := None |}.

(** A predictor built without a model path, and one holding a model. *)
Definition unconfigured : ActionPredictor :=
  {| model_path := None; model := None; processor := None |}.

Definition ready : ActionPredictor :=
  {| model_path := Some DEFAULT_MODEL; model := Some 1%N; processor := Some 2%N |}.

End Demo.


(** ** [base64.b64decode] *)

Module Base64.
Local Open Scope N_scope.

(** The alphabet of RFC 4648. *)
Definition alphabet : string :=
  "ABCDEFGHIJKLMNOPQRSTUVWXYZabcdefghijklmnopqrstuvwxyz0123456789+/".

(** The value of a character of the alphabet, [None] for every other
    character. *)
Definition digit (c : ascii) : option N :=
  let n := code c in
  if (65 <=? n) && (n <=? 90) then Some (n - 65)
  else if (97 <=? n) && (n <=? 122) then Some (n - 71)
  else if (48 <=? n) && (n <=? 57) then Some (n + 4)
  else if n =? 43 then Some 62
  else if n =? 47 then Some 63
  else None.

(** The character that stands for a value below 64. *)
Definition char (d : N) : ascii :=
  match String.get (N.to_nat d) alphabet with
  | Some c => c
  | None => "="%char
  end.

(** A byte stored into the output buffer. *)
Definition emit (b : N) (out : option string) : option string :=
  option_map (String (chr (b mod 256))) out.

(** [binascii.a2b_base64(data)] without [strict_mode], from a state of its
    loop: [quad_pos] is the position in the current group of four data
    characters, [leftchar] the bits left over from the last one, [pads]
    the pad characters seen since the last data character.  Characters
    outside the alphabet are skipped; a pad that completes a group ends
    the decoding, whatever follows; a group left open at the end of the
    data is an error ([None], for [binascii.Error]). *)
Fixpoint a2b_base64_from (quad_pos leftchar pads : N) (data : string) : option string :=
  match data with
  | EmptyString => if quad_pos =? 0 then Some EmptyString else None
  | String c rest =>
      if Ascii.eqb c "=" then
        if (2 <=? quad_pos) && (4 <=? quad_pos + (pads + 1)) then Some EmptyString
        else a2b_base64_from quad_pos leftchar
               (if 2 <=? quad_pos then pads + 1 else pads) rest
      else
        match digit c with
        | None => a2b_base64_from quad_pos leftchar pads rest
        | Some d =>
            match quad_pos with
            | 0 => a2b_base64_from 1 d 0 rest
            | 1 => emit (N.lor (N.shiftl leftchar 2) (N.shiftr d 4))
                     (a2b_base64_from 2 (N.land d 15) 0 rest)
            | 2 => emit (N.lor (N.shiftl leftchar 4) (N.shiftr d 2))
                     (a2b_base64_from 3 (N.land d 3) 0 rest)
            | _ => emit (N.lor (N.shiftl leftchar 6) d)
                     (a2b_base64_from 0 0 0 rest)
            end
        end
  end.

Definition a2b_base64 (data : string) : option string := a2b_base64_from 0 0 0 data.

Fixpoint is_ascii (s : string) : bool :=
  match s with
  | EmptyString => true
  | String c s' => (code c <? 128) && is_ascii s'
  end.

(** [base64.b64decode(s)] for a [str]: the text is encoded as ASCII, which
    fails with [ValueError] on any other character, and handed to
    [binascii.a2b_base64], whose [binascii.Error] is a [ValueError] too.
    The messages are not kept. *)
Definition b64decode (s : string) : result string :=
  if is_ascii s then
    match a2b_base64 s with
    | Some b => Return b
    | None => Raise (ValueError "binascii.Error")
    end
  else Raise (ValueError "string argument should contain only ASCII characters").

(** [base64.b64encode(b)], the encoding a client applies to the PNG: three
    bytes give four characters, and a last group of one or two bytes is
    completed with pad characters. *)
Fixpoint b64encode (b : string) : string :=
  match b with
  | EmptyString => EmptyString
  | String b0 EmptyString =>
      String (char (N.shiftr (code b0) 2))
     (String (char (N.shiftl (N.land (code b0) 3) 4))
     (String "=" (String "=" EmptyString)))
  | String b0 (String b1 EmptyString) =>
      String (char (N.shiftr (code b0) 2))
     (String (char (N.lor (N.shiftl (N.land (code b0) 3) 4) (N.shiftr (code b1) 4)))
     (String (char (N.shiftl (N.land (code b1) 15) 2))
     (String "=" EmptyString)))
  | String b0 (String b1 (String b2 rest)) =>
      String (char (N.shiftr (code b0) 2))
     (String (char (N.lor (N.shiftl (N.land (code b0) 3) 4) (N.shiftr (code b1) 4)))
     (String (char (N.lor (N.shiftl (N.land (code b1) 15) 2) (N.shiftr (code b2) 6)))
     (String (char (N.land (code b2) 63)) (b64encode rest))))
  end.

End Base64.

(** ** server.py *)

Module Server.

(** [schema.PredictionRequest], after validation. *)
Record PredictionRequest : Type := {
  (** base64 encoded PNG *)
  screenshot : string;
  history : list string;
  cursor_x : Z;
  cursor_y : Z
}.

(** [os.environ] *)
Definition Environ : Type := gmap string string.

(** [os.environ.get(key, fallback)] *)
Definition environ_get (environ : Environ) (key fallback : string) : string :=
  default fallback (environ !! key).

(** [os.environ.get("MOCK_MODE", "").lower() in ("1", "true", "yes")].
    Lowering acts on the ASCII letters: no other character is lowered to
    a character of the three words. *)
Definition mock_mode (environ : Environ) : bool :=
  let v := Cpython.lower_string
             (String.list_ascii_of_string (environ_get environ "MOCK_MODE" EmptyString)) in
  existsb (String.eqb v) ["1"; "true"; "yes"].

(** The [model_path] that [lifespan] passes to [ActionPredictor]. *)
Definition chosen_model_path (environ : Environ) : option string :=
  if mock_mode environ then None
  else Some (environ_get environ "MODEL_PATH" DEFAULT_MODEL).

(** The line [lifespan] prints once the predictor is built:
    [f"ActionTab server started (mock mode: {model_path is None})"]. *)
Definition startup_message (path : option string) : string :=
  "ActionTab server started (mock mode: "
  +:+ (match path with None => "True" | Some _ => "False" end) +:+ ")".

Section Handlers.
Context {R : PyRuntime}.
Variable E : Env.

(** The startup half of [lifespan]: the new value of the global
    [predictor] and the line printed. *)
Definition lifespan (environ : Environ) : M (option ActionPredictor * string) :=
  let path := chosen_model_path environ in
  p <- __init__ E path ;;
  ret (Some p, startup_message path).

(** [GET /health] on the global [predictor], which is [None] until
    [lifespan] has run. *)
Definition health_check (predictor : option ActionPredictor) : result pydict :=
  match predictor with
  | None => Raise (OtherError "AttributeError")
  | Some p =>
      Return [("status", PyStr "ok");
              ("mock_mode", PyBool (match model p with None => true | Some _ => false end))]
  end.

(** The screenshot of a request as bytes: empty when it cannot be
    decoded. *)
Definition decode_screenshot (req : PredictionRequest) : string :=
  match Base64.b64decode (screenshot req) with
  | Return img_bytes => img_bytes
  | Raise _ => EmptyString
  end.

(** [POST /predict] *)
Definition predict (predictor : option ActionPredictor) (req : PredictionRequest)
  : M PredictionResponse :=
  let img_bytes := decode_screenshot req in
  match predictor with
  | None => raise (OtherError "AttributeError")
  | Some p => predict E p img_bytes (history req) (cursor_x req) (cursor_y req)
  end.

End Handlers.

End Server.

(** ** Vocabulary of the statements *)

(** No brace anywhere in [s]. *)
Fixpoint brace_free (s : string) : bool :=
  match s with
  | EmptyString => true
  | String c s' => negb (Ascii.eqb c "{") && negb (Ascii.eqb c "}") && brace_free s'
  end.

(** A brace-delimited object with no brace inside. *)
Definition object_span (m : string) : Prop :=
  exists body, m = String "{" (body +:+ "}") /\ brace_free body = true.

(** [m] stands in [s] right after the prefix [pre]. *)
Definition occurs_at (pre m s : string) : Prop :=
  exists post, s = pre +:+ m +:+ post.

(** The three variants of a prediction. *)
Definition is_click (r : PredictionResponse) : Prop := action_type r = "click".
Definition is_text (r : PredictionResponse) : Prop := action_type r = "text".
Definition is_none (r : PredictionResponse) : Prop := action_type r = "none".

(** [lo <= f <= hi] on floats. *)
Definition between (lo hi f : float) : Prop :=
  PyFloat.leb lo f = true /\ PyFloat.leb f hi = true.

(** The [Click] and [Text] payloads as [_parse_response] builds them. *)
Definition click_response (px py : Z) (conf : float) : PredictionResponse :=
  {| action_type := "click"; x := Some px; y := Some py; text := None; confidence := conf |}.

Definition text_response (cursor_x cursor_y : Z) (t : string) (conf : float)
  : PredictionResponse :=
  {| action_type := "text"; x := Some cursor_x; y := Some cursor_y; text := Some t;
     confidence := conf |}.

(** * Properties *)

(** ** Strings *)

Lemma append_cons (c : ascii) (s t : string) : String c s +:+ t = String c (s +:+ t).
Proof. reflexivity. Qed.

Lemma append_nil_l (t : string) : EmptyString +:+ t = t.
Proof. reflexivity. Qed.

Lemma append_nil_r (s : string) : s +:+ EmptyString = s.
Proof. induction s as [|c s IH]; rewrite ?append_cons, ?append_nil_l; [reflexivity | now rewrite IH]. Qed.

Lemma append_assoc (a b c : string) : (a +:+ b) +:+ c = a +:+ (b +:+ c).
Proof. induction a as [|ch a IH]; rewrite ?append_cons, ?append_nil_l; [reflexivity | now rewrite IH]. Qed.

Lemma length_append (a b : string) :
  String.length (a +:+ b) = (String.length a + String.length b)%nat.
Proof. induction a as [|ch a IH]; rewrite ?append_cons, ?append_nil_l; simpl; [reflexivity | now rewrite IH]. Qed.

Lemma brace_free_cons (c : ascii) (s : string) :
  brace_free (String c s) = true ->
  Ascii.eqb c "{" = false /\ Ascii.eqb c "}" = false /\ brace_free s = true.
Proof.
  simpl. intros H.
  apply andb_prop in H as [H Hs]. apply andb_prop in H as [H1 H2].
  apply negb_true_iff in H1, H2. auto.
Qed.

(** ** The pattern *)

Lemma match_body_complete (body post : string) :
  brace_free body = true ->
  match_body (body +:+ String "}" post) = Some (body +:+ "}").
Proof.
  induction body as [|c body IH]; intros Hb.
  - reflexivity.
  - apply brace_free_cons in Hb as (Ho & Hc & Hb).
    rewrite ?append_cons, ?append_nil_l. simpl. rewrite Ho, Hc.
    now rewrite (IH Hb).
Qed.

Lemma match_body_sound (s m : string) :
  match_body s = Some m ->
  exists body post, m = body +:+ "}" /\ brace_free body = true /\ s = m +:+ post.
Proof.
  revert m. induction s as [|c s IH]; intros m H; simpl in H; [discriminate|].
  destruct (Ascii.eqb c "}") eqn:Hc.
  - apply Ascii.eqb_eq in Hc. subst c. inversion H; subst m.
    exists EmptyString, s. auto.
  - destruct (Ascii.eqb c "{") eqn:Ho; [discriminate|].
    destruct (match_body s) as [m0|] eqn:Hm; [|discriminate].
    inversion H; subst m.
    destruct (IH m0 eq_refl) as (body & post & -> & Hb & Hs).
    exists (String c body), post. simpl.
    rewrite Ho, Hc, Hb. split; [reflexivity|]. split; [reflexivity|].
    rewrite ?append_cons, ?append_nil_l. now rewrite <- Hs.
Qed.

(** An object span standing at the very start of [String c s]. *)
Lemma span_at_start (c : ascii) (s m : string) :
  object_span m -> occurs_at EmptyString m (String c s) ->
  c = "{"%char /\ match_body s = Some (match m with String _ t => t | EmptyString => EmptyString end).
Proof.
  intros (body & -> & Hb) (post & Hs). rewrite ?append_cons, ?append_nil_l in Hs. inversion Hs; subst.
  split; [reflexivity|].
  rewrite append_assoc. rewrite ?append_cons, ?append_nil_l. now apply match_body_complete.
Qed.

Lemma occurs_at_cons (c : ascii) (pre m s : string) :
  occurs_at (String c pre) m (String c s) <-> occurs_at pre m s.
Proof.
  split; intros (post & H); exists post.
  - rewrite ?append_cons, ?append_nil_l in H. now inversion H.
  - rewrite ?append_cons, ?append_nil_l. now rewrite H.
Qed.

Lemma occurs_at_head (c d : ascii) (pre m s : string) :
  occurs_at (String d pre) m (String c s) -> d = c /\ occurs_at pre m s.
Proof.
  intros (post & H). rewrite ?append_cons, ?append_nil_l in H. inversion H; subst. split; [reflexivity|].
  now exists post.
Qed.

(** What the search finds is an object span at the leftmost position where
    one stands, and it finds one whenever some position has one. *)
Lemma re_search_braces_spec (s : string) :
  match re_search_braces s with
  | Some m =>
      object_span m /\
      exists pre, occurs_at pre m s /\
        forall pre' m', object_span m' -> occurs_at pre' m' s ->
          (String.length pre <= String.length pre')%nat /\ (pre' = pre -> m' = m)
  | None => forall pre' m', object_span m' -> ~ occurs_at pre' m' s
  end.
Proof.
  induction s as [|c s IH]; simpl.
  - intros pre' m' (body & -> & _) (post & H).
    destruct pre'; rewrite ?append_cons, ?append_nil_l in H; discriminate.
  - assert (Hshift : forall r,
      r = re_search_braces s ->
      (forall m', object_span m' -> ~ occurs_at EmptyString m' (String c s)) ->
      match r with
      | Some m =>
          object_span m /\
          exists pre, occurs_at pre m (String c s) /\
            forall pre' m', object_span m' -> occurs_at pre' m' (String c s) ->
              (String.length pre <= String.length pre')%nat /\ (pre' = pre -> m' = m)
      | None => forall pre' m', object_span m' -> ~ occurs_at pre' m' (String c s)
      end).
    { intros r -> Hnone. destruct (re_search_braces s) as [m|].
      - destruct IH as (Hm & pre & Hocc & Hmin).
        split; [exact Hm|]. exists (String c pre). split.
        + now apply occurs_at_cons.
        + intros pre' m' Hm' Hocc'. destruct pre' as [|d pre'].
          * exfalso. exact (Hnone m' Hm' Hocc').
          * apply occurs_at_head in Hocc' as (-> & Hocc').
            destruct (Hmin pre' m' Hm' Hocc') as (Hlen & Heq).
            split; [simpl; lia|]. intros Hp. inversion Hp; subst. now apply Heq.
      - intros pre' m' Hm' Hocc'. destruct pre' as [|d pre'].
        + exact (Hnone m' Hm' Hocc').
        + apply occurs_at_head in Hocc' as (-> & Hocc'). exact (IH pre' m' Hm' Hocc'). }
    destruct (Ascii.eqb c "{") eqn:Hc.
    + apply Ascii.eqb_eq in Hc. subst c.
      destruct (match_body s) as [m0|] eqn:Hm0.
      * destruct (match_body_sound s m0 Hm0) as (body & post & -> & Hb & Hs).
        split; [now exists body|].
        exists EmptyString. split.
        -- exists post. rewrite ?append_cons, ?append_nil_l. now rewrite <- Hs.
        -- intros pre' m' Hm' Hocc'. split; [simpl; lia|]. intros ->.
           destruct (span_at_start _ _ _ Hm' Hocc') as (_ & Hmb).
           rewrite Hm0 in Hmb. destruct Hm' as (body' & -> & _).
           inversion Hmb. reflexivity.
      * apply Hshift; [reflexivity|].
        intros m' Hm' Hocc'. destruct (span_at_start _ _ _ Hm' Hocc') as (_ & Hmb).
        rewrite Hm0 in Hmb. discriminate.
    + apply Hshift; [reflexivity|].
      intros m' Hm' Hocc'. destruct (span_at_start _ _ _ Hm' Hocc') as (-> & _).
      discriminate.
Qed.

(** Searching inside the match finds the match again. *)
Lemma re_search_braces_idem (s m : string) :
  re_search_braces s = Some m -> re_search_braces m = Some m.
Proof.
  intros H. pose proof (re_search_braces_spec s) as Hs. rewrite H in Hs.
  destruct Hs as ((body & -> & Hb) & _).
  simpl. now rewrite match_body_complete.
Qed.

(** ** The recursion budget of [json.loads] *)

Section JsonBudget.
Local Open Scope nat_scope.

Lemma skip_ws_length (s : string) : String.length (Json.skip_ws s) <= String.length s.
Proof.
  induction s as [|c s IH]; simpl; [lia|].
  destruct (Json.is_ws c); simpl; lia.
Qed.

Lemma prepend_rest (p : string) (r : option (string * string)) (t rest : string) :
  Json.prepend p r = Some (t, rest) -> exists t', r = Some (t', rest).
Proof.
  destruct r as [[t' rest']|]; simpl; [|discriminate].
  intros H. inversion H. now exists t'.
Qed.

Lemma scanstring_length_below (n : nat) (s t r : string) :
  String.length s < n ->
  Json.scanstring s = Some (t, r) -> String.length r < String.length s.
Proof.
  revert s t r. induction n as [|n IH]; intros s t r Hn; [lia|].
  destruct s as [|c s1]; simpl; [discriminate|]. simpl in Hn.
  destruct (Ascii.eqb c dquote).
  { intros H. inversion H. subst. lia. }
  destruct (Ascii.eqb c backslash).
  - destruct s1 as [|e s2]; [discriminate|]. simpl in Hn.
    destruct (Ascii.eqb e "u").
    + destruct s2 as [|h1 [|h2 [|h3 [|h4 s3]]]]; try discriminate. simpl in Hn.
      destruct (Json.hex4 h1 h2 h3 h4) as [uni|]; [|discriminate].
      assert (Hs3 : forall p t r,
                Json.prepend p (Json.scanstring s3) = Some (t, r) ->
                String.length r < S (S (S (S (S (S (String.length s3))))))).
      { intros p t0 r0 H. apply prepend_rest in H as (t' & H).
        apply IH in H; lia. }
      destruct s3 as [|b [|u [|g1 [|g2 [|g3 [|g4 s4]]]]]]; try (apply Hs3).
      destruct (Json.is_high_surrogate uni && Ascii.eqb b backslash && Ascii.eqb u "u");
        [|apply Hs3].
      destruct (Json.hex4 g1 g2 g3 g4) as [uni2|]; [|discriminate].
      destruct (Json.is_low_surrogate uni2); [|apply Hs3].
      intros H. apply prepend_rest in H as (t' & H).
      simpl in Hn. apply IH in H; simpl; lia.
    + destruct (Json.unescape e); [|discriminate].
      intros H. apply prepend_rest in H as (t' & H).
      apply IH in H; simpl; lia.
  - destruct (code c <? 32)%N; [discriminate|].
    intros H. apply prepend_rest in H as (t' & H).
    apply IH in H; lia.
Qed.

Lemma scanstring_length (s t r : string) :
  Json.scanstring s = Some (t, r) -> String.length r < String.length s.
Proof. apply (scanstring_length_below (S (String.length s))). lia. Qed.

Lemma digits_length (s : string) :
  String.length (snd (Json.digits s)) <= String.length s.
Proof.
  induction s as [|c s IH]; simpl; [lia|].
  destruct (is_digit c); simpl; [|lia].
  destruct (Json.digits s); simpl in *. lia.
Qed.

Lemma frac_part_length (s : string) :
  String.length (snd (Json.frac_part s)) <= String.length s.
Proof.
  destruct s as [|c t]; simpl; [lia|].
  destruct (Ascii.eqb c "."); simpl; [|lia].
  pose proof (digits_length t). destruct (Json.digits t) as [[|d ds] r]; simpl in *; lia.
Qed.

Lemma exp_part_length (s : string) :
  String.length (snd (Json.exp_part s)) <= String.length s.
Proof.
  destruct s as [|c t]; simpl; [lia|].
  destruct (Ascii.eqb c "e" || Ascii.eqb c "E"); simpl; [|lia].
  destruct t as [|sg t'].
  - simpl. lia.
  - destruct (Ascii.eqb sg "-").
    + pose proof (digits_length t').
      destruct (Json.digits t') as [[|d ds] r]; simpl in *; lia.
    + destruct (Ascii.eqb sg "+").
      * pose proof (digits_length t').
        destruct (Json.digits t') as [[|d ds] r]; simpl in *; lia.
      * pose proof (digits_length (String sg t')).
        destruct (Json.digits (String sg t')) as [[|d ds] r]; simpl in *; lia.
Qed.

Lemma number_tail_length (neg : bool) (ds : list N) (s : string) :
  String.length (snd (Json.number_tail neg ds s)) <= String.length s.
Proof.
  unfold Json.number_tail.
  pose proof (frac_part_length s).
  destruct (Json.frac_part s) as [fr s1]. simpl in *.
  pose proof (exp_part_length s1).
  destruct (Json.exp_part s1) as [ex s2]. simpl in *.
  destruct fr, ex; simpl; lia.
Qed.

(** A number that is refused is refused for its length. *)
Lemma number_tail_failure (neg : bool) (ds : list N) (s : string) (e : exn) :
  fst (Json.number_tail neg ds s) = Raise e -> e = Json.digit_limit_error.
Proof.
  unfold Json.number_tail.
  destruct (Json.frac_part s) as [fr s1].
  destruct (Json.exp_part s1) as [ex s2].
  destruct fr, ex; simpl; try discriminate.
  destruct (Json.max_str_digits <? N.of_nat (length ds))%N; [|discriminate].
  intros H. now inversion H.
Qed.

Lemma match_number_length (s : string) (v : result pyobj) (r : string) :
  Json.match_number s = Some (v, r) ->
  String.length r < String.length s /\
  forall e, v = Raise e -> e = Json.digit_limit_error.
Proof.
  unfold Json.match_number.
  assert (Haux : forall neg s1, String.length s1 <= String.length s ->
    match s1 with
    | String c s2 =>
        if Ascii.eqb c "0" then Some (Json.number_tail neg (0%N :: nil) s2)
        else if is_digit c then
          let '(ds, s3) := Json.digits s2 in Some (Json.number_tail neg (digit_val c :: ds) s3)
        else None
    | EmptyString => None
    end = Some (v, r) ->
    String.length r < String.length s /\
    forall e, v = Raise e -> e = Json.digit_limit_error).
  { intros neg s1 Hle. destruct s1 as [|c s2]; [discriminate|]. simpl in Hle.
    destruct (Ascii.eqb c "0").
    - intros H. inversion H as [H1].
      pose proof (number_tail_length neg (0%N :: nil) s2) as Hn.
      pose proof (number_tail_failure neg (0%N :: nil) s2) as Hf.
      rewrite H1 in Hn, Hf. simpl in Hn, Hf. split; [lia|exact Hf].
    - destruct (is_digit c); [|discriminate].
      pose proof (digits_length s2) as Hd.
      destruct (Json.digits s2) as [ds s3]. simpl in Hd.
      intros H. inversion H as [H1].
      pose proof (number_tail_length neg (digit_val c :: ds) s3) as Hn.
      pose proof (number_tail_failure neg (digit_val c :: ds) s3) as Hf.
      rewrite H1 in Hn, Hf. simpl in Hn, Hf. split; [lia|exact Hf]. }
  destruct s as [|c t]; [discriminate|].
  destruct (Ascii.eqb c "-").
  - apply (Haux true t). simpl. lia.
  - apply (Haux false (String c t)). simpl. lia.
Qed.

Lemma strip_prefix_length (p s r : string) :
  Json.strip_prefix p s = Some r -> String.length r + String.length p = String.length s.
Proof.
  revert s. induction p as [|a p IH]; intros s; simpl.
  - intros H. inversion H. lia.
  - destruct s as [|b s]; [discriminate|].
    destruct (Ascii.eqb a b); [|discriminate].
    intros H. apply IH in H. simpl. lia.
Qed.

Lemma match_literal_length (s : string) (v : result pyobj) (r : string) :
  Json.match_literal s = Some (v, r) ->
  String.length r < String.length s /\
  forall e, v = Raise e -> e = Json.digit_limit_error.
Proof.
  unfold Json.match_literal.
  repeat match goal with
  | |- context [Json.strip_prefix ?p s] =>
      let H := fresh "H" in
      destruct (Json.strip_prefix p s) eqn:H;
      [apply strip_prefix_length in H; simpl in H; intros Hx; inversion Hx; subst;
       split; [lia|discriminate]|]
  | |- context [Json.match_number s] =>
      let H := fresh "H" in
      destruct (Json.match_number s) as [[v' r']|] eqn:H;
      [intros Hx; inversion Hx; subst; now apply match_number_length in H|]
  end.
  discriminate.
Qed.

(** With fuel of twice the length of the text plus two, the scanners
    never run out of it; each consumes at least one character; and what
    they raise besides a syntax error is the error of a numeral that is
    too long or [RecursionError]. *)
Lemma scan_budget (fuel : nat) :
  (forall depth s,
     (2 * String.length s + 1 <= fuel -> Json.scan_once fuel depth s <> Json.OutOfFuel) /\
     (forall v r, Json.scan_once fuel depth s = Json.Scanned v r ->
                  String.length r < String.length s) /\
     (forall e, Json.scan_once fuel depth s = Json.Failed e ->
                e = Json.digit_limit_error \/ e = Json.RecursionError)) /\
  (forall depth acc s,
     (2 * String.length s + 1 <= fuel ->
      Json.parse_members fuel depth acc s <> Json.OutOfFuel) /\
     (forall v r, Json.parse_members fuel depth acc s = Json.Scanned v r ->
                  String.length r < String.length s) /\
     (forall e, Json.parse_members fuel depth acc s = Json.Failed e ->
                e = Json.digit_limit_error \/ e = Json.RecursionError)) /\
  (forall depth acc s,
     (2 * String.length s + 2 <= fuel ->
      Json.parse_elements fuel depth acc s <> Json.OutOfFuel) /\
     (forall v r, Json.parse_elements fuel depth acc s = Json.Scanned v r ->
                  String.length r < String.length s) /\
     (forall e, Json.parse_elements fuel depth acc s = Json.Failed e ->
                e = Json.digit_limit_error \/ e = Json.RecursionError)).
Proof.
  induction fuel as [|fuel (IHs & IHm & IHe)].
  - split_and!; intros; split_and!; try (intros; simpl in *; try lia; discriminate).
  - split_and!.
    + intros depth s. destruct s as [|c s1]; simpl.
      { split_and!; discriminate. }
      destruct (Ascii.eqb c dquote).
      { destruct (Json.scanstring s1) as [[t r]|] eqn:Hss.
        - split_and!; try discriminate. intros v r' H. inversion H; subst.
          apply scanstring_length in Hss. lia.
        - split_and!; discriminate. }
      destruct (Ascii.eqb c "{").
      { destruct depth as [|depth].
        { split_and!; try discriminate. intros e H. inversion H. now right. }
        pose proof (skip_ws_length s1) as Hws.
        destruct (Json.skip_ws s1) as [|c2 s2]; [split_and!; discriminate|]. simpl in Hws.
        destruct (Ascii.eqb c2 "}").
        - split_and!; try discriminate. intros v r H. inversion H; subst. lia.
        - destruct (Ascii.eqb c2 dquote); [|split_and!; discriminate].
          destruct (IHm depth nil s2) as (Hf & Hl & He). split_and!.
          + intros Hb. apply Hf. lia.
          + intros v r H. apply Hl in H. lia.
          + exact He. }
      destruct (Ascii.eqb c "[").
      { destruct depth as [|depth].
        { split_and!; try discriminate. intros e H. inversion H. now right. }
        pose proof (skip_ws_length s1) as Hws.
        destruct (Json.skip_ws s1) as [|c2 s2]; [split_and!; discriminate|]. simpl in Hws.
        destruct (Ascii.eqb c2 "]").
        - split_and!; try discriminate. intros v r H. inversion H; subst. lia.
        - destruct (IHe depth nil (String c2 s2)) as (Hf & Hl & He). split_and!.
          + intros Hb. apply Hf. simpl. lia.
          + intros v r H. apply Hl in H. simpl in H. lia.
          + exact He. }
      destruct (Json.match_literal (String c s1)) as [[[v|e] r]|] eqn:Hlit.
      * split_and!; try discriminate. intros v' r' H. inversion H; subst.
        apply match_literal_length in Hlit. simpl in Hlit. lia.
      * split_and!; try discriminate. intros e' H. inversion H; subst.
        apply match_literal_length in Hlit. left. now apply (proj2 Hlit).
      * split_and!; discriminate.
    + intros depth acc s. simpl.
      destruct (Json.scanstring s) as [[key s1]|] eqn:Hss; [|split_and!; discriminate].
      apply scanstring_length in Hss.
      pose proof (skip_ws_length s1) as Hws1.
      destruct (Json.skip_ws s1) as [|c s2]; [split_and!; discriminate|]. simpl in Hws1.
      destruct (Ascii.eqb c ":"); [|split_and!; discriminate].
      pose proof (skip_ws_length s2) as Hws2.
      destruct (IHs depth (Json.skip_ws s2)) as (Hf & Hl & He).
      destruct (Json.scan_once fuel depth (Json.skip_ws s2)) as [v s3| |e|] eqn:Hv.
      * specialize (Hl v s3 eq_refl).
        pose proof (skip_ws_length s3) as Hws3.
        destruct (Json.skip_ws s3) as [|c3 s4]; [split_and!; discriminate|]. simpl in Hws3.
        destruct (Ascii.eqb c3 "}").
        { split_and!; try discriminate. intros v' r H. inversion H; subst. lia. }
        destruct (Ascii.eqb c3 ","); [|split_and!; discriminate].
        pose proof (skip_ws_length s4) as Hws4.
        destruct (Json.skip_ws s4) as [|c5 s5]; [split_and!; discriminate|]. simpl in Hws4.
        destruct (Ascii.eqb c5 dquote); [|split_and!; discriminate].
        destruct (IHm depth (dict_set acc key v) s5) as (Hf' & Hl' & He'). split_and!.
        -- intros Hb. apply Hf'. lia.
        -- intros v' r H. apply Hl' in H. lia.
        -- exact He'.
      * split_and!; discriminate.
      * split_and!; try discriminate. intros e' H. inversion H; subst. now apply He.
      * split_and!; try discriminate. intros Hb _. apply Hf; [lia|reflexivity].
    + intros depth acc s. simpl.
      destruct (IHs depth s) as (Hf & Hl & He).
      destruct (Json.scan_once fuel depth s) as [v s1| |e|] eqn:Hv.
      * specialize (Hl v s1 eq_refl).
        pose proof (skip_ws_length s1) as Hws1.
        destruct (Json.skip_ws s1) as [|c s2]; [split_and!; discriminate|]. simpl in Hws1.
        destruct (Ascii.eqb c "]").
        { split_and!; try discriminate. intros v' r H. inversion H; subst. lia. }
        destruct (Ascii.eqb c ","); [|split_and!; discriminate].
        pose proof (skip_ws_length s2) as Hws2.
        destruct (IHe depth (v :: acc) (Json.skip_ws s2)) as (Hf' & Hl' & He'). split_and!.
        -- intros Hb. apply Hf'. lia.
        -- intros v' r H. apply Hl' in H. lia.
        -- exact He'.
      * split_and!; discriminate.
      * split_and!; try discriminate. intros e' H. inversion H; subst. now apply He.
      * split_and!; try discriminate. intros Hb _. apply Hf; [lia|reflexivity].
Qed.

Context {R : PyRuntime}.

(** The fuel [json.loads] starts from is never used up. *)
Lemma loads_fuel_enough (s : string) :
  Json.scan_once (Json.fuel_for (Json.skip_ws s)) (S recursion_spare) (Json.skip_ws s)
    <> Json.OutOfFuel.
Proof.
  unfold Json.fuel_for.
  destruct (proj1 (scan_budget (2 * String.length (Json.skip_ws s) + 2))
              (S recursion_spare) (Json.skip_ws s)) as (Hf & _).
  apply Hf. lia.
Qed.

(** [json.loads] returns a value or raises one of three exceptions:
    [JSONDecodeError] on text that is no JSON, [ValueError] on an integer
    of more than 4300 digits, [RecursionError] on containers nested too
    deep. *)
Lemma loads_outcomes (s : string) :
  (exists v, Json.loads s = Return v) \/
  Json.loads s = Raise JSONDecodeError \/
  Json.loads s = Raise Json.digit_limit_error \/
  Json.loads s = Raise Json.RecursionError.
Proof.
  unfold Json.loads.
  destruct (proj1 (scan_budget (Json.fuel_for (Json.skip_ws s)))
              (S recursion_spare) (Json.skip_ws s)) as (_ & _ & He).
  destruct (Json.scan_once _ _ (Json.skip_ws s)) as [v r| |e|].
  - destruct (Json.skip_ws r); eauto.
  - auto.
  - destruct (He e eq_refl) as [->| ->]; auto.
  - auto.
Qed.

(** A text that opens with a brace loads as a [dict], if it loads. *)
Lemma parse_members_dict (fuel depth : nat) (acc : pydict) (s : string) (v : pyobj)
    (r : string) :
  Json.parse_members fuel depth acc s = Json.Scanned v r -> exists d, v = PyDict d.
Proof.
  revert acc s. induction fuel as [|fuel IH]; intros acc s; simpl; [discriminate|].
  destruct (Json.scanstring s) as [[key s1]|]; [|discriminate].
  destruct (Json.skip_ws s1) as [|c s2]; [discriminate|].
  destruct (Ascii.eqb c ":"); [|discriminate].
  destruct (Json.scan_once fuel depth (Json.skip_ws s2)) as [w s3| | |]; try discriminate.
  destruct (Json.skip_ws s3) as [|c3 s4]; [discriminate|].
  destruct (Ascii.eqb c3 "}").
  { intros H. inversion H. eauto. }
  destruct (Ascii.eqb c3 ","); [|discriminate].
  destruct (Json.skip_ws s4) as [|c5 s5]; [discriminate|].
  destruct (Ascii.eqb c5 dquote); [|discriminate].
  apply IH.
Qed.

Lemma loads_object_is_dict (t : string) (v : pyobj) :
  Json.loads (String "{" t) = Return v -> exists d, v = PyDict d.
Proof.
  unfold Json.loads. simpl Json.skip_ws.
  generalize (Json.fuel_for (String "{" t)). intros fuel.
  destruct fuel as [|fuel]; simpl; [discriminate|].
  destruct (Json.skip_ws t) as [|c2 s2]; [discriminate|].
  destruct (Ascii.eqb c2 "}").
  { destruct (Json.skip_ws s2); [|discriminate]. intros H. inversion H. eauto. }
  destruct (Ascii.eqb c2 dquote); [|discriminate].
  destruct (Json.parse_members fuel recursion_spare nil s2) as [w r| | |] eqn:Hm;
    try discriminate.
  destruct (Json.skip_ws r); [|discriminate].
  intros H. inversion H; subst. eapply parse_members_dict; eassumption.
Qed.

End JsonBudget.

(** ** Sets of paths *)

Lemma remove_added (p : string) (X : gset string) :
  p ∉ X -> ({[ p ]} ∪ X) ∖ {[ p ]} = X.
Proof.
  intros H. apply set_eq. intros q.
  rewrite elem_of_difference, elem_of_union, !elem_of_singleton.
  split; [tauto|]. intros Hq. split; [tauto|]. congruence.
Qed.

Lemma removed_is_gone (p : string) (X : gset string) : p ∉ X ∖ {[ p ]}.
Proof. rewrite elem_of_difference, elem_of_singleton. tauto. Qed.

Lemma added_is_there (p : string) (X : gset string) : p ∈ {[ p ]} ∪ X.
Proof. apply elem_of_union_l, elem_of_singleton. reflexivity. Qed.

Lemma add_twice (p : string) (X : gset string) : {[ p ]} ∪ ({[ p ]} ∪ X) = {[ p ]} ∪ X.
Proof. rewrite (assoc_L (∪)). now rewrite union_idemp_L. Qed.

(** ** Order on floats *)

Lemma leb_trans (a b c : float) :
  PyFloat.leb a b = true -> PyFloat.leb b c = true -> PyFloat.leb a c = true.
Proof.
  unfold PyFloat.leb, SFleb, SFcompare.
  destruct a as [sa|sa| |sa ma ea], b as [sb|sb| |sb mb eb], c as [sc|sc| |sc mc ec];
    try discriminate; try reflexivity;
    repeat match goal with s : bool |- _ => destruct s end;
    try discriminate; try reflexivity;
    change (PosDef.Pos.compare_cont Eq) with Pos.compare;
    destruct (Z.compare_spec ea eb), (Z.compare_spec eb ec), (Z.compare_spec ea ec);
    try discriminate; try reflexivity; try (exfalso; lia);
    destruct (Pos.compare_spec ma mb), (Pos.compare_spec mb mc), (Pos.compare_spec ma mc);
    simpl; intros; try discriminate; try reflexivity; try (exfalso; lia).
Qed.

Lemma leb_refl (a : float) : PyFloat.is_nan a = false -> PyFloat.leb a a = true.
Proof.
  unfold PyFloat.leb, SFleb, SFcompare.
  destruct a as [s|s| |s m e]; try destruct s; try discriminate; try reflexivity;
    intros _; rewrite Z.compare_refl;
    change (PosDef.Pos.compare_cont Eq) with Pos.compare;
    now rewrite Pos.compare_refl.
Qed.

Lemma leb_not_nan_l (a b : float) : PyFloat.leb a b = true -> PyFloat.is_nan a = false.
Proof. destruct a; [reflexivity..|discriminate|reflexivity]. Qed.

Lemma leb_not_nan_r (a b : float) : PyFloat.leb a b = true -> PyFloat.is_nan b = false.
Proof. destruct a, b; try reflexivity; discriminate. Qed.

(** ** The response parser *)

Section ParserProperties.
Context {R : PyRuntime}.

Lemma parse_try_uses_match_only (raw m : string) (cx cy : Z) :
  re_search_braces raw = Some m ->
  _parse_response_try raw cx cy = _parse_response_try m cx cy.
Proof.
  intros H. unfold _parse_response_try.
  now rewrite H, (re_search_braces_idem raw m H).
Qed.

(** The [except] clause of the parser: a [ValueError] (which a
    [JSONDecodeError] is) becomes the fallback, anything else passes. *)
Lemma parse_handler (raw : string) (cx cy : Z) :
  _parse_response raw cx cy =
  match _parse_response_try raw cx cy with
  | Return r => Return r
  | Raise e => if is_ValueError e then Return (none_response cx cy) else Raise e
  end.
Proof. reflexivity. Qed.

(** The [try] block once the object is extracted and loaded. *)
Lemma parse_try_loaded (raw m : string) (parsed : pydict) (cx cy : Z) :
  re_search_braces raw = Some m ->
  Json.loads m = Return (PyDict parsed) ->
  _parse_response_try raw cx cy =
  rbind (py_float (dict_get parsed "confidence" (PyFloat (PyFloat.dec 5 (-1))))) (fun conf =>
    if py_eq_str (dict_get parsed "action_type" (PyStr "none")) "click" then
      rbind (py_int (dict_get parsed "x" (PyInt cx))) (fun px =>
      rbind (py_int (dict_get parsed "y" (PyInt cy))) (fun py =>
      Return (click_response px py conf)))
    else if py_eq_str (dict_get parsed "action_type" (PyStr "none")) "text" then
      Return (text_response cx cy (py_str (dict_get parsed "text" (PyStr ""))) conf)
    else Return (none_response cx cy)).
Proof.
  intros Hs Hl. unfold _parse_response_try. rewrite Hs, Hl. reflexivity.
Qed.

(** The extracted text opens with a brace, so it loads as a [dict] or
    raises one of the exceptions of [json.loads]. *)
Lemma loads_of_match (raw m : string) :
  re_search_braces raw = Some m ->
  (exists parsed, Json.loads m = Return (PyDict parsed)) \/
  Json.loads m = Raise JSONDecodeError \/
  Json.loads m = Raise Json.digit_limit_error \/
  Json.loads m = Raise Json.RecursionError.
Proof.
  intros H. pose proof (re_search_braces_spec raw) as Hs. rewrite H in Hs.
  destruct Hs as ((body & -> & _) & _).
  destruct (loads_outcomes (String "{" (body +:+ "}"))) as [(v & Hv)|He]; [|now right].
  left. destruct (loads_object_is_dict _ _ Hv) as (d & ->). now exists d.
Qed.

Lemma dict_get_absent (d : pydict) (key : string) (default : pyobj) :
  dict_lookup d key = None -> dict_get d key default = default.
Proof. unfold dict_get. now intros ->. Qed.

(** The parser never lets a [ValueError] out. *)
Lemma parse_raises_no_ValueError (raw : string) (cx cy : Z) (e : exn) :
  _parse_response raw cx cy = Raise e -> is_ValueError e = false.
Proof.
  rewrite parse_handler.
  destruct (_parse_response_try raw cx cy) as [r|e']; [discriminate|].
  destruct (is_ValueError e') eqn:He; [discriminate|].
  intros H. inversion H; subst. exact He.
Qed.

(** *** The wrapper of the real pipeline *)

(** The [finally] block never raises: it removes the file named by
    [temp_path] when that name is not empty and the file exists. *)
Lemma finally_spec (st : State) :
  _real_predict_finally st =
  (Return tt,
   match temp_path st with
   | Some p =>
       if truthy (Some p) && bool_decide (p ∈ fs st)
       then set_fs (fs st ∖ {[ p ]}) (log (CallUnlink p) st)
       else st
   | None => st
   end).
Proof.
  unfold _real_predict_finally, bind, get_temp_path.
  destruct (temp_path st) as [p|]; [|reflexivity].
  destruct (truthy (Some p)); [|reflexivity].
  unfold os_path_exists, os_unlink, ret. simpl.
  destruct (bool_decide (p ∈ fs st)) eqn:Hin; [|reflexivity].
  now rewrite Hin.
Qed.

(** [_real_predict] is its [try] block, with every exception replaced by
    the fallback, followed by the [finally] block. *)
Lemma real_predict_unfold (E : Env) (self : ActionPredictor) (img : string)
    (history : list string) (cx cy : Z) (st : State) :
  _real_predict E self img history cx cy st =
  (match fst (_real_predict_try E self img history cx cy (with_temp_path None st)) with
   | Return r => Return r
   | Raise _ => Return (none_response cx cy)
   end,
   snd (_real_predict_finally
          (snd (_real_predict_try E self img history cx cy (with_temp_path None st))))).
Proof.
  unfold _real_predict, bind, set_temp_path, try_finally, try_except, ret.
  destruct (_real_predict_try E self img history cx cy (with_temp_path None st))
    as [[r|e] st1]; simpl; rewrite finally_spec; reflexivity.
Qed.

Lemma real_predict_recovers (E : Env) (self : ActionPredictor) (img : string)
    (history : list string) (cx cy : Z) (st st' : State) (e : exn) :
  _real_predict_try E self img history cx cy (with_temp_path None st) = (Raise e, st') ->
  fst (_real_predict E self img history cx cy st) = Return (none_response cx cy).
Proof. intros H. rewrite real_predict_unfold, H. reflexivity. Qed.

Lemma real_predict_returns (E : Env) (self : ActionPredictor) (img : string)
    (history : list string) (cx cy : Z) (st : State) :
  exists r, fst (_real_predict E self img history cx cy st) = Return r.
Proof.
  rewrite real_predict_unfold. simpl.
  destruct (fst (_real_predict_try E self img history cx cy (with_temp_path None st)));
    eauto.
Qed.

(** C3 (as amended).  When the extracted object says [click] and its
    confidence converts to a float, the parser emits [Click] with
    [x = int(x field)] and [y = int(y field)], and an absent field takes
    the caller's cursor coordinate.  A field that is present but that
    [int] rejects gives no [Click]: the fallback when [int] raises
    [ValueError], the exception itself otherwise.  The object that only
    says [click] gives [Click] at the cursor with confidence 0.5. *)
Theorem parse_click_defaults (rawText m : string) (parsed : pydict) (cx cy : Z) (conf : float) :
  re_search_braces rawText = Some m ->
  Json.loads m = Return (PyDict parsed) ->
  dict_get parsed "action_type" (PyStr "none") = PyStr "click" ->
  py_float (dict_get parsed "confidence" (PyFloat (PyFloat.dec 5 (-1)))) = Return conf ->
  (forall px py,
      py_int (dict_get parsed "x" (PyInt cx)) = Return px ->
      py_int (dict_get parsed "y" (PyInt cy)) = Return py ->
      _parse_response rawText cx cy = Return (click_response px py conf)) /\
  (dict_lookup parsed "x" = None ->
      py_int (dict_get parsed "x" (PyInt cx)) = Return cx) /\
  (dict_lookup parsed "y" = None ->
      py_int (dict_get parsed "y" (PyInt cy)) = Return cy) /\
  (forall e,
      py_int (dict_get parsed "x" (PyInt cx)) = Raise e ->
      _parse_response rawText cx cy =
      if is_ValueError e then Return (none_response cx cy) else Raise e) /\
  (forall px e,
      py_int (dict_get parsed "x" (PyInt cx)) = Return px ->
      py_int (dict_get parsed "y" (PyInt cy)) = Raise e ->
      _parse_response rawText cx cy =
      if is_ValueError e then Return (none_response cx cy) else Raise e) /\
  (forall cx' cy',
      _parse_response (jq "{'action_type':'click'}") cx' cy' =
      Return (click_response cx' cy' (PyFloat.dec 5 (-1)))).
Proof.
  intros Hs Hl Ha Hc.
  pose proof (parse_try_loaded rawText m parsed cx cy Hs Hl) as Ht.
  rewrite Hc, Ha in Ht. simpl in Ht.
  split_and!.
  - intros px py Hx Hy. rewrite parse_handler, Ht, Hx, Hy. reflexivity.
  - intros Hx. now rewrite (dict_get_absent _ _ _ Hx).
  - intros Hy. now rewrite (dict_get_absent _ _ _ Hy).
  - intros e Hx. rewrite parse_handler, Ht, Hx. reflexivity.
  - intros px e Hx Hy. rewrite parse_handler, Ht, Hx, Hy. reflexivity.
  - intros cx' cy'. vm_compute. reflexivity.
Qed.

(** C4 (as amended).  The parser applies the fallback itself: when no
    object is found the [try] block raises the [ValueError] of line 206 and
    the parser returns None with confidence 0.0, and so it does when the
    extracted text is not JSON ([JSONDecodeError]) or holds an integer of
    more than 4300 digits ([ValueError]).  The third failure of
    [json.loads], [RecursionError] on arrays nested too deep, leaves the
    parser.  What leaves the parser is never a [ValueError]; such an
    exception is turned into None/0.0 by the handler of
    [_real_predict]. *)
Theorem parser_applies_fallback (rawText : string) (cx cy : Z) :
  (re_search_braces rawText = None ->
     _parse_response_try rawText cx cy = Raise (ValueError "No JSON object found in response") /\
     _parse_response rawText cx cy = Return (none_response cx cy)) /\
  (forall m e,
     re_search_braces rawText = Some m ->
     Json.loads m = Raise e ->
     (e = JSONDecodeError \/ e = Json.digit_limit_error \/ e = Json.RecursionError) /\
     _parse_response_try rawText cx cy = Raise e /\
     (e = JSONDecodeError \/ e = Json.digit_limit_error ->
        _parse_response rawText cx cy = Return (none_response cx cy)) /\
     (e = Json.RecursionError -> _parse_response rawText cx cy = Raise Json.RecursionError)) /\
  (forall e, _parse_response rawText cx cy = Raise e -> is_ValueError e = false) /\
  (forall (E : Env) self img history st e st',
     _real_predict_try E self img history cx cy (with_temp_path None st) = (Raise e, st') ->
     fst (_real_predict E self img history cx cy st) = Return (none_response cx cy)).
Proof.
  split_and!.
  - intros H. split.
    + unfold _parse_response_try. now rewrite H.
    + rewrite parse_handler. unfold _parse_response_try. now rewrite H.
  - intros m e H H0.
    assert (Ht : _parse_response_try rawText cx cy = Raise e).
    { unfold _parse_response_try. now rewrite H, H0. }
    split_and!.
    + destruct (loads_of_match rawText m H) as [(parsed & Hp)|[Hp|[Hp|Hp]]];
        rewrite Hp in H0; inversion H0; auto.
    + exact Ht.
    + intros [->| ->]; rewrite parse_handler, Ht; reflexivity.
    + intros ->. rewrite parse_handler, Ht. reflexivity.
  - apply parse_raises_no_ValueError.
  - intros E self img history st e st'. apply real_predict_recovers.
Qed.

End ParserProperties.

Section ParserClaims.
Context {R : PyRuntime}.

(** C5 (as amended).  The parser looks for the first brace-delimited span
    without inner braces and hands that span alone to [json.loads]: its
    outcome on the whole text is its outcome on the span.  When the text
    has no such span the parser does not fail: the [try] block raises the
    [ValueError] of line 206 and the parser's own handler answers it with
    the fallback, None with confidence 0.0.  The sample reply with text
    around the object parses to Click at (100, 200) with confidence
    0.8. *)
Theorem parse_scans_first_object (rawText : string) (cx cy : Z) :
  match re_search_braces rawText with
  | Some m =>
      (object_span m /\
       exists pre, occurs_at pre m rawText /\
         forall pre' m', object_span m' -> occurs_at pre' m' rawText ->
           (String.length pre <= String.length pre')%nat /\ (pre' = pre -> m' = m)) /\
      _parse_response_try rawText cx cy = _parse_response_try m cx cy /\
      _parse_response rawText cx cy = _parse_response m cx cy
  | None =>
      (forall pre' m', object_span m' -> ~ occurs_at pre' m' rawText) /\
      _parse_response_try rawText cx cy = Raise (ValueError "No JSON object found in response") /\
      _parse_response rawText cx cy = Return (none_response cx cy)
  end /\
  _parse_response
    (jq "Sure! {'action_type':'click','x':100,'y':200,'confidence':0.8} thanks") cx cy =
  Return (click_response 100 200 (PyFloat.dec 8 (-1))).
Proof.
  split.
  - pose proof (re_search_braces_spec rawText) as Hspec.
    destruct (re_search_braces rawText) as [m|] eqn:Hs.
    + split; [exact Hspec|].
      pose proof (parse_try_uses_match_only rawText m cx cy Hs) as Ht.
      split; [exact Ht|]. rewrite !parse_handler. now rewrite Ht.
    + split; [exact Hspec|].
      assert (Ht : _parse_response_try rawText cx cy
                   = Raise (ValueError "No JSON object found in response")).
      { unfold _parse_response_try. now rewrite Hs. }
      split; [exact Ht|]. rewrite parse_handler, Ht. reflexivity.
  - vm_compute. reflexivity.
Qed.

(** C6 (as amended).  When the extracted object's [action_type] is neither
    [click] nor [text], the parser returns None with confidence 0.0 for
    every confidence that [float] converts, and also when [float] rejects
    it with a [ValueError]; the confidence is converted before the
    dispatch, so when [float] raises another exception on it the parser
    raises that exception instead.  The tags [none] and [scroll] and a
    missing tag give None/0.0, a confidence of 0.9 in the text
    notwithstanding. *)
Theorem parse_other_action_is_none (rawText m : string) (parsed : pydict) (cx cy : Z) :
  re_search_braces rawText = Some m ->
  Json.loads m = Return (PyDict parsed) ->
  py_eq_str (dict_get parsed "action_type" (PyStr "none")) "click" = false ->
  py_eq_str (dict_get parsed "action_type" (PyStr "none")) "text" = false ->
  _parse_response rawText cx cy =
    match py_float (dict_get parsed "confidence" (PyFloat (PyFloat.dec 5 (-1)))) with
    | Return _ => Return (none_response cx cy)
    | Raise e => if is_ValueError e then Return (none_response cx cy) else Raise e
    end /\
  _parse_response (jq "{'action_type':'none','confidence':0.9}") cx cy
    = Return (none_response cx cy) /\
  _parse_response (jq "{'action_type':'scroll','confidence':0.9}") cx cy
    = Return (none_response cx cy) /\
  _parse_response (jq "{'confidence':0.9}") cx cy = Return (none_response cx cy) /\
  confidence (none_response cx cy) = S754_zero false.
Proof.
  intros Hs Hl Hc Ht. split_and!.
  - rewrite parse_handler, (parse_try_loaded rawText m parsed cx cy Hs Hl), Hc, Ht.
    now destruct (py_float _).
  - vm_compute. reflexivity.
  - vm_compute. reflexivity.
  - vm_compute. reflexivity.
  - reflexivity.
Qed.

(** C10.  The parser's handler answers only [ValueError] and its subclass
    [JSONDecodeError].  The well-formed object that says [click] with
    [x] set to [null] makes [int] raise [TypeError], which leaves
    [_parse_response]; whenever the [try] block of [_real_predict] ends
    in that exception, [_real_predict] returns None with confidence
    0.0. *)
Theorem parser_not_total_on_json :
  (forall raw cx cy e,
     _parse_response_try raw cx cy = Raise e ->
     _parse_response raw cx cy =
     if is_ValueError e then Return (none_response cx cy) else Raise e) /\
  exists raw parsed,
    re_search_braces raw = Some raw /\
    Json.loads raw = Return (PyDict parsed) /\
    dict_lookup parsed "action_type" = Some (PyStr "click") /\
    dict_lookup parsed "x" = Some PyNone /\
    py_int PyNone = Raise TypeError /\
    is_ValueError TypeError = false /\
    (forall cx cy, _parse_response raw cx cy = Raise TypeError) /\
    (forall (E : Env) self img history cx cy st st',
       _real_predict_try E self img history cx cy (with_temp_path None st)
         = (Raise TypeError, st') ->
       fst (_real_predict E self img history cx cy st) = Return (none_response cx cy)) /\
    fst (predict (Demo.scripted raw) Demo.ready EmptyString nil 10 20 Demo.st0)
      = Return (none_response 10 20).
Proof.
  split.
  - intros raw cx cy e H. now rewrite parse_handler, H.
  - exists (jq "{'action_type':'click','x':null}"),
           [("action_type", PyStr "click"); ("x", PyNone)].
    split_and!.
    + reflexivity.
    + reflexivity.
    + reflexivity.
    + reflexivity.
    + reflexivity.
    + reflexivity.
    + intros cx cy. vm_compute. reflexivity.
    + intros E self img history cx cy st st'. apply real_predict_recovers.
    + vm_compute. reflexivity.
Qed.

End ParserClaims.

(** ** The environments used in examples *)

Lemma demo_random_ok (reply : string) : RandomOk (Demo.scripted reply).
Proof.
  constructor; simpl.
  - intros n s Hn. unfold Demo.pick. simpl. apply Nat.mod_upper_bound. lia.
  - intros a b s Hab. unfold Demo.step_int. simpl.
    pose proof (Z.mod_pos_bound (Z.of_N s) (b - a + 1)). lia.
  - intros a b s Hab. unfold Demo.step_float. simpl.
    destruct (N.even s).
    + split; [|exact Hab]. apply leb_refl. now apply leb_not_nan_l with b.
    + split; [exact Hab|]. apply leb_refl. now apply leb_not_nan_r with a.
Qed.

Lemma max_len_bound (l : list string) (s : string) :
  In s l -> (String.length s <= Demo.max_len l)%nat.
Proof.
  induction l as [|t l IH]; simpl; [tauto|].
  intros [->|H]; [lia|]. specialize (IH H). lia.
Qed.

Lemma length_filler (n : nat) : String.length (Demo.filler n) = n.
Proof. induction n; simpl; [reflexivity | now rewrite IHn]. Qed.

Lemma demo_mkstemp_ok (reply : string) : MkstempOk (Demo.scripted reply).
Proof.
  constructor; simpl; intros suffix st p H; inversion H; subst p; clear H.
  - discriminate.
  - intros Hin. apply elem_of_elements, list_elem_of_In, max_len_bound in Hin.
    unfold Demo.fresh_path in Hin.
    rewrite !length_append, length_filler in Hin. simpl in Hin. lia.
Qed.

(** ** The mock generator *)

Lemma nth_error_in_range {A : Type} (l : list A) (i : nat) :
  (i < length l)%nat -> exists a, nth_error l i = Some a /\ In a l.
Proof.
  intros H. destruct (nth_error l i) as [a|] eqn:Hn.
  - exists a. split; [reflexivity|]. eapply nth_error_In; eassumption.
  - apply nth_error_None in Hn. lia.
Qed.

Lemma mock_range_in_unit_interval (lo hi f : float) :
  PyFloat.leb (PyFloat.dec 0 0) lo = true ->
  PyFloat.leb hi (PyFloat.dec 1 0) = true ->
  between lo hi f -> between (PyFloat.dec 0 0) (PyFloat.dec 1 0) f.
Proof.
  intros Hlo Hhi [H1 H2]. split.
  - exact (leb_trans _ _ _ Hlo H1).
  - exact (leb_trans _ _ _ H2 Hhi).
Qed.

Lemma bind_return {A B : Type} (m : M A) (k : A -> M B) (st st' : State) (a : A) :
  m st = (Return a, st') -> bind m k st = k a st'.
Proof. unfold bind. now intros ->. Qed.

Lemma random_choice_spec {A : Type} (E : Env) (l : list A) (st : State) :
  RandomOk E -> (0 < length l)%nat ->
  exists a,
    nth_error l (fst (choice_index E (length l) (seed st))) = Some a /\ In a l /\
    random_choice E l st =
      (Return a, set_seed (snd (choice_index E (length l) (seed st))) st).
Proof.
  intros HR Hl.
  pose proof (choice_index_lt E HR (length l) (seed st) Hl) as Hi.
  destruct (nth_error_in_range l _ Hi) as (a & Hn & Hin).
  exists a. split; [exact Hn|]. split; [exact Hin|].
  unfold random_choice.
  destruct (choice_index E (length l) (seed st)) as [i s1]. simpl in *.
  now rewrite Hn.
Qed.

(** The [click] branch of [_mock_predict]. *)
Lemma mock_click_branch (E : Env) (cx cy : Z) (st st1 : State) :
  RandomOk E ->
  fs st1 = fs st -> calls st1 = calls st -> temp_path st1 = temp_path st ->
  exists r st',
    (offset_x <- random_randint E (-150) 150;;
     offset_y <- random_randint E (-150) 150;;
     conf <- random_uniform E (PyFloat.dec 3 (-1)) (PyFloat.dec 95 (-2));;
     ret {| action_type := "click";
            x := Some (Z.max 0 (cx + offset_x));
            y := Some (Z.max 0 (cy + offset_y));
            text := None;
            confidence := conf |}) st1 = (Return r, st') /\
    fs st' = fs st /\ calls st' = calls st /\ temp_path st' = temp_path st /\
    action_type r = "click" /\
    (exists dx dy, -150 <= dx <= 150 /\ -150 <= dy <= 150 /\
       x r = Some (Z.max 0 (cx + dx)) /\ y r = Some (Z.max 0 (cy + dy))) /\
    text r = None /\
    between (PyFloat.dec 3 (-1)) (PyFloat.dec 95 (-2)) (confidence r).
Proof.
  intros HR Hf Hc Ht.
  unfold bind, random_randint, random_uniform, ret.
  pose proof (randint_range E HR (-150) 150 (seed st1) ltac:(lia)) as Hx.
  destruct (randint E (-150) 150 (seed st1)) as [dx s2]. simpl in Hx.
  pose proof (randint_range E HR (-150) 150 s2 ltac:(lia)) as Hy.
  simpl. destruct (randint E (-150) 150 s2) as [dy s3]. simpl in Hy.
  pose proof (uniform_range E HR (PyFloat.dec 3 (-1)) (PyFloat.dec 95 (-2)) s3 eq_refl)
    as Hu.
  simpl. destruct (uniform E (PyFloat.dec 3 (-1)) (PyFloat.dec 95 (-2)) s3) as [c s4].
  simpl in Hu. eexists _, _. split; [reflexivity|]. simpl.
  split_and!; try assumption; try reflexivity.
  exists dx, dy. auto.
Qed.

(** The [text] branch of [_mock_predict]. *)
Lemma mock_text_branch (E : Env) (cx cy : Z) (st st1 : State) :
  RandomOk E ->
  fs st1 = fs st -> calls st1 = calls st -> temp_path st1 = temp_path st ->
  exists r st',
    (phrase <- random_choice E MOCK_TEXT_PREDICTIONS;;
     conf <- random_uniform E (PyFloat.dec 4 (-1)) (PyFloat.dec 9 (-1));;
     ret {| action_type := "text";
            x := Some cx;
            y := Some cy;
            text := Some phrase;
            confidence := conf |}) st1 = (Return r, st') /\
    fs st' = fs st /\ calls st' = calls st /\ temp_path st' = temp_path st /\
    action_type r = "text" /\ x r = Some cx /\ y r = Some cy /\
    (exists t, text r = Some t /\ In t MOCK_TEXT_PREDICTIONS) /\
    between (PyFloat.dec 4 (-1)) (PyFloat.dec 9 (-1)) (confidence r).
Proof.
  intros HR Hf Hc Ht.
  destruct (random_choice_spec E MOCK_TEXT_PREDICTIONS st1 HR ltac:(simpl; lia))
    as (t & _ & Hin & Hrun).
  rewrite (bind_return _ _ _ _ _ Hrun).
  unfold bind, random_uniform, ret. simpl.
  pose proof (uniform_range E HR (PyFloat.dec 4 (-1)) (PyFloat.dec 9 (-1))
                (snd (choice_index E 5 (seed st1))) eq_refl) as Hu.
  destruct (uniform E (PyFloat.dec 4 (-1)) (PyFloat.dec 9 (-1))
              (snd (choice_index E 5 (seed st1)))) as [c s3].
  simpl in Hu. eexists _, _. split; [reflexivity|]. simpl.
  split_and!; try assumption; try reflexivity.
  exists t. auto.
Qed.

(** One run of [_mock_predict], draw by draw. *)
Lemma mock_predict_spec (E : Env) (cx cy : Z) (st : State) :
  RandomOk E ->
  exists r st',
    _mock_predict E cx cy st = (Return r, st') /\
    fs st' = fs st /\ calls st' = calls st /\ temp_path st' = temp_path st /\
    action_type r =
      nth (fst (choice_index E 4 (seed st))) ["click"; "text"; "click"; "click"] "click" /\
    ((is_click r /\
      (exists dx dy, -150 <= dx <= 150 /\ -150 <= dy <= 150 /\
         x r = Some (Z.max 0 (cx + dx)) /\ y r = Some (Z.max 0 (cy + dy))) /\
      text r = None /\
      between (PyFloat.dec 3 (-1)) (PyFloat.dec 95 (-2)) (confidence r))
     \/
     (is_text r /\ x r = Some cx /\ y r = Some cy /\
      (exists t, text r = Some t /\ In t MOCK_TEXT_PREDICTIONS) /\
      between (PyFloat.dec 4 (-1)) (PyFloat.dec 9 (-1)) (confidence r))).
Proof.
  intros HR.
  destruct (random_choice_spec E ["click"; "text"; "click"; "click"] st HR
              ltac:(simpl; lia)) as (a & Hn & Hin & Hrun).
  unfold _mock_predict. rewrite (bind_return _ _ _ _ _ Hrun).
  apply (nth_error_nth _ _ "click") in Hn. simpl length in Hn. rewrite Hn.
  set (st1 := set_seed _ st).
  assert (Hclick := mock_click_branch E cx cy st st1 HR eq_refl eq_refl eq_refl).
  assert (Htext := mock_text_branch E cx cy st st1 HR eq_refl eq_refl eq_refl).
  assert (Ha : a = "click" \/ a = "text") by (simpl in Hin; intuition auto).
  destruct Ha as [-> | ->]; simpl String.eqb; cbv iota.
  - destruct Hclick as (r & st' & Hr & Hf & Hc & Ht & Ha & Hxy & Htx & Hcf).
    exists r, st'. split_and!; try assumption. left. unfold is_click. auto.
  - destruct Htext as (r & st' & Hr & Hf & Hc & Ht & Ha & Hx & Hy & Htx & Hcf).
    exists r, st'. split_and!; try assumption. right. unfold is_text. auto.
Qed.

(** C8.  With draws inside the documented ranges of [random], the mock
    generator returns a Click or a Text and never None.  The variant is the
    entry that [random.choice] draws from a list of four entries, three of
    them [click] and one [text].  A Click is at
    [max(0, cursor + offset)] where the two offsets are the next two draws
    of [random.randint(-150, 150)], so both coordinates are at least 0, and
    its confidence is the draw of [random.uniform(0.3, 0.95)] that
    follows; a Text has as text the phrase [random.choice] draws from the
    fixed list and as confidence the draw of [random.uniform(0.4, 0.9)]
    that follows.  Nothing else is drawn. *)
Theorem mock_generator_policy (E : Env) (cx cy : Z) (st : State) :
  RandomOk E ->
  (length ["click"; "text"; "click"; "click"] = 4%nat /\
   count_occ String.string_dec ["click"; "text"; "click"; "click"] "click" = 3%nat /\
   count_occ String.string_dec ["click"; "text"; "click"; "click"] "text" = 1%nat) /\
  let i := fst (choice_index E 4 (seed st)) in
  let s1 := snd (choice_index E 4 (seed st)) in
  let dx := fst (randint E (-150) 150 s1) in
  let s2 := snd (randint E (-150) 150 s1) in
  let dy := fst (randint E (-150) 150 s2) in
  let s3 := snd (randint E (-150) 150 s2) in
  let click_conf := uniform E (PyFloat.dec 3 (-1)) (PyFloat.dec 95 (-2)) s3 in
  let j := fst (choice_index E 5 s1) in
  let t2 := snd (choice_index E 5 s1) in
  let text_conf := uniform E (PyFloat.dec 4 (-1)) (PyFloat.dec 9 (-1)) t2 in
  exists r st',
    _mock_predict E cx cy st = (Return r, st') /\
    action_type r = nth i ["click"; "text"; "click"; "click"] "click" /\
    ~ is_none r /\
    ((is_click r /\ i <> 1%nat /\
      -150 <= dx <= 150 /\ -150 <= dy <= 150 /\
      r = click_response (Z.max 0 (cx + dx)) (Z.max 0 (cy + dy)) (fst click_conf) /\
      0 <= Z.max 0 (cx + dx) /\ 0 <= Z.max 0 (cy + dy) /\
      between (PyFloat.dec 3 (-1)) (PyFloat.dec 95 (-2)) (fst click_conf) /\
      seed st' = snd click_conf)
     \/
     (is_text r /\ i = 1%nat /\
      exists t,
        nth_error MOCK_TEXT_PREDICTIONS j = Some t /\ In t MOCK_TEXT_PREDICTIONS /\
        r = text_response cx cy t (fst text_conf) /\
        between (PyFloat.dec 4 (-1)) (PyFloat.dec 9 (-1)) (fst text_conf) /\
        seed st' = snd text_conf)).
Proof.
  intros HR. split; [repeat split|]. cbv zeta.
  pose proof (choice_index_lt E HR 4 (seed st) ltac:(lia)) as Hi.
  pose proof (randint_range E HR (-150) 150
                (snd (choice_index E 4 (seed st))) ltac:(lia)) as Hdx.
  pose proof (randint_range E HR (-150) 150
                (snd (randint E (-150) 150 (snd (choice_index E 4 (seed st)))))
                ltac:(lia)) as Hdy.
  assert (Hclick : forall s, between (PyFloat.dec 3 (-1)) (PyFloat.dec 95 (-2))
                     (fst (uniform E (PyFloat.dec 3 (-1)) (PyFloat.dec 95 (-2)) s)))
    by (intros s; apply (uniform_range E HR); reflexivity).
  assert (Htext : forall s, between (PyFloat.dec 4 (-1)) (PyFloat.dec 9 (-1))
                    (fst (uniform E (PyFloat.dec 4 (-1)) (PyFloat.dec 9 (-1)) s)))
    by (intros s; apply (uniform_range E HR); reflexivity).
  pose proof (choice_index_lt E HR 5 (snd (choice_index E 4 (seed st))) ltac:(lia)) as Hj.
  unfold _mock_predict, bind, random_choice, random_randint, random_uniform.
  change (length ["click"; "text"; "click"; "click"]) with 4%nat.
  change (length MOCK_TEXT_PREDICTIONS) with 5%nat.
  destruct (choice_index E 4 (seed st)) as [i s1]. cbn [fst snd] in *.
  assert (Hcase : i = 0%nat \/ i = 1%nat \/ i = 2%nat \/ i = 3%nat) by lia.
  destruct Hcase as [->|[->|[->| ->]]]; cbn [nth_error nth String.eqb Ascii.eqb Bool.eqb seed set_seed].
  all: try (destruct (randint E (-150) 150 s1) as [dx s2]; cbn [fst snd seed set_seed] in *;
            destruct (randint E (-150) 150 s2) as [dy s3]; cbn [fst snd seed set_seed] in *;
            specialize (Hclick s3);
            destruct (uniform E (PyFloat.dec 3 (-1)) (PyFloat.dec 95 (-2)) s3) as [c s4];
            cbn [fst snd seed set_seed] in *;
            eexists _, _; split; [reflexivity|]; split; [reflexivity|];
            split; [unfold is_none; simpl; discriminate|];
            left; unfold is_click; simpl;
            split_and!; try reflexivity; try lia; try exact Hclick; discriminate).
  destruct (choice_index E 5 s1) as [j t2]. cbn [fst snd] in *.
  destruct (nth_error_in_range MOCK_TEXT_PREDICTIONS j Hj) as (t & Ht & Hin).
  rewrite Ht. cbn [seed set_seed].
  specialize (Htext t2).
  destruct (uniform E (PyFloat.dec 4 (-1)) (PyFloat.dec 9 (-1)) t2) as [c t3].
  cbn [fst snd seed set_seed] in *.
  eexists _, _. split; [reflexivity|]. split; [reflexivity|].
  split; [unfold is_none; simpl; discriminate|].
  right. unfold is_text. simpl. split_and!; try reflexivity.
  exists t. split_and!; try assumption; reflexivity.
Qed.

(** ** The predictor *)

Section PredictorClaims.
Context {R : PyRuntime}.

(** What the parser returns is the fallback, or a Click or Text whose
    confidence is the float of the object's confidence field (0.5 when the
    field is absent). *)
Lemma parse_result_shape (raw : string) (cx cy : Z) (r : PredictionResponse) :
  _parse_response raw cx cy = Return r ->
  r = none_response cx cy \/
  exists m parsed conf,
    re_search_braces raw = Some m /\
    Json.loads m = Return (PyDict parsed) /\
    py_float (dict_get parsed "confidence" (PyFloat (PyFloat.dec 5 (-1)))) = Return conf /\
    ((exists px py, r = click_response px py conf) \/
     (exists t, r = text_response cx cy t conf)).
Proof.
  rewrite parse_handler. unfold _parse_response_try.
  destruct (re_search_braces raw) as [m|]; simpl.
  2:{ intros H. inversion H. auto. }
  destruct (Json.loads m) as [v|e] eqn:Hl; simpl.
  2:{ destruct (is_ValueError e); intros H; inversion H. auto. }
  destruct v as [| | | | | |parsed]; simpl; try discriminate.
  destruct (py_float _) as [conf|e] eqn:Hc; simpl.
  2:{ destruct (is_ValueError e); intros H; inversion H. auto. }
  destruct (py_eq_str _ "click").
  - destruct (py_int _) as [px|e]; simpl.
    2:{ destruct (is_ValueError e); intros H; inversion H. auto. }
    destruct (py_int _) as [py|e]; simpl.
    2:{ destruct (is_ValueError e); intros H; inversion H. auto. }
    intros H. inversion H. right. exists m, parsed, conf.
    split_and!; auto. left. now exists px, py.
  - destruct (py_eq_str _ "text"); intros H; inversion H; [|auto].
    right. exists m, parsed, conf. split_and!; auto. right. eauto.
Qed.

(** The real pipeline, stage by stage: a failure of any stage gives the
    fallback, and a reply that reaches the parser gives what the parser
    returns, or the fallback when the parser raises. *)
Lemma real_predict_stages (E : Env) (self : ActionPredictor) (img : string)
    (history : list string) (cx cy : Z) (st : State) :
  let out := fst (_real_predict E self img history cx cy st) in
  match call_Image_open E img (with_temp_path None st) with
  | (Raise _, _) => out = Return (none_response cx cy)
  | (Return image, st1) =>
  match call_mkstemp E ".png" st1 with
  | (Raise _, _) => out = Return (none_response cx cy)
  | (Return path, st2) =>
  match call_Image_save E image path (with_temp_path (Some path) st2) with
  | (Raise _, _) => out = Return (none_response cx cy)
  | (Return _, st3) =>
  match call_generate E (model self) (processor self) (build_prompt cx cy history) path
          150 (PyFloat.dec 1 (-1)) false st3 with
  | (Raise _, _) => out = Return (none_response cx cy)
  | (Return result, _) =>
  match extract_output result with
  | PyStr output =>
      out = match _parse_response output cx cy with
            | Return r => Return r
            | Raise _ => Return (none_response cx cy)
            end
  | _ => out = Return (none_response cx cy)
  end end end end end.
Proof.
  intros out.
  assert (Hout : out =
    match fst (_real_predict_try E self img history cx cy (with_temp_path None st)) with
    | Return r => Return r
    | Raise _ => Return (none_response cx cy)
    end) by (subst out; now rewrite real_predict_unfold).
  clearbody out. subst out.
  unfold _real_predict_try, bind, set_temp_path, lift, raise.
  destruct (call_Image_open E img (with_temp_path None st)) as [[image|e] st1];
    [|reflexivity].
  destruct (call_mkstemp E ".png" st1) as [[path|e] st2]; [|reflexivity].
  destruct (call_Image_save E image path (with_temp_path (Some path) st2))
    as [[u|e] st3]; [|reflexivity].
  destruct (call_generate E (model self) (processor self) (build_prompt cx cy history)
              path 150 (PyFloat.dec 1 (-1)) false st3) as [[result|e] st4];
    [|reflexivity].
  destruct (extract_output result); reflexivity.
Qed.

(** C1.  [predict] always returns a prediction.  In mock mode this rests
    on [random.choice] staying inside its list.  With a model, whatever
    exception the [try] block of [_real_predict] ends in becomes None with
    confidence 0.0, stage by stage: opening the image, creating the file,
    saving the image, the generation call, a result that is no string, and
    the parser (whose own failures are answered the same way). *)
Theorem predict_never_raises (E : Env) (self : ActionPredictor) (img : string)
    (history : list string) (cx cy : Z) (st : State) :
  RandomOk E ->
  (exists r, fst (predict E self img history cx cy st) = Return r) /\
  (forall m e st',
     model self = Some m ->
     _real_predict_try E self img history cx cy (with_temp_path None st) = (Raise e, st') ->
     fst (predict E self img history cx cy st) = Return (none_response cx cy)) /\
  (forall m, model self = Some m ->
     let out := fst (predict E self img history cx cy st) in
     match call_Image_open E img (with_temp_path None st) with
     | (Raise _, _) => out = Return (none_response cx cy)
     | (Return image, st1) =>
     match call_mkstemp E ".png" st1 with
     | (Raise _, _) => out = Return (none_response cx cy)
     | (Return path, st2) =>
     match call_Image_save E image path (with_temp_path (Some path) st2) with
     | (Raise _, _) => out = Return (none_response cx cy)
     | (Return _, st3) =>
     match call_generate E (model self) (processor self) (build_prompt cx cy history) path
             150 (PyFloat.dec 1 (-1)) false st3 with
     | (Raise _, _) => out = Return (none_response cx cy)
     | (Return result, _) =>
     match extract_output result with
     | PyStr output =>
         out = match _parse_response output cx cy with
               | Return r => Return r
               | Raise _ => Return (none_response cx cy)
               end
     | _ => out = Return (none_response cx cy)
     end end end end end) /\
  (forall output e,
     _parse_response_try output cx cy = Raise e -> is_ValueError e = true ->
     _parse_response output cx cy = Return (none_response cx cy)) /\
  action_type (none_response cx cy) = "none" /\
  confidence (none_response cx cy) = S754_zero false.
Proof.
  intros HR. split_and!.
  - unfold predict. destruct (model self) as [m|].
    + apply real_predict_returns.
    + destruct (mock_predict_spec E cx cy st HR) as (r & st' & Hrun & _).
      exists r. now rewrite Hrun.
  - intros m e st' Hm Hb. unfold predict. rewrite Hm.
    eapply real_predict_recovers; eassumption.
  - intros m Hm.
    assert (Hp : predict E self img history cx cy st
                 = _real_predict E self img history cx cy st)
      by (unfold predict; now rewrite Hm).
    rewrite Hp. apply real_predict_stages.
  - intros output e Ht He. now rewrite parse_handler, Ht, He.
  - reflexivity.
  - reflexivity.
Qed.

(** A result of [_real_predict] other than the fallback is what the
    parser made of the text that [generate] returned in this run. *)
Lemma real_predict_reply (E : Env) (self : ActionPredictor) (img : string)
    (history : list string) (cx cy : Z) (st : State) (r : PredictionResponse) :
  fst (_real_predict E self img history cx cy st) = Return r ->
  r = none_response cx cy \/
  exists image st1 path st2 u st3 result st4 output,
    call_Image_open E img (with_temp_path None st) = (Return image, st1) /\
    call_mkstemp E ".png" st1 = (Return path, st2) /\
    call_Image_save E image path (with_temp_path (Some path) st2) = (Return u, st3) /\
    call_generate E (model self) (processor self) (build_prompt cx cy history) path
      150 (PyFloat.dec 1 (-1)) false st3 = (Return result, st4) /\
    extract_output result = PyStr output /\
    _parse_response output cx cy = Return r.
Proof.
  rewrite real_predict_unfold. simpl fst.
  unfold _real_predict_try, bind, set_temp_path.
  destruct (call_Image_open E img (with_temp_path None st)) as [[image|e] st1] eqn:Ho;
    [|intros H; inversion H; auto].
  destruct (call_mkstemp E ".png" st1) as [[path|e] st2] eqn:Hk;
    [|intros H; inversion H; auto].
  destruct (call_Image_save E image path (with_temp_path (Some path) st2))
    as [[u|e] st3] eqn:Hs; [|intros H; inversion H; auto].
  destruct (call_generate E (model self) (processor self) (build_prompt cx cy history) path
              150 (PyFloat.dec 1 (-1)) false st3) as [[result|e] st4] eqn:Hg;
    [|intros H; inversion H; auto].
  destruct (extract_output result) as [| | | |output| |] eqn:Hx;
    try (intros H; inversion H; auto; fail).
  unfold lift. simpl fst.
  destruct (_parse_response output cx cy) as [r'|e] eqn:Hp;
    [|intros H; inversion H; auto].
  intros H. inversion H; subst r'. right.
  exists image, st1, path, st2, u, st3, result, st4, output. auto 10.
Qed.

(** C2 (as amended).  [predict] returns exactly one of Click, Text and
    None, and a None always has confidence 0.0.  In mock mode the
    confidence lies in [0, 1].  With a model, a result other than the
    fallback is what the parser made of the text [generate] returned for
    this request, and its confidence is the float of the confidence
    field of the object extracted from that text (0.5 when the field is
    absent), which nothing bounds. *)
Theorem prediction_variants (E : Env) (self : ActionPredictor) (img : string)
    (history : list string) (cx cy : Z) (st : State) :
  RandomOk E ->
  exists r,
    fst (predict E self img history cx cy st) = Return r /\
    ((is_click r /\ ~ is_text r /\ ~ is_none r) \/
     (is_text r /\ ~ is_click r /\ ~ is_none r) \/
     (is_none r /\ ~ is_click r /\ ~ is_text r)) /\
    (is_none r -> confidence r = S754_zero false) /\
    (model self = None ->
       between (PyFloat.dec 0 0) (PyFloat.dec 1 0) (confidence r)) /\
    (forall m, model self = Some m ->
       r = none_response cx cy \/
       exists image st1 path st2 u st3 result st4 output span parsed,
         call_Image_open E img (with_temp_path None st) = (Return image, st1) /\
         call_mkstemp E ".png" st1 = (Return path, st2) /\
         call_Image_save E image path (with_temp_path (Some path) st2) = (Return u, st3) /\
         call_generate E (model self) (processor self) (build_prompt cx cy history) path
           150 (PyFloat.dec 1 (-1)) false st3 = (Return result, st4) /\
         extract_output result = PyStr output /\
         _parse_response output cx cy = Return r /\
         re_search_braces output = Some span /\
         Json.loads span = Return (PyDict parsed) /\
         py_float (dict_get parsed "confidence" (PyFloat (PyFloat.dec 5 (-1))))
           = Return (confidence r) /\
         (is_click r \/ is_text r)).
Proof.
  intros HR. unfold predict. destruct (model self) as [m|] eqn:Hm.
  - destruct (real_predict_returns E self img history cx cy st) as (r & Hr).
    exists r. split; [exact Hr|].
    assert (Hcases : r = none_response cx cy \/
              exists image st1 path st2 u st3 result st4 output span parsed conf,
                call_Image_open E img (with_temp_path None st) = (Return image, st1) /\
                call_mkstemp E ".png" st1 = (Return path, st2) /\
                call_Image_save E image path (with_temp_path (Some path) st2)
                  = (Return u, st3) /\
                call_generate E (Some m) (processor self) (build_prompt cx cy history) path
                  150 (PyFloat.dec 1 (-1)) false st3 = (Return result, st4) /\
                extract_output result = PyStr output /\
                _parse_response output cx cy = Return r /\
                re_search_braces output = Some span /\
                Json.loads span = Return (PyDict parsed) /\
                py_float (dict_get parsed "confidence" (PyFloat (PyFloat.dec 5 (-1))))
                  = Return conf /\
                ((exists px py, r = click_response px py conf) \/
                 (exists t, r = text_response cx cy t conf))).
    { destruct (real_predict_reply E self img history cx cy st r Hr)
        as [->|(image & st1 & path & st2 & u & st3 & result & st4 & output &
                Ho & Hk & Hs & Hg & Hx & Hp)]; [auto|].
      rewrite Hm in Hg.
      destruct (parse_result_shape output cx cy r Hp)
        as [->|(span & parsed & conf & Hsp & Hl & Hc & Hr')]; [auto|].
      right. exists image, st1, path, st2, u, st3, result, st4, output, span, parsed, conf.
      auto 12. }
    split_and!.
    + destruct Hcases as [->|(? & ? & ? & ? & ? & ? & ? & ? & ? & ? & ? & conf &
                              _ & _ & _ & _ & _ & _ & _ & _ & _ &
                              [(px & py & ->)|(t & ->)])];
        unfold is_click, is_text, is_none; simpl;
        [right; right|left|right; left]; split_and!; try reflexivity; discriminate.
    + destruct Hcases as [->|(? & ? & ? & ? & ? & ? & ? & ? & ? & ? & ? & conf &
                              _ & _ & _ & _ & _ & _ & _ & _ & _ &
                              [(px & py & ->)|(t & ->)])];
        unfold is_none; simpl; [reflexivity|discriminate..].
    + discriminate.
    + intros m' _.
      destruct Hcases as [->|(image & st1 & path & st2 & u & st3 & result & st4 & output &
                              span & parsed & conf &
                              Ho & Hk & Hs & Hg & Hx & Hp & Hsp & Hl & Hc &
                              [(px & py & ->)|(t & ->)])]; [auto|..];
        right; exists image, st1, path, st2, u, st3, result, st4, output, span, parsed;
        unfold is_click, is_text; simpl; auto 12.
  - destruct (mock_predict_spec E cx cy st HR)
      as (r & st' & Hrun & _ & _ & _ & _ & Hcase).
    exists r. rewrite Hrun. split; [reflexivity|].
    destruct Hcase as [(Hc & _ & _ & Hcf)|(Ht & _ & _ & _ & Hcf)].
    + unfold is_click, is_text, is_none in *. split_and!.
      * left. rewrite Hc. split_and!; [reflexivity|discriminate..].
      * rewrite Hc. discriminate.
      * intros _. eapply mock_range_in_unit_interval; [| |exact Hcf]; reflexivity.
      * discriminate.
    + unfold is_click, is_text, is_none in *. split_and!.
      * right. left. rewrite Ht. split_and!; [reflexivity|discriminate..].
      * rewrite Ht. discriminate.
      * intros _. eapply mock_range_in_unit_interval; [| |exact Hcf]; reflexivity.
      * discriminate.
Qed.

End PredictorClaims.

Section ModeClaims.
Context {R : PyRuntime}.

(** What [ActionPredictor(model_path)] leaves in [self.model]: nothing when
    no path is given or when loading raises, the loaded model otherwise. *)
Lemma init_backend_state (E : Env) (path : option string) (st : State) :
  exists self st',
    __init__ E path st = (Return self, st') /\
    model_path self = path /\
    backend_state self =
      (if truthy path
       then match load E (default EmptyString path) (log (CallLoad (default EmptyString path)) st) with
            | Return _ => Ready
            | Raise _ => LoadFailed
            end
       else Unconfigured).
Proof.
  unfold __init__. destruct (truthy path) eqn:Ht.
  - unfold _load_model, try_except, bind, call_load, ret. simpl.
    destruct (load E (default EmptyString path) (log (CallLoad (default EmptyString path)) st))
      as [[m p]|e]; simpl; eexists _, _; split; try reflexivity;
      unfold backend_state; simpl; now rewrite ?Ht.
  - eexists _, _. split; [reflexivity|]. unfold backend_state. simpl. now rewrite Ht.
Qed.

Lemma no_model_iff (self : ActionPredictor) :
  model self = None <-> backend_state self = Unconfigured \/ backend_state self = LoadFailed.
Proof.
  unfold backend_state. destruct (model self).
  - split; [discriminate|]. intros [H|H]; discriminate.
  - split; [|reflexivity]. intros _. destruct (truthy (model_path self)); auto.
Qed.

(** The mock generator reads the cursor and the random module only. *)
Lemma mock_predict_frame (E : Env) (cx cy : Z) (st : State) :
  calls (snd (_mock_predict E cx cy st)) = calls st /\
  fs (snd (_mock_predict E cx cy st)) = fs st.
Proof.
  unfold _mock_predict, bind, random_choice, random_randint, random_uniform, ret.
  destruct (choice_index E _ (seed st)) as [i s1].
  destruct (nth_error _ i) as [a|]; simpl; [|auto].
  destruct (String.eqb a "click"); simpl.
  - destruct (randint E (-150) 150 s1) as [dx s2]. simpl.
    destruct (randint E (-150) 150 s2) as [dy s3]. simpl.
    destruct (uniform E _ _ s3) as [c s4]. simpl. auto.
  - destruct (choice_index E _ s1) as [j s2].
    destruct (nth_error _ j) as [t|]; simpl; [|auto].
    destruct (uniform E _ _ s2) as [c s3]. simpl. auto.
Qed.

Lemma mock_predict_random_only (E E' : Env) (cx cy : Z) (st : State) :
  choice_index E' = choice_index E -> randint E' = randint E -> uniform E' = uniform E ->
  _mock_predict E' cx cy st = _mock_predict E cx cy st.
Proof.
  intros Hc Hr Hu.
  unfold _mock_predict, bind, random_choice, random_randint, random_uniform.
  now rewrite Hc, Hr, Hu.
Qed.

(** C7.  Without a usable model (no path given, or a load that failed)
    [predict] is [_mock_predict] on the cursor: the image and the history
    do not matter, nor do the backend, the libraries other than [random]
    or the runtime the parser uses; no call leaves the process and no file
    is touched. *)
Theorem mock_mode_delegates (E : Env) (self : ActionPredictor) (img : string)
    (history : list string) (cx cy : Z) (st : State) :
  backend_state self = Unconfigured \/ backend_state self = LoadFailed ->
  predict E self img history cx cy st = _mock_predict E cx cy st /\
  (forall img' history',
     predict E self img' history' cx cy st = predict E self img history cx cy st) /\
  (forall (R' : PyRuntime) (E' : Env),
     choice_index E' = choice_index E -> randint E' = randint E -> uniform E' = uniform E ->
     @predict R' E' self img history cx cy st = predict E self img history cx cy st) /\
  calls (snd (predict E self img history cx cy st)) = calls st /\
  fs (snd (predict E self img history cx cy st)) = fs st.
Proof.
  intros Hs. apply no_model_iff in Hs. unfold predict. rewrite Hs.
  split_and!.
  - reflexivity.
  - reflexivity.
  - intros R' E'. apply mock_predict_random_only.
  - apply mock_predict_frame.
  - apply mock_predict_frame.
Qed.

(** The state in which the [try] block of [_real_predict] ends: either no
    file was created, or [temp_path] names the one file that was added. *)
Lemma try_block_state (E : Env) (self : ActionPredictor) (img : string)
    (history : list string) (cx cy : Z) (st : State) :
  MkstempOk E ->
  let st1 := snd (_real_predict_try E self img history cx cy (with_temp_path None st)) in
  (temp_path st1 = None /\ fs st1 = fs st) \/
  (exists p, temp_path st1 = Some p /\ p <> EmptyString /\ (p ∉ fs st) /\
             fs st1 = {[ p ]} ∪ fs st).
Proof.
  intros HM. unfold _real_predict_try, bind, set_temp_path, lift, raise.
  unfold call_Image_open. simpl.
  destruct (Image_open E img _) as [image|e]; [|left; auto].
  unfold call_mkstemp. simpl.
  destruct (mkstemp E ".png" _) as [p|e] eqn:Hmk; [|left; auto].
  pose proof (mkstemp_nonempty E HM _ _ _ Hmk) as Hne.
  pose proof (mkstemp_fresh E HM _ _ _ Hmk) as Hfresh. simpl in Hfresh.
  right. exists p.
  unfold call_Image_save. simpl.
  destruct (Image_save E image p _) as [u|e]; simpl.
  2:{ split_and!; auto. }
  unfold call_generate. simpl.
  destruct (generate E _ _ _ _ _ _ _ _) as [result|e]; simpl.
  2:{ split_and!; auto using add_twice. }
  destruct (extract_output result); simpl; split_and!; auto using add_twice.
Qed.

(** Once [mkstemp] has returned, [temp_path] holds its path to the end of
    the [try] block. *)
Lemma try_block_temp_path (E : Env) (self : ActionPredictor) (img : string)
    (history : list string) (cx cy : Z) (st : State) (image : Image) (p : string) :
  Image_open E img (log (CallImageOpen img) (with_temp_path None st)) = Return image ->
  mkstemp E ".png"
    (log (CallMkstemp ".png") (log (CallImageOpen img) (with_temp_path None st)))
    = Return p ->
  temp_path (snd (_real_predict_try E self img history cx cy (with_temp_path None st)))
    = Some p.
Proof.
  intros Hopen Hmk.
  unfold _real_predict_try, bind, set_temp_path, lift, raise.
  unfold call_Image_open. rewrite Hopen.
  unfold call_mkstemp. rewrite Hmk.
  unfold call_Image_save. cbn.
  destruct (Image_save E image p _) as [u|e]; cbn; [|reflexivity].
  unfold call_generate. cbn.
  destruct (generate E _ _ _ _ _ _ _ _) as [result|e]; cbn; [|reflexivity].
  destruct (extract_output result); reflexivity.
Qed.

(** C9.  When [mkstemp] returns a fresh, non-empty path, the file that a
    run of the real pipeline creates is gone when [predict] returns,
    whether the run ended in a prediction, in the parser's fallback or in
    an exception at any stage: the path held by [temp_path] does not exist
    and the set of existing files is what it was before the call. *)
Theorem temp_file_removed (E : Env) (self : ActionPredictor) (img : string)
    (history : list string) (cx cy : Z) (st : State) (m : Model) :
  MkstempOk E ->
  model self = Some m ->
  (forall p, temp_path (snd (predict E self img history cx cy st)) = Some p ->
             p ∉ fs (snd (predict E self img history cx cy st))) /\
  fs (snd (predict E self img history cx cy st)) = fs st /\
  (forall image p,
     Image_open E img (log (CallImageOpen img) (with_temp_path None st)) = Return image ->
     mkstemp E ".png"
       (log (CallMkstemp ".png") (log (CallImageOpen img) (with_temp_path None st)))
       = Return p ->
     temp_path (snd (predict E self img history cx cy st)) = Some p /\
     (p ∉ fs (snd (predict E self img history cx cy st)))).
Proof.
  intros HM Hm.
  assert (Hp : predict E self img history cx cy st
               = _real_predict E self img history cx cy st)
    by (unfold predict; now rewrite Hm).
  rewrite Hp, real_predict_unfold. cbn [snd]. rewrite finally_spec. cbn [snd].
  pose proof (try_block_state E self img history cx cy st HM) as Hinv.
  cbv zeta in Hinv.
  set (st1 := snd (_real_predict_try E self img history cx cy (with_temp_path None st))) in *.
  assert (Hfinal :
    (temp_path st1 = None /\ fs st1 = fs st /\
     match temp_path st1 with
     | Some p => if truthy (Some p) && bool_decide (p ∈ fs st1)
                 then set_fs (fs st1 ∖ {[ p ]}) (log (CallUnlink p) st1) else st1
     | None => st1
     end = st1) \/
    (exists p, temp_path st1 = Some p /\ (p ∉ fs st) /\ fs st1 = {[ p ]} ∪ fs st /\
     match temp_path st1 with
     | Some p => if truthy (Some p) && bool_decide (p ∈ fs st1)
                 then set_fs (fs st1 ∖ {[ p ]}) (log (CallUnlink p) st1) else st1
     | None => st1
     end = set_fs (fs st1 ∖ {[ p ]}) (log (CallUnlink p) st1))).
  { destruct Hinv as [(Ht & Hf)|(p & Ht & Hne & Hfresh & Hf)].
    - left. rewrite Ht. auto.
    - right. exists p. rewrite Ht. split_and!; auto.
      assert (Htr : truthy (Some p) = true) by (destruct p; [congruence|reflexivity]).
      assert (Hin : bool_decide (p ∈ fs st1) = true)
        by (apply bool_decide_eq_true_2; rewrite Hf; apply added_is_there).
      now rewrite Htr, Hin. }
  clear Hinv.
  split_and!.
  - intros q.
    destruct Hfinal as [(Ht & Hf & ->)|(p & Ht & Hfresh & Hf & ->)].
    + rewrite Ht. discriminate.
    + cbn. rewrite Ht. intros Hq. inversion Hq; subst q. apply removed_is_gone.
  - destruct Hfinal as [(Ht & Hf & ->)|(p & Ht & Hfresh & Hf & ->)].
    + exact Hf.
    + cbn. rewrite Hf. now apply remove_added.
  - intros image p Hopen Hmk.
    pose proof (try_block_temp_path E self img history cx cy st image p Hopen Hmk) as Hst1.
    fold st1 in Hst1.
    destruct Hfinal as [(Ht & Hf & ->)|(p' & Ht & Hfresh & Hf & ->)].
    + congruence.
    + cbn. split; [exact Hst1|].
      assert (p' = p) by congruence. subst p'. apply removed_is_gone.
Qed.

End ModeClaims.

(** ** Concrete runs *)

Section Runs.
#[local] Existing Instance Cpython.runtime.

(** A model that answers a screenshot (a PNG file of one pixel) with
    confidence 5 gets it back unchanged: the prediction is a Click whose
    confidence is above 1. *)
Lemma confidence_above_one :
  fst (predict (Demo.pillow (jq "{'action_type':'click','confidence':5}"))
         Demo.ready Demo.png nil 10 20 Demo.st0)
    = Return (click_response 10 20 (PyFloat.dec 5 0)) /\
  PyFloat.leb (PyFloat.dec 5 0) (PyFloat.dec 1 0) = false.
Proof. split; vm_compute; reflexivity. Qed.

(** A [click] whose [x] is present but is no number does not fall back to
    the cursor: a string gives the None fallback, [null] an exception. *)
Lemma click_with_unusable_x :
  _parse_response (jq "{'action_type':'click','x':'abc','y':5}") 10 20
    = Return (none_response 10 20) /\
  _parse_response (jq "{'action_type':'click','x':null,'y':5}") 10 20
    = Raise TypeError.
Proof. split; vm_compute; reflexivity. Qed.

(** The parser answers a text without an object, and an object that is not
    JSON, with the fallback itself. *)
Lemma parser_returns_fallback_itself :
  _parse_response "no json here" 10 20 = Return (none_response 10 20) /\
  _parse_response "so {not json} then" 10 20 = Return (none_response 10 20).
Proof. split; vm_compute; reflexivity. Qed.

(** A text with no brace pair at all: nothing is found, and the parser
    returns the fallback instead of failing. *)
Lemma no_object_is_answered :
  re_search_braces "I cannot tell from this screenshot." = None /\
  _parse_response_try "I cannot tell from this screenshot." 10 20
    = Raise (ValueError "No JSON object found in response") /\
  _parse_response "I cannot tell from this screenshot." 10 20
    = Return (none_response 10 20).
Proof. split_and!; vm_compute; reflexivity. Qed.

(** An unrecognized tag with a [null] confidence makes the parser raise. *)
Lemma scroll_with_null_confidence :
  _parse_response (jq "{'action_type':'scroll','confidence':null}") 10 20
    = Raise TypeError.
Proof. vm_compute. reflexivity. Qed.

Lemma predict_never_raises_run :
  RandomOk (Demo.scripted "no json here") /\
  (exists r,
     fst (predict (Demo.scripted "no json here") Demo.ready EmptyString nil 10 20 Demo.st0)
       = Return r) /\
  (exists r,
     fst (predict (Demo.scripted "no json here") Demo.unconfigured EmptyString nil 10 20
            Demo.st0) = Return r).
Proof.
  split; [apply demo_random_ok|]. split.
  - exact (proj1 (predict_never_raises (Demo.scripted "no json here") Demo.ready
                    EmptyString nil 10 20 Demo.st0 (demo_random_ok _))).
  - exact (proj1 (predict_never_raises (Demo.scripted "no json here") Demo.unconfigured
                    EmptyString nil 10 20 Demo.st0 (demo_random_ok _))).
Defined.

Lemma prediction_variants_run :
  RandomOk (Demo.scripted "no json here") /\
  exists r,
    fst (predict (Demo.scripted "no json here") Demo.unconfigured EmptyString nil 10 20
           Demo.st0) = Return r /\
    between (PyFloat.dec 0 0) (PyFloat.dec 1 0) (confidence r).
Proof.
  split; [apply demo_random_ok|].
  destruct (prediction_variants (Demo.scripted "no json here") Demo.unconfigured
              EmptyString nil 10 20 Demo.st0 (demo_random_ok _))
    as (r & Hr & _ & _ & Hc & _).
  exists r. split; [exact Hr|]. apply Hc. reflexivity.
Defined.

Lemma parse_click_defaults_run :
  re_search_braces (jq "reply: {'action_type':'click','x':7}")
    = Some (jq "{'action_type':'click','x':7}") /\
  Json.loads (jq "{'action_type':'click','x':7}")
    = Return (PyDict [("action_type", PyStr "click"); ("x", PyInt 7)]) /\
  _parse_response (jq "reply: {'action_type':'click','x':7}") 10 20
    = Return (click_response 7 20 (PyFloat.dec 5 (-1))).
Proof.
  split; [reflexivity|]. split; [reflexivity|].
  apply (proj1 (parse_click_defaults
                  (jq "reply: {'action_type':'click','x':7}")
                  (jq "{'action_type':'click','x':7}")
                  [("action_type", PyStr "click"); ("x", PyInt 7)]
                  10 20 (PyFloat.dec 5 (-1))
                  eq_refl eq_refl eq_refl eq_refl));
    reflexivity.
Defined.

Lemma parse_other_action_is_none_run :
  re_search_braces (jq "{'action_type':'scroll','confidence':0.9}")
    = Some (jq "{'action_type':'scroll','confidence':0.9}") /\
  _parse_response (jq "{'action_type':'scroll','confidence':0.9}") 10 20
    = Return (none_response 10 20).
Proof.
  split; [reflexivity|].
  exact (proj1 (parse_other_action_is_none
                  (jq "{'action_type':'scroll','confidence':0.9}")
                  (jq "{'action_type':'scroll','confidence':0.9}")
                  [("action_type", PyStr "scroll"); ("confidence", PyFloat (PyFloat.dec 9 (-1)))]
                  10 20 eq_refl eq_refl eq_refl eq_refl)).
Defined.

Lemma mock_mode_delegates_run :
  backend_state Demo.unconfigured = Unconfigured /\
  predict Demo.broken Demo.unconfigured "png bytes" ["click at 3,4"] 10 20 Demo.st0
    = _mock_predict Demo.broken 10 20 Demo.st0 /\
  calls (snd (predict Demo.broken Demo.unconfigured "png bytes" ["click at 3,4"] 10 20
                Demo.st0)) = nil.
Proof.
  split; [reflexivity|].
  destruct (mock_mode_delegates Demo.broken Demo.unconfigured "png bytes" ["click at 3,4"]
              10 20 Demo.st0 (or_introl eq_refl)) as (H1 & _ & _ & H2 & _).
  split; [exact H1|exact H2].
Defined.

Lemma mock_generator_policy_run :
  RandomOk (Demo.scripted EmptyString) /\
  exists r,
    fst (_mock_predict (Demo.scripted EmptyString) 10 20 Demo.st0) = Return r /\
    ~ is_none r.
Proof.
  split; [apply demo_random_ok|].
  destruct (mock_generator_policy (Demo.scripted EmptyString) 10 20 Demo.st0
              (demo_random_ok _)) as (_ & r & st' & Hr & _ & Hn & _).
  exists r. split; [now rewrite Hr|exact Hn].
Defined.

Lemma temp_file_removed_run :
  MkstempOk (Demo.scripted "no json here") /\
  model Demo.ready = Some 1%N /\
  fs (snd (predict (Demo.scripted "no json here") Demo.ready EmptyString nil 10 20
             Demo.st0)) = fs Demo.st0.
Proof.
  split; [apply demo_mkstemp_ok|]. split; [reflexivity|].
  exact (proj1 (proj2 (temp_file_removed (Demo.scripted "no json here") Demo.ready
                         EmptyString nil 10 20 Demo.st0 1%N (demo_mkstemp_ok _) eq_refl))).
Defined.

End Runs.

(** * Further properties of the code *)

(** ** The text branch and the keys the parser reads *)

Section ParserReads.
Context {R : PyRuntime}.

(** X1.  The text branch of [_parse_response].  When the extracted object
    says [text] and its confidence converts, the parser returns a Text at
    the caller's cursor, whatever [x] and [y] the reply holds.  Its text
    is [str] of the [text] field: the empty string when the field is
    absent, the string itself, the word [None] when it is [null], [True]
    or [False] for a boolean, the decimal numeral of an integer, the
    [repr] of a float. *)
Theorem parse_text_reply (rawText m : string) (parsed : pydict) (cx cy : Z) (conf : float) :
  re_search_braces rawText = Some m ->
  Json.loads m = Return (PyDict parsed) ->
  dict_get parsed "action_type" (PyStr "none") = PyStr "text" ->
  py_float (dict_get parsed "confidence" (PyFloat (PyFloat.dec 5 (-1)))) = Return conf ->
  (dict_lookup parsed "text" = None ->
     _parse_response rawText cx cy = Return (text_response cx cy EmptyString conf)) /\
  (forall s, dict_lookup parsed "text" = Some (PyStr s) ->
     _parse_response rawText cx cy = Return (text_response cx cy s conf)) /\
  (dict_lookup parsed "text" = Some PyNone ->
     _parse_response rawText cx cy = Return (text_response cx cy "None" conf)) /\
  (forall b : bool, dict_lookup parsed "text" = Some (PyBool b) ->
     _parse_response rawText cx cy
       = Return (text_response cx cy (if b then "True" else "False") conf)) /\
  (forall z, dict_lookup parsed "text" = Some (PyInt z) ->
     _parse_response rawText cx cy = Return (text_response cx cy (pretty z) conf)) /\
  (forall f, dict_lookup parsed "text" = Some (PyFloat f) ->
     _parse_response rawText cx cy = Return (text_response cx cy (float_repr f) conf)).
Proof.
  intros Hs Hl Ha Hc.
  assert (Hp : _parse_response rawText cx cy
               = Return (text_response cx cy
                           (py_str (dict_get parsed "text" (PyStr EmptyString))) conf)).
  { rewrite parse_handler, (parse_try_loaded rawText m parsed cx cy Hs Hl), Hc, Ha.
    reflexivity. }
  rewrite Hp. unfold dict_get.
  split_and!; intros; match goal with H : dict_lookup _ _ = _ |- _ => rewrite H end;
    reflexivity.
Qed.

(** X2.  The parser reads five keys of the extracted object and nothing
    else: two replies whose objects agree on [action_type], [confidence],
    [x], [y] and [text] get the same outcome, result or exception. *)
Theorem parse_reads_five_keys (raw1 raw2 m1 m2 : string) (p q : pydict) (cx cy : Z) :
  re_search_braces raw1 = Some m1 -> Json.loads m1 = Return (PyDict p) ->
  re_search_braces raw2 = Some m2 -> Json.loads m2 = Return (PyDict q) ->
  (forall k, In k ["action_type"; "confidence"; "x"; "y"; "text"] ->
             dict_lookup p k = dict_lookup q k) ->
  _parse_response raw1 cx cy = _parse_response raw2 cx cy /\
  _parse_response_try raw1 cx cy = _parse_response_try raw2 cx cy.
Proof.
  intros Hs1 Hl1 Hs2 Hl2 Hk.
  assert (Hg : forall k d, In k ["action_type"; "confidence"; "x"; "y"; "text"] ->
                           dict_get p k d = dict_get q k d).
  { intros k d Hin. unfold dict_get. now rewrite (Hk k Hin). }
  assert (Ht : _parse_response_try raw1 cx cy = _parse_response_try raw2 cx cy).
  { rewrite (parse_try_loaded raw1 m1 p cx cy Hs1 Hl1),
            (parse_try_loaded raw2 m2 q cx cy Hs2 Hl2).
    rewrite !Hg by (simpl; tauto). reflexivity. }
  split; [|exact Ht]. now rewrite !parse_handler, Ht.
Qed.

End ParserReads.

(** ** The calls of one prediction *)

Section Predictions.
Context {R : PyRuntime}.



(** A result of the [try] block is a result of the parser. *)
Lemma try_block_result (E : Env) (self : ActionPredictor) (img : string)
    (history : list string) (cx cy : Z) (st : State) (r : PredictionResponse) :
  fst (_real_predict_try E self img history cx cy st) = Return r ->
  exists output, _parse_response output cx cy = Return r.
Proof.
  unfold _real_predict_try, bind.
  destruct (call_Image_open E img st) as [[image|e] st1]; [|discriminate].
  destruct (call_mkstemp E ".png" st1) as [[path|e] st2]; [|discriminate].
  destruct (set_temp_path (Some path) st2) as [[u0|e] st2'] eqn:Hs; [|discriminate].
  destruct (call_Image_save E image path st2') as [[u|e] st3]; [|discriminate].
  destruct (call_generate E (model self) (processor self) (build_prompt cx cy history) path
              150 (PyFloat.dec 1 (-1)) false st3) as [[result|e] st4]; [|discriminate].
  destruct (extract_output result) as [| | | |output| |]; try discriminate.
  unfold lift. simpl. intros Hr. now exists output.
Qed.

(** The shapes of a prediction: the fallback, a Click, or a Text at the
    cursor. *)
Lemma predict_result_shape (E : Env) (self : ActionPredictor) (img : string)
    (history : list string) (cx cy : Z) (st : State) :
  RandomOk E ->
  exists r,
    fst (predict E self img history cx cy st) = Return r /\
    (r = none_response cx cy \/
     (exists px py conf, r = click_response px py conf) \/
     (exists t conf, r = text_response cx cy t conf)).
Proof.
  intros HR. unfold predict. destruct (model self) as [m|].
  - rewrite real_predict_unfold. simpl fst.
    destruct (fst (_real_predict_try E self img history cx cy (with_temp_path None st)))
      as [r|e] eqn:Hr.
    + exists r. split; [reflexivity|].
      destruct (try_block_result _ _ _ _ _ _ _ _ Hr) as (output & Hp).
      destruct (parse_result_shape output cx cy r Hp)
        as [->|(span & parsed & conf & _ & _ & _ & [(px & py & ->)|(t & ->)])];
        eauto 8.
    + exists (none_response cx cy). auto.
  - destruct (mock_predict_spec E cx cy st HR)
      as (r & st' & Hrun & _ & _ & _ & _ & Hcase).
    exists r. rewrite Hrun. split; [reflexivity|]. right.
    destruct r as [a vx vy t c]. unfold is_click, is_text in Hcase. simpl in Hcase.
    destruct Hcase as [(-> & (dx & dy & _ & _ & -> & ->) & -> & _)
                      |(-> & -> & -> & (t' & -> & _) & _)].
    + left. now exists (Z.max 0 (cx + dx)), (Z.max 0 (cy + dy)), c.
    + right. now exists t', c.
Qed.

(** X4.  The optional fields of a prediction.  Whatever the mode and the
    reply, [predict] sets both coordinates; [text] is set exactly on a
    Text; and every prediction that is not a Click carries the caller's
    cursor unchanged. *)
Theorem prediction_fields (E : Env) (self : ActionPredictor) (img : string)
    (history : list string) (cx cy : Z) (st : State) :
  RandomOk E ->
  exists r,
    fst (predict E self img history cx cy st) = Return r /\
    (exists vx vy, x r = Some vx /\ y r = Some vy) /\
    (is_text r <-> exists t, text r = Some t) /\
    (~ is_click r -> x r = Some cx /\ y r = Some cy).
Proof.
  intros HR.
  destruct (predict_result_shape E self img history cx cy st HR) as (r & Hr & Hshape).
  exists r. split; [exact Hr|].
  destruct Hshape as [->|[(px & py & conf & ->)|(t & conf & ->)]];
    unfold is_text, is_click; simpl; split_and!; eauto.
  - split; [discriminate|intros [t Ht]; discriminate].
  - split; [discriminate|intros [t Ht]; discriminate].
  - intros H. now contradiction H.
  - split; eauto.
Qed.

(** X5.  Where a mock prediction points.  A mock Click lies in the window
    of 150 pixels around the cursor, cut off at 0 on each axis; a mock
    Text is at the cursor itself, negative coordinates included.  For a
    cursor with no negative coordinate every mock prediction is within
    150 pixels of it on each axis. *)
Theorem mock_prediction_position (E : Env) (cx cy : Z) (st : State) :
  RandomOk E ->
  exists r vx vy,
    fst (_mock_predict E cx cy st) = Return r /\
    x r = Some vx /\ y r = Some vy /\
    (is_click r ->
       Z.max 0 (cx - 150) <= vx <= Z.max 0 (cx + 150) /\
       Z.max 0 (cy - 150) <= vy <= Z.max 0 (cy + 150)) /\
    (is_text r -> vx = cx /\ vy = cy) /\
    (0 <= cx -> Z.abs (vx - cx) <= 150) /\
    (0 <= cy -> Z.abs (vy - cy) <= 150).
Proof.
  intros HR.
  destruct (mock_predict_spec E cx cy st HR) as (r & st' & Hrun & _ & _ & _ & _ & Hcase).
  destruct Hcase as [(Hc & (dx & dy & Hdx & Hdy & Hx & Hy) & _ & _)
                    |(Ht & Hx & Hy & _ & _)].
  - exists r, (Z.max 0 (cx + dx)), (Z.max 0 (cy + dy)).
    rewrite Hrun. split_and!; try assumption; try reflexivity; try lia.
    unfold is_click, is_text in *. rewrite Hc. discriminate.
  - exists r, cx, cy.
    rewrite Hrun. split_and!; try assumption; try reflexivity; try lia.
    unfold is_click, is_text in *. rewrite Ht. discriminate.
Qed.

End Predictions.

(** ** The prompt *)

Lemma brace_free_app (a b : string) :
  brace_free (a +:+ b) = brace_free a && brace_free b.
Proof.
  induction a as [|c a IH]; [reflexivity|].
  rewrite append_cons. simpl. rewrite IH. now rewrite andb_assoc.
Qed.

(** The search steps over a prefix that holds no brace. *)
Lemma re_search_after_plain_prefix (pre body post : string) :
  brace_free pre = true -> brace_free body = true ->
  re_search_braces (pre +:+ String "{" (body +:+ String "}" post))
    = Some (String "{" (body +:+ "}")).
Proof.
  intros Hpre Hbody. induction pre as [|c pre IH].
  - rewrite append_nil_l. simpl. now rewrite (match_body_complete body post Hbody).
  - apply brace_free_cons in Hpre. destruct Hpre as (Hc & _ & Hpre).
    rewrite append_cons. simpl. rewrite Hc. now apply IH.
Qed.

Lemma pretty_N_char_brace_free (d : N) (s : string) :
  brace_free (String (pretty_N_char d) s) = brace_free s.
Proof.
  destruct d as [|p]; [reflexivity|].
  do 4 (try (destruct p as [p|p|]; try reflexivity)).
Qed.

Lemma pretty_N_go_brace_free (n : N) (s : string) :
  brace_free s = true -> brace_free (pretty_N_go n s) = true.
Proof.
  revert s. induction (N.lt_wf_0 n) as [n _ IH]. intros s Hs.
  destruct (decide (n = 0%N)) as [->|Hn].
  - now rewrite pretty_N_go_0.
  - rewrite pretty_N_go_step by lia. apply IH.
    + apply N.div_lt; lia.
    + now rewrite pretty_N_char_brace_free.
Qed.

(** A decimal numeral holds no brace. *)
Lemma pretty_Z_brace_free (z : Z) : brace_free (pretty z) = true.
Proof.
  destruct z as [|p|p]; [reflexivity| |].
  - change (pretty (Z.pos p)) with (pretty_N_go (N.pos p) EmptyString).
    now apply pretty_N_go_brace_free.
  - change (pretty (Z.neg p)) with ("-" +:+ pretty_N_go (N.pos p) EmptyString).
    rewrite brace_free_app. simpl. now apply pretty_N_go_brace_free.
Qed.

Lemma join_brace_free (l : list string) :
  Forall (fun h => brace_free h = true) l -> brace_free (join ", " l) = true.
Proof.
  induction 1 as [|h l Hh Hl IH]; [reflexivity|].
  destruct l as [|h' l]; [exact Hh|].
  change (join ", " (h :: h' :: l)) with (h +:+ ", " +:+ join ", " (h' :: l)).
  rewrite !brace_free_app, Hh, IH. reflexivity.
Qed.

Lemma history_str_brace_free (history : list string) :
  Forall (fun h => brace_free h = true) history -> brace_free (history_str history) = true.
Proof.
  intros H. destruct history as [|h l]; [reflexivity|].
  unfold history_str. apply join_brace_free. unfold last5. now apply Forall_drop.
Qed.

(** X6.  The history in the prompt.  Only the last five entries of the
    history reach the prompt, joined by a comma and a space in their
    order; what came before them changes nothing.  An empty history is
    written as the word [none], and a history of five entries or fewer is
    joined whole. *)
Theorem prompt_uses_last_five (cx cy : Z) (older : list string) (a b c d e : string) :
  history_str (older ++ [a; b; c; d; e])
    = a +:+ ", " +:+ b +:+ ", " +:+ c +:+ ", " +:+ d +:+ ", " +:+ e /\
  build_prompt cx cy (older ++ [a; b; c; d; e]) = build_prompt cx cy [a; b; c; d; e] /\
  history_str nil = "none" /\
  (forall h, (0 < length h <= 5)%nat -> history_str h = join ", " h).
Proof.
  assert (H5 : history_str (older ++ [a; b; c; d; e]) = join ", " [a; b; c; d; e]).
  { unfold history_str, last5.
    rewrite drop_app_length' by (rewrite length_app; simpl; lia).
    destruct older; reflexivity. }
  split_and!.
  - rewrite H5. reflexivity.
  - unfold build_prompt. rewrite H5. reflexivity.
  - reflexivity.
  - intros h Hh. unfold history_str, last5.
    replace (length h - 5)%nat with 0%nat by lia.
    destruct h; [simpl in Hh; lia|reflexivity].
Qed.

Lemma re_search_skip (a rest : string) :
  brace_free a = true -> re_search_braces (a +:+ rest) = re_search_braces rest.
Proof.
  intros Ha. induction a as [|c a IH]; [now rewrite append_nil_l|].
  apply brace_free_cons in Ha. destruct Ha as (Hc & _ & Ha).
  rewrite append_cons. simpl. rewrite Hc. now apply IH.
Qed.

Section FirstObject.
Context {R : PyRuntime}.

(** X7.  A reply that repeats the prompt.  The first brace pair of the
    prompt is the sample line for a text answer, which is no JSON (its
    confidence is a placeholder).  So when no history entry holds a
    brace, a generated text that starts with the prompt is parsed to the
    fallback, whatever answer follows the prompt. *)
Theorem prompt_echo_is_fallback (cx cy cx' cy' : Z) (history : list string)
    (answer : string) :
  Forall (fun h => brace_free h = true) history ->
  re_search_braces (build_prompt cx cy history +:+ answer)
    = Some (jq "{'action_type': 'text', 'text': '<text to type>', 'confidence': <0.0-1.0>}") /\
  Json.loads (jq "{'action_type': 'text', 'text': '<text to type>', 'confidence': <0.0-1.0>}")
    = Raise JSONDecodeError /\
  _parse_response (build_prompt cx cy history +:+ answer) cx' cy'
    = Return (none_response cx' cy').
Proof.
  intros Hh.
  assert (Hs : re_search_braces (build_prompt cx cy history +:+ answer)
    = Some (jq "{'action_type': 'text', 'text': '<text to type>', 'confidence': <0.0-1.0>}")).
  { unfold build_prompt, PROMPT_TEMPLATE. rewrite !append_assoc.
    do 7 (rewrite re_search_skip
            by first [apply pretty_Z_brace_free
                     |apply history_str_brace_free; exact Hh
                     |reflexivity]).
    match goal with |- context [jq ?J +:+ ?Z] =>
      assert (HJ : jq J = "- For text: " +:+
                String "{" (jq "'action_type': 'text', 'text': '<text to type>', 'confidence': <0.0-1.0>"
                             +:+ String "}" (jq "
- For click: {'action_type': 'click', 'x': <number>, 'y': <number>, 'confidence': <0.0-1.0>}")))
        by (vm_compute; reflexivity);
      rewrite HJ; clear HJ
    end.
    rewrite append_assoc, re_search_skip by reflexivity.
    rewrite append_cons, append_assoc, append_cons.
    match goal with |- re_search_braces (String _ (?b +:+ String _ ?p)) = _ =>
      change (re_search_braces (EmptyString +:+ String "{" (b +:+ String "}" p))
              = Some (String "{" (b +:+ "}")))
    end.
    apply re_search_after_plain_prefix; reflexivity. }
  assert (Hl : Json.loads
                 (jq "{'action_type': 'text', 'text': '<text to type>', 'confidence': <0.0-1.0>}")
               = Raise JSONDecodeError) by (vm_compute; reflexivity).
  split; [exact Hs|]. split; [exact Hl|].
  rewrite parse_handler. unfold _parse_response_try. rewrite Hs, Hl. reflexivity.
Qed.

(** X8.  Nested objects.  An opening brace that is followed by another
    opening brace before any closing one cannot start the match, and
    neither can anything between the two: the reply is parsed as if it
    began at the inner brace.  So an object that holds an object is never
    read whole; a click whose object carries an empty nested object is
    parsed from that empty object and comes out as the fallback. *)
Theorem parse_drops_outer_brace (a rest : string) (cx cy : Z) :
  brace_free a = true ->
  re_search_braces (String "{" (a +:+ String "{" rest)) = re_search_braces (String "{" rest) /\
  _parse_response (String "{" (a +:+ String "{" rest)) cx cy
    = _parse_response (String "{" rest) cx cy /\
  _parse_response (jq "{'action_type':'click','x':1,'y':2,'meta':{}}") cx cy
    = Return (none_response cx cy).
Proof.
  intros Ha.
  assert (Hb : match_body (a +:+ String "{" rest) = None).
  { clear cx cy. induction a as [|c a IH]; [reflexivity|].
    apply brace_free_cons in Ha. destruct Ha as (Ho & Hc & Ha).
    rewrite append_cons. simpl. rewrite Hc, Ho, (IH Ha). reflexivity. }
  assert (Hs : re_search_braces (String "{" (a +:+ String "{" rest))
               = re_search_braces (String "{" rest)).
  { change (re_search_braces (String "{" (a +:+ String "{" rest)))
      with (match match_body (a +:+ String "{" rest) with
            | Some m => Some (String "{" m)
            | None => re_search_braces (a +:+ String "{" rest)
            end).
    rewrite Hb. now apply re_search_skip. }
  split; [exact Hs|]. split.
  - unfold _parse_response, _parse_response_try. now rewrite Hs.
  - vm_compute. reflexivity.
Qed.

End FirstObject.
(** ** Construction and startup *)

Section Startup.
Context {R : PyRuntime}.

(** X9.  The constructor.  [ActionPredictor(model_path)] never raises and
    keeps the path it was given.  Without a path, or with an empty one,
    it makes no call at all and holds no model.  With a path it calls
    [load] once on that path; the predictor then holds the loaded model
    and processor, or neither when [load] raised.  Files and the random
    state are left alone. *)
Theorem init_outcome (E : Env) (path : option string) (st : State) :
  exists self st',
    __init__ E path st = (Return self, st') /\
    model_path self = path /\
    (model self = None <-> processor self = None) /\
    fs st' = fs st /\ seed st' = seed st /\
    (truthy path = false -> st' = st /\ model self = None) /\
    (forall p, path = Some p -> p <> EmptyString ->
       calls st' = CallLoad p :: calls st /\
       match load E p (log (CallLoad p) st) with
       | Return (m, pr) => model self = Some m /\ processor self = Some pr
       | Raise _ => model self = None /\ processor self = None
       end).
Proof.
  unfold __init__. destruct (truthy path) eqn:Ht.
  - destruct path as [[|c p]|]; try discriminate.
    unfold _load_model, try_except, bind, call_load. simpl default.
    destruct (load E (String c p) (log (CallLoad (String c p)) st)) as [[m pr]|e] eqn:Hl.
    + eexists _, _. split; [reflexivity|]. simpl.
      split_and!; try reflexivity; try discriminate.
      * split; discriminate.
      * intros q Hq _. inversion Hq; subst q. rewrite Hl. auto.
    + eexists _, _. split; [reflexivity|]. simpl.
      split_and!; try reflexivity; try discriminate.
      intros q Hq _. inversion Hq; subst q. rewrite Hl. auto.
  - eexists _, _. split; [reflexivity|]. simpl.
    split_and!; try reflexivity; auto.
    intros q -> Hq. destruct q; [contradiction|discriminate].
Qed.

(** What [lifespan] does, by the path it chooses. *)
Lemma lifespan_unfold (E : Env) (environ : Server.Environ) (st : State) :
  Server.lifespan E environ st =
  let path := Server.chosen_model_path environ in
  match path with
  | Some (String c p) =>
      let st' := log (CallLoad (String c p)) st in
      match load E (String c p) st' with
      | Return mp =>
          (Return (Some {| model_path := path; model := Some (fst mp);
                           processor := Some (snd mp) |},
                   Server.startup_message path), st')
      | Raise _ =>
          (Return (Some {| model_path := path; model := None; processor := None |},
                   Server.startup_message path), st')
      end
  | _ =>
      (Return (Some {| model_path := path; model := None; processor := None |},
               Server.startup_message path), st)
  end.
Proof.
  unfold Server.lifespan. cbv zeta.
  destruct (Server.chosen_model_path environ) as [[|c p]|]; try reflexivity.
  unfold bind, __init__, _load_model, try_except, bind, call_load. simpl.
  destruct (load E (String c p) (log (CallLoad (String c p)) st)); reflexivity.
Qed.

(** X10.  Startup.  [lifespan] never fails and always installs a
    predictor.  Mock mode is asked for by [MOCK_MODE] set to [1], [true]
    or [yes] in any mix of upper and lower case, and by nothing else; it
    then wins over [MODEL_PATH]: no model is loaded.  Otherwise the model
    is loaded from [MODEL_PATH], or from the default model when the
    variable is unset; an empty [MODEL_PATH] loads nothing and leaves the
    predictor without a model. *)
Theorem lifespan_startup (E : Env) (environ : Server.Environ) (st : State) :
  (Server.mock_mode environ = true <->
     exists v, environ !! "MOCK_MODE" = Some v /\
       In (Cpython.lower_string (String.list_ascii_of_string v)) ["1"; "true"; "yes"]) /\
  exists p st',
    Server.lifespan E environ st
      = (Return (Some p, Server.startup_message (Server.chosen_model_path environ)), st') /\
    fs st' = fs st /\
    (Server.mock_mode environ = true -> model p = None /\ st' = st) /\
    (Server.mock_mode environ = false ->
       (environ !! "MODEL_PATH" = None -> calls st' = CallLoad DEFAULT_MODEL :: calls st) /\
       (environ !! "MODEL_PATH" = Some EmptyString -> model p = None /\ st' = st) /\
       (forall path, environ !! "MODEL_PATH" = Some path -> path <> EmptyString ->
          calls st' = CallLoad path :: calls st)).
Proof.
  split.
  - unfold Server.mock_mode, Server.environ_get.
    rewrite existsb_exists. split.
    + intros (w & Hin & Heq). apply String.eqb_eq in Heq. subst w.
      destruct (environ !! "MOCK_MODE") as [v|] eqn:Hv.
      * exists v. auto.
      * simpl in Hin. exfalso.
        destruct Hin as [H|[H|[H|[]]]]; discriminate.
    + intros (v & Hv & Hin). rewrite Hv. simpl default.
      eexists. split; [exact Hin|]. apply String.eqb_refl.
  - rewrite lifespan_unfold. cbv zeta. unfold Server.chosen_model_path, Server.environ_get.
    destruct (Server.mock_mode environ).
    + eexists _, _. split; [reflexivity|]. simpl. split_and!; auto; discriminate.
    + destruct (environ !! "MODEL_PATH") as [[|c path]|] eqn:Hp; simpl default;
        cbv beta iota.
      * eexists _, _. split; [reflexivity|]. simpl.
        split; [reflexivity|]. split; [discriminate|]. intros _.
        split_and!; auto; try discriminate.
        intros path Hq Hne. inversion Hq; subst. contradiction.
      * destruct (load E (String c path) (log (CallLoad (String c path)) st));
          (eexists _, _; split; [reflexivity|]); simpl;
          (split; [reflexivity|]); (split; [discriminate|]); intros _;
          (split_and!; try discriminate);
          intros q Hq _; inversion Hq; reflexivity.
      * change DEFAULT_MODEL with (String "m" (String.substring 1 100 DEFAULT_MODEL)).
        cbv beta iota.
        destruct (load E _ _);
          (eexists _, _; split; [reflexivity|]); simpl;
          (split; [reflexivity|]); (split; [discriminate|]); intros _;
          (split_and!; try discriminate); reflexivity.
Qed.

(** A predictor that holds a model does not answer as the mock does: it
    calls out, which the mock never does. *)
Lemma model_is_not_mock (self : ActionPredictor) (m : Model) :
  model self = Some m ->
  predict Demo.broken self EmptyString nil 0 0 Demo.st0
    <> _mock_predict Demo.broken 0 0 Demo.st0.
Proof.
  intros Hm H. unfold predict in H. rewrite Hm in H.
  apply (f_equal (fun r => calls (snd r))) in H.
  rewrite real_predict_unfold in H. vm_compute in H. discriminate.
Qed.

(** X11.  The mode the server reports.  [GET /health] answers
    [status: ok] with a [mock_mode] flag that is true exactly when the
    installed predictor answers every request with a mock prediction.
    The line printed at startup is a different matter: it says
    [mock mode: True] only when [MOCK_MODE] asked for it, so after an
    empty [MODEL_PATH] or a failed load it says [False] while the server
    does run on mock predictions. *)
Theorem health_reports_mode (E : Env) (environ : Server.Environ) (st : State) :
  exists p msg st' flag,
    Server.lifespan E environ st = (Return (Some p, msg), st') /\
    Server.health_check (Some p)
      = Return [("status", PyStr "ok"); ("mock_mode", PyBool flag)] /\
    (flag = true <->
       forall (E' : Env) img history cx cy s,
         predict E' p img history cx cy s = _mock_predict E' cx cy s) /\
    (Server.mock_mode environ = true ->
       msg = "ActionTab server started (mock mode: True)" /\ flag = true) /\
    (Server.mock_mode environ = false ->
       msg = "ActionTab server started (mock mode: False)" /\
       let path := default DEFAULT_MODEL (environ !! "MODEL_PATH") in
       (flag = true <->
          path = EmptyString \/
          exists e, load E path (log (CallLoad path) st) = Raise e)).
Proof.
  assert (Hflag : forall p : ActionPredictor,
            (match model p with None => true | Some _ => false end) = true <->
            forall (E' : Env) img history cx cy s,
              predict E' p img history cx cy s = _mock_predict E' cx cy s).
  { intros p. destruct (model p) as [m|] eqn:Hm.
    - split; [discriminate|]. intros H. exfalso.
      exact (model_is_not_mock p m Hm (H _ _ _ _ _ _)).
    - split; [|reflexivity]. intros _ E' img history cx cy s.
      unfold predict. now rewrite Hm. }
  rewrite lifespan_unfold. cbv zeta.
  unfold Server.chosen_model_path, Server.environ_get.
  destruct (Server.mock_mode environ).
  - eexists _, _, _, _. split; [reflexivity|]. split; [reflexivity|].
    split; [apply Hflag|]. split; [auto|discriminate].
  - destruct (environ !! "MODEL_PATH") as [[|c path]|] eqn:Hp; simpl default;
      cbv beta iota.
    + eexists _, _, _, _. split; [reflexivity|]. split; [reflexivity|].
      split; [apply Hflag|]. split; [discriminate|]. intros _.
      split; [reflexivity|]. simpl. split; auto.
    + destruct (load E (String c path) (log (CallLoad (String c path)) st)) as [mp|e];
        (eexists _, _, _, _; split; [reflexivity|]; split; [reflexivity|];
         split; [apply Hflag|]; split; [discriminate|]; intros _;
         split; [reflexivity|]); simpl.
      * split; [discriminate|]. intros [H|[e H]]; discriminate.
      * split; eauto.
    + change DEFAULT_MODEL with (String "m" (String.substring 1 100 DEFAULT_MODEL)).
      cbv beta iota.
      destruct (load E _ _) as [mp|e];
        (eexists _, _, _, _; split; [reflexivity|]; split; [reflexivity|];
         split; [apply Hflag|]; split; [discriminate|]; intros _;
         split; [reflexivity|]); simpl.
      * split; [discriminate|]. intros [H|[e H]]; discriminate.
      * split; eauto.
Qed.

End Startup.

(** ** The screenshot of a request *)

Section Base64Facts.
Local Open Scope N_scope.

Lemma lor_shiftl_small (a b k : N) :
  b < 2 ^ k -> N.lor (N.shiftl a k) b = a * 2 ^ k + b.
Proof.
  intros Hb. rewrite N.shiftl_mul_pow2.
  rewrite <- N.lxor_lor, <- N.add_nocarry_lxor; try reflexivity.
  all: apply N.bits_inj_0; intros n; rewrite N.land_spec;
    destruct (N.lt_ge_cases n k) as [Hn|Hn].
  all: try (rewrite N.mul_pow2_bits_low by exact Hn; reflexivity).
  all: rewrite <- (N.mod_small b (2 ^ k)) by exact Hb;
       rewrite N.mod_pow2_bits_high by exact Hn; apply andb_false_r.
Qed.

(** The four values of a group of three bytes, and the bytes the decoder
    puts together from them. *)
Lemma group_values (b0 b1 b2 : N) :
  b0 < 256 -> b1 < 256 -> b2 < 256 ->
  let d0 := N.shiftr b0 2 in
  let d1 := N.lor (N.shiftl (N.land b0 3) 4) (N.shiftr b1 4) in
  let d2 := N.lor (N.shiftl (N.land b1 15) 2) (N.shiftr b2 6) in
  let d3 := N.land b2 63 in
  (d0 < 64 /\ d1 < 64 /\ d2 < 64 /\ d3 < 64) /\
  (N.lor (N.shiftl d0 2) (N.shiftr d1 4)) mod 256 = b0 /\
  (N.lor (N.shiftl (N.land d1 15) 4) (N.shiftr d2 2)) mod 256 = b1 /\
  (N.lor (N.shiftl (N.land d2 3) 6) d3) mod 256 = b2.
Proof.
  intros H0 H1 H2. cbv zeta.
  change 3 with (N.ones 2). change 15 with (N.ones 4). change 63 with (N.ones 6).
  rewrite !N.land_ones, !N.shiftr_div_pow2.
  change (2 ^ 2) with 4. change (2 ^ 4) with 16. change (2 ^ 6) with 64.
  assert (E1 : N.lor (N.shiftl (b0 mod 4) 4) (b1 / 16) = (b0 mod 4) * 16 + b1 / 16).
  { rewrite lor_shiftl_small; [reflexivity|].
    change (2 ^ 4) with 16. zify. Z.to_euclidean_division_equations. lia. }
  assert (E2 : N.lor (N.shiftl (b1 mod 16) 2) (b2 / 64) = (b1 mod 16) * 4 + b2 / 64).
  { rewrite lor_shiftl_small; [reflexivity|].
    change (2 ^ 2) with 4. zify. Z.to_euclidean_division_equations. lia. }
  rewrite E1, E2.
  rewrite !lor_shiftl_small.
  2-4: change (2 ^ 2) with 4; change (2 ^ 4) with 16; change (2 ^ 6) with 64;
       zify; Z.to_euclidean_division_equations; lia.
  change (2 ^ 2) with 4. change (2 ^ 4) with 16. change (2 ^ 6) with 64.
  split_and!; zify; Z.to_euclidean_division_equations; lia.
Qed.

(** The characters of the alphabet: each is read back as its value, none
    is the pad character, all are ASCII. *)
Lemma char_facts (d : N) :
  d < 64 ->
  Base64.digit (Base64.char d) = Some d /\
  Ascii.eqb (Base64.char d) "=" = false /\
  (code (Base64.char d) <? 128) = true.
Proof.
  intros Hd.
  assert (Hn : exists n, d = N.of_nat n /\ (n < 64)%nat).
  { exists (N.to_nat d). split; [now rewrite N2Nat.id|lia]. }
  destruct Hn as (n & -> & Hn). clear Hd.
  do 64 (destruct n as [|n]; [vm_compute; auto|]). lia.
Qed.

Lemma a2b_pad (q l p : N) (rest : string) :
  Base64.a2b_base64_from q l p (String "=" rest) =
  if (2 <=? q) && (4 <=? q + (p + 1)) then Some EmptyString
  else Base64.a2b_base64_from q l (if 2 <=? q then p + 1 else p) rest.
Proof. reflexivity. Qed.

Lemma a2b_skip (q l p : N) (c : ascii) (rest : string) :
  Ascii.eqb c "=" = false -> Base64.digit c = None ->
  Base64.a2b_base64_from q l p (String c rest) = Base64.a2b_base64_from q l p rest.
Proof. intros Hp Hd. cbn [Base64.a2b_base64_from]. now rewrite Hp, Hd. Qed.

Lemma a2b_data0 (l p d : N) (c : ascii) (rest : string) :
  Ascii.eqb c "=" = false -> Base64.digit c = Some d ->
  Base64.a2b_base64_from 0 l p (String c rest) = Base64.a2b_base64_from 1 d 0 rest.
Proof. intros Hp Hd. cbn [Base64.a2b_base64_from]. now rewrite Hp, Hd. Qed.

Lemma a2b_data1 (l p d : N) (c : ascii) (rest : string) :
  Ascii.eqb c "=" = false -> Base64.digit c = Some d ->
  Base64.a2b_base64_from 1 l p (String c rest) =
  Base64.emit (N.lor (N.shiftl l 2) (N.shiftr d 4))
    (Base64.a2b_base64_from 2 (N.land d 15) 0 rest).
Proof. intros Hp Hd. cbn [Base64.a2b_base64_from]. now rewrite Hp, Hd. Qed.

Lemma a2b_data2 (l p d : N) (c : ascii) (rest : string) :
  Ascii.eqb c "=" = false -> Base64.digit c = Some d ->
  Base64.a2b_base64_from 2 l p (String c rest) =
  Base64.emit (N.lor (N.shiftl l 4) (N.shiftr d 2))
    (Base64.a2b_base64_from 3 (N.land d 3) 0 rest).
Proof. intros Hp Hd. cbn [Base64.a2b_base64_from]. now rewrite Hp, Hd. Qed.

Lemma a2b_data3 (l p d : N) (c : ascii) (rest : string) :
  Ascii.eqb c "=" = false -> Base64.digit c = Some d ->
  Base64.a2b_base64_from 3 l p (String c rest) =
  Base64.emit (N.lor (N.shiftl l 6) d) (Base64.a2b_base64_from 0 0 0 rest).
Proof. intros Hp Hd. cbn [Base64.a2b_base64_from]. now rewrite Hp, Hd. Qed.

Lemma emit_byte (n : N) (c : ascii) (out : string) :
  n mod 256 = code c -> Base64.emit n (Some out) = Some (String c out).
Proof.
  intros H. unfold Base64.emit. simpl. rewrite H. unfold chr, code.
  now rewrite ascii_N_embedding.
Qed.

(** Decoding undoes encoding. *)
Lemma a2b_b64encode (b : string) :
  Base64.a2b_base64 (Base64.b64encode b) = Some b.
Proof.
  unfold Base64.a2b_base64.
  assert (H : forall n b, (String.length b <= n)%nat ->
            Base64.a2b_base64_from 0 0 0 (Base64.b64encode b) = Some b).
  2:{ apply (H (String.length b)). lia. }
  clear b. induction n as [|n IH]; intros b Hb.
  - destruct b; [reflexivity|simpl in Hb; lia].
  - destruct b as [|c0 [|c1 [|c2 rest]]].
    + reflexivity.
    + pose proof (group_values (code c0) 0 0 (N_ascii_bounded c0) eq_refl eq_refl) as G.
      cbv zeta in G. change (N.shiftr 0 4) with 0 in G. rewrite N.lor_0_r in G.
      destruct G as ((G0 & G1 & _ & _) & E0 & _ & _).
      destruct (char_facts _ G0) as (D0 & P0 & _).
      destruct (char_facts _ G1) as (D1 & P1 & _).
      cbn [Base64.b64encode].
      rewrite (a2b_data0 _ _ _ _ _ P0 D0), (a2b_data1 _ _ _ _ _ P1 D1).
      rewrite !a2b_pad. cbn [N.leb N.add andb]. simpl.
      now apply emit_byte.
    + pose proof (group_values (code c0) (code c1) 0
                    (N_ascii_bounded c0) (N_ascii_bounded c1) eq_refl) as G.
      cbv zeta in G. change (N.shiftr 0 6) with 0 in G. rewrite N.lor_0_r in G.
      destruct G as ((G0 & G1 & G2 & _) & E0 & E1 & _).
      destruct (char_facts _ G0) as (D0 & P0 & _).
      destruct (char_facts _ G1) as (D1 & P1 & _).
      destruct (char_facts _ G2) as (D2 & P2 & _).
      cbn [Base64.b64encode].
      rewrite (a2b_data0 _ _ _ _ _ P0 D0), (a2b_data1 _ _ _ _ _ P1 D1),
              (a2b_data2 _ _ _ _ _ P2 D2).
      rewrite !a2b_pad. change ((2 <=? 3) && (4 <=? 3 + (0 + 1))) with true. cbv iota.
      rewrite (emit_byte _ c1 EmptyString E1). now apply emit_byte.
    + pose proof (group_values (code c0) (code c1) (code c2)
                    (N_ascii_bounded c0) (N_ascii_bounded c1) (N_ascii_bounded c2)) as G.
      cbv zeta in G.
      destruct G as ((G0 & G1 & G2 & G3) & E0 & E1 & E2).
      destruct (char_facts _ G0) as (D0 & P0 & _).
      destruct (char_facts _ G1) as (D1 & P1 & _).
      destruct (char_facts _ G2) as (D2 & P2 & _).
      destruct (char_facts _ G3) as (D3 & P3 & _).
      cbn [Base64.b64encode].
      rewrite (a2b_data0 _ _ _ _ _ P0 D0), (a2b_data1 _ _ _ _ _ P1 D1),
              (a2b_data2 _ _ _ _ _ P2 D2), (a2b_data3 _ _ _ _ _ P3 D3).
      rewrite IH by (simpl in Hb; lia).
      rewrite (emit_byte _ c2 rest E2), (emit_byte _ c1 _ E1). now apply emit_byte.
Qed.

(** Induction over bytes three at a time, the way the encoder reads
    them. *)
Lemma bytes_ind3 (P : string -> Prop) :
  P EmptyString ->
  (forall c0, P (String c0 EmptyString)) ->
  (forall c0 c1, P (String c0 (String c1 EmptyString))) ->
  (forall c0 c1 c2 rest, P rest -> P (String c0 (String c1 (String c2 rest)))) ->
  forall b, P b.
Proof.
  intros H0 H1 H2 H3 b.
  assert (H : forall n b, (String.length b <= n)%nat -> P b).
  2:{ apply (H (String.length b)). lia. }
  clear b. induction n as [|n IH]; intros b Hb.
  - destruct b; [exact H0|simpl in Hb; lia].
  - destruct b as [|c0 [|c1 [|c2 rest]]]; auto.
    apply H3, IH. simpl in Hb. lia.
Qed.

Lemma is_ascii_app (a b : string) :
  Base64.is_ascii (a +:+ b) = Base64.is_ascii a && Base64.is_ascii b.
Proof.
  induction a as [|c a IH]; [reflexivity|].
  rewrite append_cons. simpl. rewrite IH. now rewrite andb_assoc.
Qed.

Lemma b64encode_is_ascii (b : string) : Base64.is_ascii (Base64.b64encode b) = true.
Proof.
  induction b as [|c0|c0 c1|c0 c1 c2 rest IH] using bytes_ind3.
  - reflexivity.
  - pose proof (group_values (code c0) 0 0 (N_ascii_bounded c0) eq_refl eq_refl) as G.
    cbv zeta in G. change (N.shiftr 0 4) with 0 in G. rewrite N.lor_0_r in G.
    destruct G as ((G0 & G1 & _ & _) & _).
    destruct (char_facts _ G0) as (_ & _ & A0).
    destruct (char_facts _ G1) as (_ & _ & A1).
    cbn [Base64.b64encode Base64.is_ascii]. rewrite A0, A1. reflexivity.
  - pose proof (group_values (code c0) (code c1) 0
                  (N_ascii_bounded c0) (N_ascii_bounded c1) eq_refl) as G.
    cbv zeta in G. change (N.shiftr 0 6) with 0 in G. rewrite N.lor_0_r in G.
    destruct G as ((G0 & G1 & G2 & _) & _).
    destruct (char_facts _ G0) as (_ & _ & A0).
    destruct (char_facts _ G1) as (_ & _ & A1).
    destruct (char_facts _ G2) as (_ & _ & A2).
    cbn [Base64.b64encode Base64.is_ascii]. rewrite A0, A1, A2. reflexivity.
  - pose proof (group_values (code c0) (code c1) (code c2)
                  (N_ascii_bounded c0) (N_ascii_bounded c1) (N_ascii_bounded c2)) as G.
    cbv zeta in G.
    destruct G as ((G0 & G1 & G2 & G3) & _).
    destruct (char_facts _ G0) as (_ & _ & A0).
    destruct (char_facts _ G1) as (_ & _ & A1).
    destruct (char_facts _ G2) as (_ & _ & A2).
    destruct (char_facts _ G3) as (_ & _ & A3).
    cbn [Base64.b64encode Base64.is_ascii]. rewrite A0, A1, A2, A3, IH. reflexivity.
Qed.

Lemma b64decode_b64encode (b : string) :
  Base64.b64decode (Base64.b64encode b) = Return b.
Proof.
  unfold Base64.b64decode. now rewrite b64encode_is_ascii, a2b_b64encode.
Qed.

Lemma length_b64encode (b : string) :
  String.length (Base64.b64encode b) = (4 * ((String.length b + 2) / 3))%nat.
Proof.
  induction b as [|c0|c0 c1|c0 c1 c2 rest IH] using bytes_ind3; try reflexivity.
  cbn [Base64.b64encode String.length]. rewrite IH.
  replace (S (S (S (String.length rest))) + 2)%nat
    with (1 * 3 + (String.length rest + 2))%nat by lia.
  rewrite Nat.div_add_l by lia. lia.
Qed.

(** A character outside the alphabet leaves the decoder's state as it
    is, wherever it stands. *)
Lemma a2b_foreign_character (a b : string) (c : ascii) (q l p : N) :
  Ascii.eqb c "=" = false -> Base64.digit c = None ->
  Base64.a2b_base64_from q l p (a +:+ String c b) = Base64.a2b_base64_from q l p (a +:+ b).
Proof.
  intros Hp Hd. revert q l p. induction a as [|c0 a IH]; intros q l p.
  - rewrite !append_nil_l. now apply a2b_skip.
  - rewrite !append_cons. cbn [Base64.a2b_base64_from].
    repeat case_match; try reflexivity; rewrite ?IH; reflexivity.
Qed.

Lemma emit_none (n : N) : Base64.emit n None = None.
Proof. reflexivity. Qed.

(** A cut that is not at a multiple of four characters leaves a group
    open. *)
Lemma a2b_truncated (b s t : string) :
  Base64.b64encode b = s +:+ t ->
  (String.length s mod 4 <> 0)%nat ->
  Base64.a2b_base64 s = None.
Proof.
  unfold Base64.a2b_base64. revert s t.
  induction b as [|c0|c0 c1|c0 c1 c2 rest IH] using bytes_ind3; intros s t Hs Hlen.
  - destruct s; [simpl in Hlen; lia|discriminate].
  - pose proof (group_values (code c0) 0 0 (N_ascii_bounded c0) eq_refl eq_refl) as G.
    cbv zeta in G. change (N.shiftr 0 4) with 0 in G. rewrite N.lor_0_r in G.
    destruct G as ((G0 & G1 & _ & _) & _).
    destruct (char_facts _ G0) as (D0 & P0 & _).
    destruct (char_facts _ G1) as (D1 & P1 & _).
    cbn [Base64.b64encode] in Hs.
    destruct s as [|a0 [|a1 [|a2 [|a3 s]]]]; rewrite ?append_cons, ?append_nil_l in Hs;
      try (simpl in Hlen; lia).
    + injection Hs as <- _. now rewrite (a2b_data0 _ _ _ _ _ P0 D0).
    + injection Hs as <- <- _.
      now rewrite (a2b_data0 _ _ _ _ _ P0 D0), (a2b_data1 _ _ _ _ _ P1 D1).
    + injection Hs as <- <- <- _.
      now rewrite (a2b_data0 _ _ _ _ _ P0 D0), (a2b_data1 _ _ _ _ _ P1 D1), a2b_pad.
    + injection Hs as _ _ _ _ Hs. destruct s; [simpl in Hlen; lia|].
      rewrite append_cons in Hs. discriminate.
  - pose proof (group_values (code c0) (code c1) 0
                  (N_ascii_bounded c0) (N_ascii_bounded c1) eq_refl) as G.
    cbv zeta in G. change (N.shiftr 0 6) with 0 in G. rewrite N.lor_0_r in G.
    destruct G as ((G0 & G1 & G2 & _) & _).
    destruct (char_facts _ G0) as (D0 & P0 & _).
    destruct (char_facts _ G1) as (D1 & P1 & _).
    destruct (char_facts _ G2) as (D2 & P2 & _).
    cbn [Base64.b64encode] in Hs.
    destruct s as [|a0 [|a1 [|a2 [|a3 s]]]]; rewrite ?append_cons, ?append_nil_l in Hs;
      try (simpl in Hlen; lia).
    + injection Hs as <- _. now rewrite (a2b_data0 _ _ _ _ _ P0 D0).
    + injection Hs as <- <- _.
      now rewrite (a2b_data0 _ _ _ _ _ P0 D0), (a2b_data1 _ _ _ _ _ P1 D1).
    + injection Hs as <- <- <- _.
      now rewrite (a2b_data0 _ _ _ _ _ P0 D0), (a2b_data1 _ _ _ _ _ P1 D1),
                  (a2b_data2 _ _ _ _ _ P2 D2).
    + injection Hs as _ _ _ _ Hs. destruct s; [simpl in Hlen; lia|].
      rewrite append_cons in Hs. discriminate.
  - pose proof (group_values (code c0) (code c1) (code c2)
                  (N_ascii_bounded c0) (N_ascii_bounded c1) (N_ascii_bounded c2)) as G.
    cbv zeta in G.
    destruct G as ((G0 & G1 & G2 & G3) & _).
    destruct (char_facts _ G0) as (D0 & P0 & _).
    destruct (char_facts _ G1) as (D1 & P1 & _).
    destruct (char_facts _ G2) as (D2 & P2 & _).
    destruct (char_facts _ G3) as (D3 & P3 & _).
    cbn [Base64.b64encode] in Hs.
    destruct s as [|a0 [|a1 [|a2 [|a3 s]]]]; rewrite ?append_cons, ?append_nil_l in Hs;
      try (simpl in Hlen; lia).
    + injection Hs as <- _. now rewrite (a2b_data0 _ _ _ _ _ P0 D0).
    + injection Hs as <- <- _.
      now rewrite (a2b_data0 _ _ _ _ _ P0 D0), (a2b_data1 _ _ _ _ _ P1 D1).
    + injection Hs as <- <- <- _.
      now rewrite (a2b_data0 _ _ _ _ _ P0 D0), (a2b_data1 _ _ _ _ _ P1 D1),
                  (a2b_data2 _ _ _ _ _ P2 D2).
    + injection Hs as <- <- <- <- Hs.
      rewrite (a2b_data0 _ _ _ _ _ P0 D0), (a2b_data1 _ _ _ _ _ P1 D1),
              (a2b_data2 _ _ _ _ _ P2 D2), (a2b_data3 _ _ _ _ _ P3 D3).
      rewrite (IH s t Hs); [reflexivity|].
      change (String.length (String _ (String _ (String _ (String _ s)))))
        with (4 + String.length s)%nat in Hlen.
      intros H. apply Hlen.
      rewrite Nat.Div0.add_mod, H by lia. reflexivity.
Qed.

End Base64Facts.

Section Endpoint.
Context {R : PyRuntime}.

(** X12.  The screenshot round trip.  The base64 encoding of any bytes,
    four characters for every three bytes with the last group padded, is
    decoded by [POST /predict] to exactly those bytes. *)
Theorem screenshot_round_trip (png : string) (history : list string) (cx cy : Z) :
  Base64.b64decode (Base64.b64encode png) = Return png /\
  String.length (Base64.b64encode png) = (4 * ((String.length png + 2) / 3))%nat /\
  Server.decode_screenshot
    {| Server.screenshot := Base64.b64encode png; Server.history := history;
       Server.cursor_x := cx; Server.cursor_y := cy |} = png.
Proof.
  split; [apply b64decode_b64encode|]. split; [apply length_b64encode|].
  unfold Server.decode_screenshot. simpl Server.screenshot.
  now rewrite b64decode_b64encode.
Qed.

(** X13.  Characters outside the base64 alphabet.  An ASCII character
    that is neither of the alphabet nor the pad character, such as a line
    break or a space, is skipped by the decoder wherever it stands: the
    screenshot decodes as if the character were not there. *)
Theorem screenshot_skips_foreign_characters (a b : string) (c : ascii) :
  (code c < 128)%N -> Base64.digit c = None -> c <> "="%char ->
  Base64.b64decode (a +:+ String c b) = Base64.b64decode (a +:+ b).
Proof.
  intros Hc Hd Hp. unfold Base64.b64decode.
  rewrite !is_ascii_app. cbn [Base64.is_ascii].
  apply N.ltb_lt in Hc. rewrite Hc. cbn [andb].
  unfold Base64.a2b_base64. rewrite a2b_foreign_character; [reflexivity| |exact Hd].
  now apply Ascii.eqb_neq.
Qed.

(** X14.  A screenshot that is cut short.  When the text received is the
    beginning of an encoding and its length is not a multiple of four,
    which is also what an encoding without its padding looks like,
    [b64decode] raises and the endpoint goes on with empty bytes. *)
Theorem truncated_screenshot_is_dropped (png s t : string) (history : list string)
    (cx cy : Z) :
  Base64.b64encode png = s +:+ t ->
  (String.length s mod 4 <> 0)%nat ->
  Base64.b64decode s = Raise (ValueError "binascii.Error") /\
  Server.decode_screenshot
    {| Server.screenshot := s; Server.history := history;
       Server.cursor_x := cx; Server.cursor_y := cy |} = EmptyString.
Proof.
  intros Hs Hlen.
  assert (Ha : Base64.is_ascii s = true).
  { pose proof (b64encode_is_ascii png) as H. rewrite Hs, is_ascii_app in H.
    now apply andb_true_iff in H. }
  assert (Hd : Base64.b64decode s = Raise (ValueError "binascii.Error")).
  { unfold Base64.b64decode. now rewrite Ha, (a2b_truncated png s t Hs Hlen). }
  split; [exact Hd|]. unfold Server.decode_screenshot. simpl Server.screenshot.
  now rewrite Hd.
Qed.

(** X15.  [POST /predict] always answers.  With a predictor installed the
    endpoint returns a prediction for every request.  A screenshot that
    [b64decode] rejects is replaced by empty bytes and the request is
    served all the same; a well-encoded one reaches [predict] as the
    bytes it encodes; and a predictor without a model gives the same
    answer whatever the screenshot and the history are. *)
Theorem endpoint_always_answers (E : Env) (p : ActionPredictor)
    (req : Server.PredictionRequest) (st : State) :
  RandomOk E ->
  (exists r, fst (Server.predict E (Some p) req st) = Return r) /\
  (forall e, Base64.b64decode (Server.screenshot req) = Raise e ->
     Server.predict E (Some p) req st
       = predict E p EmptyString (Server.history req)
           (Server.cursor_x req) (Server.cursor_y req) st) /\
  (forall png, Server.screenshot req = Base64.b64encode png ->
     Server.predict E (Some p) req st
       = predict E p png (Server.history req)
           (Server.cursor_x req) (Server.cursor_y req) st) /\
  (model p = None ->
     forall shot h,
       Server.predict E (Some p)
         {| Server.screenshot := shot; Server.history := h;
            Server.cursor_x := Server.cursor_x req;
            Server.cursor_y := Server.cursor_y req |} st
       = Server.predict E (Some p) req st).
Proof.
  intros HR. unfold Server.predict. split_and!.
  - destruct (predict_result_shape E p (Server.decode_screenshot req) (Server.history req)
                (Server.cursor_x req) (Server.cursor_y req) st HR) as (r & Hr & _).
    now exists r.
  - intros e He. unfold Server.decode_screenshot. now rewrite He.
  - intros png Hpng. unfold Server.decode_screenshot.
    now rewrite Hpng, b64decode_b64encode.
  - intros Hm shot h. unfold predict. now rewrite Hm.
Qed.

End Endpoint.

(** ** Concrete runs of the further properties *)

Section FurtherRuns.
#[local] Existing Instance Cpython.runtime.

(** A text reply whose text is [null] types the word [None]. *)
Lemma parse_text_reply_run :
  _parse_response (jq "{'action_type':'text','text':null}") 10 20
    = Return (text_response 10 20 "None" (PyFloat.dec 5 (-1))).
Proof.
  destruct (parse_text_reply
              (jq "{'action_type':'text','text':null}")
              (jq "{'action_type':'text','text':null}")
              [("action_type", PyStr "text"); ("text", PyNone)]
              10 20 (PyFloat.dec 5 (-1)) eq_refl eq_refl eq_refl eq_refl)
    as (_ & _ & Hn & _).
  exact (Hn eq_refl).
Defined.

(** An extra key and another order of the keys change nothing. *)
Lemma parse_reads_five_keys_run :
  _parse_response (jq "{'action_type':'click','x':1,'note':'a'}") 10 20
    = _parse_response (jq "ok {'x':1,'action_type':'click'}") 10 20.
Proof.
  refine (proj1 (parse_reads_five_keys
                   (jq "{'action_type':'click','x':1,'note':'a'}")
                   (jq "ok {'x':1,'action_type':'click'}")
                   (jq "{'action_type':'click','x':1,'note':'a'}")
                   (jq "{'x':1,'action_type':'click'}")
                   [("action_type", PyStr "click"); ("x", PyInt 1); ("note", PyStr "a")]
                   [("x", PyInt 1); ("action_type", PyStr "click")]
                   10 20 eq_refl eq_refl eq_refl eq_refl _)).
  intros k [<-|[<-|[<-|[<-|[<-|[]]]]]]; reflexivity.
Defined.


Lemma prediction_fields_run :
  RandomOk (Demo.scripted "no json here") /\
  exists r vx vy,
    fst (predict (Demo.scripted "no json here") Demo.ready EmptyString nil 10 20 Demo.st0)
      = Return r /\
    x r = Some vx /\ y r = Some vy.
Proof.
  split; [apply demo_random_ok|].
  destruct (prediction_fields (Demo.scripted "no json here") Demo.ready EmptyString nil
              10 20 Demo.st0 (demo_random_ok _))
    as (r & Hr & (vx & vy & Hx & Hy) & _).
  now exists r, vx, vy.
Defined.

Lemma mock_prediction_position_run :
  RandomOk (Demo.scripted EmptyString) /\
  exists r vx vy,
    fst (_mock_predict (Demo.scripted EmptyString) 10 20 Demo.st0) = Return r /\
    x r = Some vx /\ y r = Some vy /\
    Z.abs (vx - 10) <= 150 /\ Z.abs (vy - 20) <= 150.
Proof.
  split; [apply demo_random_ok|].
  destruct (mock_prediction_position (Demo.scripted EmptyString) 10 20 Demo.st0
              (demo_random_ok _))
    as (r & vx & vy & Hr & Hx & Hy & _ & _ & Hcx & Hcy).
  exists r, vx, vy. split_and!; [exact Hr|exact Hx|exact Hy|apply Hcx; lia|apply Hcy; lia].
Defined.

(** The prompt followed by a good answer is still parsed to the
    fallback. *)
Lemma prompt_echo_is_fallback_run :
  _parse_response
    (build_prompt 10 20 ["click at (3, 4)"] +:+ jq " {'action_type':'click','x':1,'y':2}")
    10 20
    = Return (none_response 10 20).
Proof.
  apply (prompt_echo_is_fallback 10 20 10 20 ["click at (3, 4)"]
           (jq " {'action_type':'click','x':1,'y':2}")).
  repeat constructor.
Defined.

Lemma parse_drops_outer_brace_run :
  _parse_response (jq "{'prediction': {'action_type':'click','x':1,'y':2}}") 10 20
    = _parse_response (jq "{'action_type':'click','x':1,'y':2}}") 10 20.
Proof.
  exact (proj1 (proj2 (parse_drops_outer_brace
                         (jq "'prediction': ")
                         (jq "'action_type':'click','x':1,'y':2}}")
                         10 20 eq_refl))).
Defined.

(** A space inside the screenshot changes nothing. *)
Lemma screenshot_skips_foreign_characters_run :
  Base64.b64decode "QU JD" = Base64.b64decode "QUJD".
Proof.
  apply (screenshot_skips_foreign_characters "QU" "JD" " "); [reflexivity|reflexivity|].
  discriminate.
Defined.

(** The encoding of two bytes without its pad character is rejected. *)
Lemma truncated_screenshot_is_dropped_run :
  Base64.b64encode "AB" = "QUI=" /\
  Base64.b64decode "QUI" = Raise (ValueError "binascii.Error").
Proof.
  split; [reflexivity|].
  refine (proj1 (truncated_screenshot_is_dropped "AB" "QUI" "=" nil 0 0 eq_refl _)).
  simpl. lia.
Defined.

Lemma endpoint_always_answers_run :
  RandomOk (Demo.scripted "no json here") /\
  exists r,
    fst (Server.predict (Demo.scripted "no json here") (Some Demo.ready)
           {| Server.screenshot := "not base64!"; Server.history := nil;
              Server.cursor_x := 10; Server.cursor_y := 20 |} Demo.st0) = Return r.
Proof.
  split; [apply demo_random_ok|].
  exact (proj1 (endpoint_always_answers (Demo.scripted "no json here") Demo.ready
                  {| Server.screenshot := "not base64!"; Server.history := nil;
                     Server.cursor_x := 10; Server.cursor_y := 20 |} Demo.st0
                  (demo_random_ok _))).
Defined.

End FurtherRuns.
